(** * NotionQM: the Notion task synchroniser of [NotionQM.py]

    A shallow embedding of class [NotionTaskManager] and of the script's
    entry point, followed by the properties of the batch filter-update
    loop that its specification states.

    Python values that come from, or go to, the Notion API are JSON
    values; dictionaries keep their insertion order, so they are
    association lists.  Everything the script does to the outside world
    (schema retrieval, queries, record updates, clock reads, log lines)
    is threaded through an explicit [world]. *)

From Stdlib Require Import String Ascii List ZArith Bool Lia.
Import ListNotations.
Open Scope string_scope.
Open Scope Z_scope.

Set Warnings "-register-all,-notation-for-abbreviation".

(* ------------------------------------------------------------------ *)
(** ** Strings *)

Module Str.

(** Python [str] values are sequences of code points; here a string
    is the sequence of bytes of its UTF-8 encoding, and the code
    points are recovered by grouping every lead byte with the
    continuation bytes (10xxxxxx) that follow it. *)

Definition bytes (l : list nat) : string :=
  fold_right (fun n s => String (ascii_of_nat n) s) EmptyString l.

Definition is_cont (a : ascii) : bool :=
  let n := nat_of_ascii a in (Nat.leb 128 n && Nat.ltb n 192)%bool.

Fixpoint chars (s : string) : list string :=
  match s with
  | EmptyString => []
  | String a r =>
      let rest := chars r in
      match r, rest with
      | String b _, c :: cs =>
          if is_cont b then String a c :: cs
          else String a EmptyString :: rest
      | _, _ => String a EmptyString :: rest
      end
  end.

(** The code points Python treats as white space in [str.strip()]:
    U+0009..U+000D, U+001C..U+0020, U+0085, U+00A0, U+1680,
    U+2000..U+200A, U+2028, U+2029, U+202F, U+205F, U+3000. *)
Definition whitespace : list string :=
  map bytes
    [ [9%nat]; [10%nat]; [11%nat]; [12%nat]; [13%nat];
      [28%nat]; [29%nat]; [30%nat]; [31%nat]; [32%nat];
      [194; 133]%nat; [194; 160]%nat; [225; 154; 128]%nat;
      [226; 128; 128]%nat; [226; 128; 129]%nat; [226; 128; 130]%nat;
      [226; 128; 131]%nat; [226; 128; 132]%nat; [226; 128; 133]%nat;
      [226; 128; 134]%nat; [226; 128; 135]%nat; [226; 128; 136]%nat;
      [226; 128; 137]%nat; [226; 128; 138]%nat;
      [226; 128; 168]%nat; [226; 128; 169]%nat; [226; 128; 175]%nat;
      [226; 129; 159]%nat; [227; 128; 128]%nat ].

Definition is_space (c : string) : bool :=
  existsb (String.eqb c) whitespace.

Fixpoint drop_space (cs : list string) : list string :=
  match cs with
  | c :: r => if is_space c then drop_space r else cs
  | [] => []
  end.

(** [s.strip()] *)
Definition strip (s : string) : string :=
  String.concat "" (rev (drop_space (rev (drop_space (chars s))))).

(** [s.split(",")]: never empty, [""] for the empty string. *)
Fixpoint split_comma (s : string) : list string :=
  match s with
  | EmptyString => [""]
  | String a r =>
      if Ascii.eqb a ","%char then "" :: split_comma r
      else match split_comma r with
           | p :: ps => String a p :: ps
           | [] => [String a EmptyString]
           end
  end.

(** Truth value of a [str]. *)
Definition nonempty (s : string) : bool :=
  match s with EmptyString => false | _ => true end.

(** [sep.join(parts)] *)
Definition join (sep : string) (parts : list string) : string :=
  String.concat sep parts.

Definition newline : string := bytes [10%nat].

(** [needle in s] *)
Definition occurs_in (needle s : string) : Prop :=
  exists pre post, s = pre ++ needle ++ post.

End Str.

(* ------------------------------------------------------------------ *)
(** ** JSON values and dictionaries *)

(** The values the script handles: [None], booleans, integers, strings,
    lists and dictionaries.  The script reads no number from the
    service, so fractional numbers are left out. *)
Inductive json : Type :=
| JNone
| JBool (b : bool)
| JInt (n : Z)
| JStr (s : string)
| JList (l : list json)
| JDict (d : list (string * json)).

(** A Python [dict] with [str] keys, in insertion order. *)
Definition dict := list (string * json).

Module Dict.

Fixpoint lookup {A} (k : string) (d : list (string * A)) : option A :=
  match d with
  | [] => None
  | (k', v) :: r => if String.eqb k k' then Some v else lookup k r
  end.

(** [d[k] = v]: an existing key keeps its place, a new one goes last. *)
Fixpoint set {A} (k : string) (v : A) (d : list (string * A))
  : list (string * A) :=
  match d with
  | [] => [(k, v)]
  | (k', v') :: r =>
      if String.eqb k k' then (k', v) :: r else (k', v') :: set k v r
  end.

Definition keys {A} (d : list (string * A)) : list string := map fst d.

End Dict.

(** [None] or a [str], as [os.getenv] returns it. *)
Definition of_opt (o : option string) : json :=
  match o with Some s => JStr s | None => JNone end.

(** An f-string or message, kept as its literal pieces and the values
    interpolated into it (their rendering by [str()] is not modelled). *)
Inductive piece : Type :=
| Lit (s : string)
| Val (v : json).

(* ------------------------------------------------------------------ *)
(** ** Exceptions and results *)

Inductive exn : Type :=
| KeyError (key : json)
| IndexError
| TypeError
| AttributeError
| ValueError (message : list piece)
| APIResponseError (body : json)
| OtherException (what : string).

(** The outcome of running a piece of the script.  [OutOfFuel] is not
    a Python exception: it only marks a [while True] loop that has not
    finished within the given number of iterations, and no [except]
    clause sees it. *)
Inductive result (A : Type) : Type :=
| Ok (a : A)
| Raise (e : exn)
| OutOfFuel.
Arguments Ok {A} a.
Arguments Raise {A} e.
Arguments OutOfFuel {A}.

(* ------------------------------------------------------------------ *)
(** ** Python operations on JSON values *)

Module Py.

(** [bool(v)] *)
Definition truthy (v : json) : bool :=
  match v with
  | JNone => false
  | JBool b => b
  | JInt n => negb (n =? 0)
  | JStr s => Str.nonempty s
  | JList l => match l with [] => false | _ => true end
  | JDict d => match d with [] => false | _ => true end
  end.

(** [l[i]] on a sequence, negative indices counting from the end. *)
Definition seq_index {A} (l : list A) (i : Z) : option A :=
  let n := Z.of_nat (length l) in
  let j := if i <? 0 then i + n else i in
  if (0 <=? j) && (j <? n) then nth_error l (Z.to_nat j) else None.

Definition index_result (o : option json) : result json :=
  match o with Some v => Ok v | None => Raise IndexError end.

(** [c[k]] *)
Definition getitem (c k : json) : result json :=
  match c with
  | JDict d =>
      match k with
      | JStr s =>
          match Dict.lookup s d with
          | Some v => Ok v
          | None => Raise (KeyError k)
          end
      | JNone | JBool _ | JInt _ => Raise (KeyError k)
      | JList _ | JDict _ => Raise TypeError
      end
  | JList l =>
      match k with
      | JInt i => index_result (seq_index l i)
      | JBool b => index_result (seq_index l (if b then 1 else 0))
      | _ => Raise TypeError
      end
  | JStr s =>
      match k with
      | JInt i => index_result (seq_index (map JStr (Str.chars s)) i)
      | JBool b =>
          index_result
            (seq_index (map JStr (Str.chars s)) (if b then 1 else 0))
      | _ => Raise TypeError
      end
  | JNone | JBool _ | JInt _ => Raise TypeError
  end.

(** [c.get(k, default)]: only a [dict] has the method. *)
Definition get (c : json) (k : string) (default : json) : result json :=
  match c with
  | JDict d =>
      match Dict.lookup k d with
      | Some v => Ok v
      | None => Ok default
      end
  | _ => Raise AttributeError
  end.

(** The items a [for] loop over [v] visits. *)
Definition iter (v : json) : result (list json) :=
  match v with
  | JList l => Ok l
  | JDict d => Ok (map JStr (Dict.keys d))
  | JStr s => Ok (map JStr (Str.chars s))
  | JNone | JBool _ | JInt _ => Raise TypeError
  end.

(** [len(v)] *)
Definition len (v : json) : result Z :=
  match v with
  | JList l => Ok (Z.of_nat (length l))
  | JDict d => Ok (Z.of_nat (length d))
  | JStr s => Ok (Z.of_nat (length (Str.chars s)))
  | JNone | JBool _ | JInt _ => Raise TypeError
  end.

(** [v == t] for [t] a [str] or [None] (the only comparison the
    script makes): no value of another type is equal to either. *)
Definition eq_opt_str (v : json) (t : option string) : bool :=
  match v, t with
  | JStr s, Some t => String.eqb s t
  | JNone, None => true
  | _, _ => false
  end.

End Py.

(** Pure computations that may raise. *)
Definition rbind {A B} (r : result A) (k : A -> result B) : result B :=
  match r with
  | Ok a => k a
  | Raise e => Raise e
  | OutOfFuel => OutOfFuel
  end.

Notation "x <~ r ;; k" := (rbind r (fun x => k))
  (at level 100, r at next level, right associativity).

(* ------------------------------------------------------------------ *)
(** ** Configuration: [_parse_list] and [_load_config] *)

(** [self.config]: a dictionary with these seven keys, always. *)
Record config : Type := mkConfig {
  FREQUENCY_STATUS : list string;
  STATUS_COLUMNS : list string;
  TARGET_STATUS : option string;
  NOTION_API_KEY : option string;
  NOTION_DATABASE_ID : option string;
  TIME_COLUMN : option string;
  FREQUENCY_NAME : option string
}.

(** The process environment, as [os.getenv] reads it. *)
Definition environ := string -> option string.

(** [[v.strip() for v in (value or "").split(",") if v.strip()]] *)
Definition _parse_list (value : option string) : list string :=
  let value_or_empty := match value with Some s => s | None => "" end in
  filter Str.nonempty (map Str.strip (Str.split_comma value_or_empty)).

Definition required_fields : list (string * string) :=
  [ ("NOTION_API_KEY", "必须配置API密钥");
    ("NOTION_DATABASE_ID", "必须配置数据库ID");
    ("FREQUENCY_STATUS", "必须配置频率状态");
    ("STATUS_COLUMNS", "必须配置状态列");
    ("TARGET_STATUS", "必须配置目标状态") ].

(** The items of the [config] dictionary, in the order of its literal. *)
Definition config_items (c : config) : dict :=
  [ ("FREQUENCY_STATUS", JList (map JStr (FREQUENCY_STATUS c)));
    ("STATUS_COLUMNS", JList (map JStr (STATUS_COLUMNS c)));
    ("TARGET_STATUS", of_opt (TARGET_STATUS c));
    ("NOTION_API_KEY", of_opt (NOTION_API_KEY c));
    ("NOTION_DATABASE_ID", of_opt (NOTION_DATABASE_ID c));
    ("TIME_COLUMN", of_opt (TIME_COLUMN c));
    ("FREQUENCY_NAME", of_opt (FREQUENCY_NAME c)) ].

(** [config.get(k)] *)
Definition config_get (c : config) (k : string) : json :=
  match Dict.lookup k (config_items c) with
  | Some v => v
  | None => JNone
  end.

(** [[k for k, v in required_fields.items() if not config.get(k)]] *)
Definition missing_fields (c : config) : list string :=
  map fst
    (filter (fun kv => negb (Py.truthy (config_get c (fst kv))))
       required_fields).

(** [required_fields[k]], for [k] one of its keys. *)
Definition required_message (k : string) : string :=
  match Dict.lookup k required_fields with
  | Some text => text
  | None => ""
  end.

Definition _load_config (getenv : environ) : result config :=
  let config :=
    {| FREQUENCY_STATUS := _parse_list (getenv "FREQUENCY_STATUS");
       STATUS_COLUMNS := _parse_list (getenv "STATUS_COLUMNS");
       TARGET_STATUS := getenv "TARGET_STATUS";
       NOTION_API_KEY := getenv "NOTION_API_KEY";
       NOTION_DATABASE_ID := getenv "NOTION_DATABASE_ID";
       TIME_COLUMN := getenv "TIME_COLUMN";
       FREQUENCY_NAME := getenv "FREQUENCY_NAME" |} in
  let missing := missing_fields config in
  match missing with
  | _ :: _ =>
      Raise (ValueError
               [Lit (Str.join Str.newline (map required_message missing))])
  | [] => Ok config
  end.

(* ------------------------------------------------------------------ *)
(** ** The outside world *)

(** What a call of the Notion client comes back with: a JSON value, an
    [APIResponseError] carrying a body, or any other exception (a
    timeout, a transport error). *)
Inductive response : Type :=
| Returned (v : json)
| ApiError (body : json)
| Failure (what : string).

(** The remote service.  Each operation is given the number of earlier
    calls of the same operation in this run and the arguments of the
    call, so that its answers may depend on both. *)
Record notion_api : Type := mkApi {
  databases_retrieve : nat -> json -> response;
  databases_query : nat -> json -> response;
  pages_update : nat -> json -> response
}.

Inductive log_entry : Type :=
| INFO (message : list piece)
| ERROR (message : list piece)
| ERROR_exn (prefix : string) (e : exn).

(** The state a run reads and writes: the two [lru_cache]s of the
    manager, the number of clock reads, the calls made to the remote
    service with their answers, and the log. *)
Record world : Type := mkWorld {
  schema_cache : option json;
  status_cache : list (string * json);
  clock_reads : nat;
  retrieve_calls : list (json * response);
  query_calls : list (json * response);
  update_calls : list (json * response);
  log : list log_entry
}.

Definition initial_world : world :=
  mkWorld None [] 0 [] [] [] [].

Definition with_schema_cache (c : option json) (w : world) : world :=
  mkWorld c (status_cache w) (clock_reads w) (retrieve_calls w)
    (query_calls w) (update_calls w) (log w).

Definition with_status_cache (c : list (string * json)) (w : world) : world :=
  mkWorld (schema_cache w) c (clock_reads w) (retrieve_calls w)
    (query_calls w) (update_calls w) (log w).

Definition with_clock_reads (n : nat) (w : world) : world :=
  mkWorld (schema_cache w) (status_cache w) n (retrieve_calls w)
    (query_calls w) (update_calls w) (log w).

Definition with_retrieve_calls (l : list (json * response)) (w : world)
  : world :=
  mkWorld (schema_cache w) (status_cache w) (clock_reads w) l
    (query_calls w) (update_calls w) (log w).

Definition with_query_calls (l : list (json * response)) (w : world)
  : world :=
  mkWorld (schema_cache w) (status_cache w) (clock_reads w)
    (retrieve_calls w) l (update_calls w) (log w).

Definition with_update_calls (l : list (json * response)) (w : world)
  : world :=
  mkWorld (schema_cache w) (status_cache w) (clock_reads w)
    (retrieve_calls w) (query_calls w) l (log w).

Definition with_log (l : list log_entry) (w : world) : world :=
  mkWorld (schema_cache w) (status_cache w) (clock_reads w)
    (retrieve_calls w) (query_calls w) (update_calls w) l.

(* ------------------------------------------------------------------ *)
(** ** The monad of the script: state and exceptions *)

Definition M (A : Type) : Type := world -> world * result A.

Definition ret {A} (a : A) : M A := fun w => (w, Ok a).

Definition bind {A B} (m : M A) (k : A -> M B) : M B :=
  fun w =>
    match m w with
    | (w', Ok a) => k a w'
    | (w', Raise e) => (w', Raise e)
    | (w', OutOfFuel) => (w', OutOfFuel)
    end.

Notation "x <- m ;; k" := (bind m (fun x => k))
  (at level 100, m at next level, right associativity).
Notation "m ;;; k" := (bind m (fun _ => k))
  (at level 100, right associativity).

Definition raise {A} (e : exn) : M A := fun w => (w, Raise e).

Definition out_of_fuel {A} : M A := fun w => (w, OutOfFuel).

Definition lift {A} (r : result A) : M A := fun w => (w, r).

Definition gets {A} (f : world -> A) : M A := fun w => (w, Ok (f w)).

Definition modify (f : world -> world) : M unit := fun w => (f w, Ok tt).

(** [try: body / except APIResponseError as e: handler(e.body)] *)
Definition try_except_APIResponseError {A}
  (body : M A) (handler : json -> M A) : M A :=
  fun w =>
    match body w with
    | (w', Raise (APIResponseError b)) => handler b w'
    | other => other
    end.

(** [try: body / except Exception as e: handler(e)] *)
Definition try_except_Exception {A} (body : M A) (handler : exn -> M A)
  : M A :=
  fun w =>
    match body w with
    | (w', Raise e) => handler e w'
    | other => other
    end.

Definition logger_info (message : list piece) : M unit :=
  modify (fun w => with_log (log w ++ [INFO message]) w).

Definition logger_error (message : list piece) : M unit :=
  modify (fun w => with_log (log w ++ [ERROR message]) w).

Definition logger_error_exn (prefix : string) (e : exn) : M unit :=
  modify (fun w => with_log (log w ++ [ERROR_exn prefix e]) w).

(** A call of the client: the answer is recorded, and anything but a
    returned value is raised. *)
Definition answer (r : response) : M json :=
  match r with
  | Returned v => ret v
  | ApiError body => raise (APIResponseError body)
  | Failure what => raise (OtherException what)
  end.

(* ------------------------------------------------------------------ *)
(** ** [functools.lru_cache] *)

Module Lru.

(** The entries of a cache, most recently used first. *)
Definition cache := list (string * json).

Definition remove (k : string) (c : cache) : cache :=
  filter (fun kv => negb (String.eqb k (fst kv))) c.

(** A hit moves the entry to the front. *)
Definition touch (k : string) (v : json) (c : cache) : cache :=
  (k, v) :: remove k c.

(** A miss stores the new entry and drops the least recently used
    ones beyond [maxsize]. *)
Definition insert (maxsize : nat) (k : string) (v : json) (c : cache)
  : cache :=
  firstn maxsize ((k, v) :: remove k c).

End Lru.

(* ------------------------------------------------------------------ *)
(** ** The static methods of [NotionTaskManager] *)

Definition title_property : string := "任务名称".
Definition untitled : string := "无标题".

(** [title_prop.get("title", [{}])[0].get("plain_text", "无标题")] *)
Definition _get_page_title (page : json) : result json :=
  properties <~ Py.getitem page (JStr "properties") ;;
  title_prop <~ Py.get properties title_property (JDict []) ;;
  title <~ Py.get title_prop "title" (JList [JDict []]) ;;
  first <~ Py.getitem title (JInt 0) ;;
  Py.get first "plain_text" (JStr untitled).

(** The per-type entries of [filter_type_map]. *)
Record filter_config : Type := mkFilterConfig {
  type : string;
  operator : string;
  value_mapper : json -> json
}.

Definition filter_type_map : list (string * filter_config) :=
  [ ("rich_text", mkFilterConfig "rich_text" "contains" (fun x => x));
    ("select", mkFilterConfig "select" "equals" (fun x => x));
    ("multi_select", mkFilterConfig "multi_select" "contains" (fun x => x)) ].

(** [target[k1][k2] = v] on the dictionary [target]: the inner
    dictionary is shared with [target], so the assignment shows in it. *)
Definition setitem2 (target : dict) (k1 k2 : string) (v : json)
  : result dict :=
  inner <~ Py.getitem (JDict target) (JStr k1) ;;
  match inner with
  | JDict d => Ok (Dict.set k1 (JDict (Dict.set k2 v d)) target)
  | _ => Raise TypeError
  end.

Fixpoint map_result {A B} (f : A -> result B) (l : list A)
  : result (list B) :=
  match l with
  | [] => Ok []
  | a :: r => b <~ f a ;; bs <~ map_result f r ;; Ok (b :: bs)
  end.

(** [schema["properties"][column]["status"]["options"]]: the declared
    options of a status column. *)
Definition declared_options (schema : json) (column : string)
  : result json :=
  properties <~ Py.getitem schema (JStr "properties") ;;
  column_info <~ Py.getitem properties (JStr column) ;;
  status <~ Py.getitem column_info (JStr "status") ;;
  Py.getitem status (JStr "options").

(* ------------------------------------------------------------------ *)
(** ** The manager *)

Section Manager.

(** [self.config], the remote service behind [self.notion], and the
    clock: [now_isoformat n] is what the n-th read of
    [datetime.now(timezone.utc).isoformat()] gives. *)
Variable cfg : config.
Variable api : notion_api.
Variable now_isoformat : nat -> string.

Definition notion_databases_retrieve (database_id : json) : M json :=
  n <- gets (fun w => length (retrieve_calls w)) ;;
  let r := databases_retrieve api n database_id in
  modify (fun w =>
            with_retrieve_calls (retrieve_calls w ++ [(database_id, r)]) w) ;;;
  answer r.

Definition notion_databases_query (query : json) : M json :=
  n <- gets (fun w => length (query_calls w)) ;;
  let r := databases_query api n query in
  modify (fun w => with_query_calls (query_calls w ++ [(query, r)]) w) ;;;
  answer r.

Definition notion_pages_update (update_data : json) : M json :=
  n <- gets (fun w => length (update_calls w)) ;;
  let r := pages_update api n update_data in
  modify (fun w =>
            with_update_calls (update_calls w ++ [(update_data, r)]) w) ;;;
  answer r.

(** [@lru_cache(maxsize=1)]: the only key is [self], and a raised
    exception is not cached. *)
Definition _get_db_schema : M json :=
  cached <- gets schema_cache ;;
  match cached with
  | Some schema => ret schema
  | None =>
      schema <-
        try_except_APIResponseError
          (notion_databases_retrieve (of_opt (NOTION_DATABASE_ID cfg)))
          (fun body =>
             logger_error [Lit "架构获取失败: "; Val body] ;;;
             raise (APIResponseError body)) ;;
      modify (with_schema_cache (Some schema)) ;;;
      ret schema
  end.

(** [prop_type not in filter_type_map], the [ValueError] raised when
    it is not, and [filter_type_map[prop_type]] when it is.  A list
    or a dictionary is not hashable. *)
Definition unsupported_type (prop_type : json) : exn :=
  ValueError
    [ Lit "不支持的频率字段类型: "; Val prop_type;
      Lit " (支持类型: ";
      Val (JList (map JStr (Dict.keys filter_type_map))); Lit ")" ].

Definition filter_config_of (prop_type : json) : result filter_config :=
  match prop_type with
  | JStr t =>
      match Dict.lookup t filter_type_map with
      | Some config => Ok config
      | None => Raise (unsupported_type prop_type)
      end
  | JNone | JBool _ | JInt _ => Raise (unsupported_type prop_type)
  | JList _ | JDict _ => Raise TypeError
  end.

(** The dictionary literal of the loop body, before the multi-choice
    step. *)
Definition generic_condition (config : filter_config) (status : string)
  : dict :=
  Dict.set (type config)
    (JDict [(operator config, value_mapper config (JStr status))])
    [("property", of_opt (FREQUENCY_NAME cfg))].

(** The body of the [for status in ...] loop: the condition that is
    appended to [filters]. *)
Definition filter_condition (prop_type : json) (config : filter_config)
  (status : string) : result json :=
  let filter_condition := generic_condition config status in
  if Py.eq_opt_str prop_type (Some "multi_select") then
    filter_condition <~
      setitem2 filter_condition "multi_select" "contains" (JStr status) ;;
    Ok (JDict filter_condition)
  else Ok (JDict filter_condition).

Definition _build_frequency_filter : M json :=
  schema <- _get_db_schema ;;
  properties <- lift (Py.getitem schema (JStr "properties")) ;;
  prop_info <-
    lift (Py.getitem properties (of_opt (FREQUENCY_NAME cfg))) ;;
  prop_type <- lift (Py.getitem prop_info (JStr "type")) ;;
  config <- lift (filter_config_of prop_type) ;;
  filters <-
    lift (map_result (filter_condition prop_type config)
            (FREQUENCY_STATUS cfg)) ;;
  if (1 <? Z.of_nat (length filters)) then
    ret (JDict [("or", JList filters)])
  else lift (Py.getitem (JList filters) (JInt 0)).

(** The loop of [_get_status_id] over the options of the column. *)
Fixpoint find_target_option (column : string) (options : list json)
  : result json :=
  match options with
  | [] =>
      Raise (ValueError
               [ Lit "状态列 "; Val (JStr column); Lit " 中未找到 ";
                 Val (of_opt (TARGET_STATUS cfg)) ])
  | opt :: rest =>
      name <~ Py.getitem opt (JStr "name") ;;
      if Py.eq_opt_str name (TARGET_STATUS cfg) then
        Py.getitem opt (JStr "id")
      else find_target_option column rest
  end.

(** The body of [_get_status_id] once the schema is at hand. *)
Definition status_id_in (schema : json) (column : string) : result json :=
  options <~ declared_options schema column ;;
  opts <~ Py.iter options ;;
  find_target_option column opts.

Definition _get_status_id_body (column : string) : M json :=
  schema <- _get_db_schema ;;
  lift (status_id_in schema column).

(** [@lru_cache(maxsize=50)], keyed by the column. *)
Definition _get_status_id (column : string) : M json :=
  cache <- gets status_cache ;;
  match Dict.lookup column cache with
  | Some id =>
      modify (with_status_cache (Lru.touch column id cache)) ;;;
      ret id
  | None =>
      id <- _get_status_id_body column ;;
      modify (fun w =>
                with_status_cache (Lru.insert 50 column id (status_cache w))
                  w) ;;;
      ret id
  end.

Definition _current_timestamp : M json :=
  n <- gets clock_reads ;;
  modify (with_clock_reads (S n)) ;;;
  ret (JDict [("start", JStr (now_isoformat n));
              ("time_zone", JStr "Etc/GMT")]).

(** The dictionary comprehension over [STATUS_COLUMNS]. *)
Fixpoint status_properties (columns : list string) (properties : dict)
  : M dict :=
  match columns with
  | [] => ret properties
  | col :: rest =>
      id <- _get_status_id col ;;
      status_properties rest
        (Dict.set col (JDict [("status", JDict [("id", id)])]) properties)
  end.

Definition _prepare_update_data (page : json) : M json :=
  properties <- status_properties (STATUS_COLUMNS cfg) [] ;;
  properties <-
    match TIME_COLUMN cfg with
    | Some time_column =>
        if Str.nonempty time_column then
          stamp <- _current_timestamp ;;
          ret (Dict.set time_column (JDict [("date", stamp)]) properties)
        else ret properties
    | None => ret properties
    end ;;
  page_id <- lift (Py.getitem page (JStr "id")) ;;
  title <- lift (_get_page_title page) ;;
  url <- lift (Py.get page "url" (JStr "")) ;;
  ret (JDict [ ("page_id", page_id);
               ("properties", JDict properties);
               ("metadata", JDict [("title", title); ("url", url)]) ]).

(** [update_data['metadata'][k]] *)
Definition metadata (update_data : json) (k : string) : M json :=
  md <- lift (Py.getitem update_data (JStr "metadata")) ;;
  lift (Py.getitem md (JStr k)).

(** The body of [for page in pages]; the value is the new [success]. *)
Definition process_page (page : json) (success : Z) : M Z :=
  update_data <- _prepare_update_data page ;;
  try_except_APIResponseError
    (notion_pages_update update_data ;;;
     let success := success + 1 in
     title <- metadata update_data "title" ;;
     logger_info [Lit "更新成功: "; Val title] ;;;
     ret success)
    (fun body =>
       url <- metadata update_data "url" ;;
       logger_error [Lit "更新失败 "; Val url; Lit ": "; Val body] ;;;
       ret success).

Fixpoint for_page_in (pages : list json) (success : Z) : M Z :=
  match pages with
  | [] => ret success
  | page :: rest =>
      success <- process_page page success ;;
      for_page_in rest success
  end.

(** The [while True] loop, for at most [fuel] fetches. *)
Fixpoint while_true (fuel : nat) (query : dict) (success total : Z)
  : M (Z * Z) :=
  match fuel with
  | O => out_of_fuel
  | S fuel =>
      response <- notion_databases_query (JDict query) ;;
      pages <- lift (Py.get response "results" (JList [])) ;;
      n <- lift (Py.len pages) ;;
      let total := total + n in
      items <- lift (Py.iter pages) ;;
      success <- for_page_in items success ;;
      has_more <- lift (Py.get response "has_more" JNone) ;;
      if negb (Py.truthy has_more) then ret (success, total)
      else
        cursor <- lift (Py.getitem response (JStr "next_cursor")) ;;
        while_true fuel (Dict.set "start_cursor" cursor query) success total
  end.

Definition summary (total success : Z) : list piece :=
  [ Lit "处理完成 | 总数: "; Val (JInt total);
    Lit " | 成功: "; Val (JInt success);
    Lit " | 失败: "; Val (JInt (total - success)) ].

Definition batch_process_tasks (fuel : nat) : M unit :=
  try_except_Exception
    (filter <- _build_frequency_filter ;;
     let query :=
       [ ("database_id", of_opt (NOTION_DATABASE_ID cfg));
         ("filter", filter);
         ("page_size", JInt 100) ] in
     counters <- while_true fuel query 0 0 ;;
     let '(success, total) := counters in
     logger_info (summary total success))
    (fun e =>
       logger_error_exn "流程中断: " e ;;;
       raise e).

End Manager.

(** The script: [NotionTaskManager()] then [batch_process_tasks()];
    the value is the exit status, if the run ends within [fuel]
    fetches. *)
Definition main (getenv : environ) (api : notion_api)
  (now_isoformat : nat -> string) (fuel : nat) : world * option Z :=
  match _load_config getenv with
  | Ok cfg =>
      match batch_process_tasks cfg api now_isoformat fuel initial_world with
      | (w, Ok _) => (w, Some 0)
      | (w, Raise e) =>
          (with_log (log w ++ [ERROR_exn "程序终止: " e]) w, Some 1)
      | (w, OutOfFuel) => (w, None)
      end
  | Raise e =>
      (with_log [ERROR_exn "程序终止: " e] initial_world, Some 1)
  | OutOfFuel => (initial_world, None)
  end.

(* ------------------------------------------------------------------ *)
(** ** The vocabulary of the properties *)

(** The multi-choice condition the specification gives as the
    contract: property name, then multi-choice, then contains, then
    the value. *)
Definition intended_multi_select_condition (name : option string)
  (value : string) : json :=
  JDict [ ("property", of_opt name);
          ("multi_select", JDict [("contains", JStr value)]) ].

Definition supported_types : list string :=
  ["rich_text"; "select"; "multi_select"].

(** Every memoised status id is the one the schema gives. *)
Definition status_cache_coherent (cfg : config) (schema : json) (w : world)
  : Prop :=
  forall column id,
    Dict.lookup column (status_cache w) = Some id ->
    status_id_in cfg schema column = Ok id.

Definition is_returned (c : json * response) : bool :=
  match snd c with Returned _ => true | _ => false end.

Definition is_api_error (c : json * response) : bool :=
  match snd c with ApiError _ => true | _ => false end.

Definition count {A} (p : A -> bool) (l : list A) : Z :=
  Z.of_nat (length (filter p l)).

(** No update call fails with anything but an [APIResponseError]. *)
Definition updates_answered (api : notion_api) : Prop :=
  forall n args, exists v,
    pages_update api n args = Returned v \/ pages_update api n args = ApiError v.

(** The world after the update call for [update_data] came back
    with [r]. *)
Definition called (update_data : json) (r : response) (w : world) : world :=
  with_update_calls (update_calls w ++ [(update_data, r)]) w.

Definition logged (entry : log_entry) (w : world) : world :=
  with_log (log w ++ [entry]) w.

(** The world after the query [q] came back with [r]. *)
Definition queried (q : json) (r : response) (w : world) : world :=
  with_query_calls (query_calls w ++ [(q, r)]) w.

(** A step that issues no query and no update, and keeps a schema
    that is already cached. *)
Definition kept (w w' : world) : Prop :=
  query_calls w' = query_calls w /\
  update_calls w' = update_calls w /\
  (forall schema, schema_cache w = Some schema ->
                  schema_cache w' = Some schema).

Definition keeps {A} (m : M A) : Prop :=
  forall w w' r, m w = (w', r) -> kept w w'.

(** Every record of [pages] gets a payload, from any world that has
    [schema] cached. *)
Definition payloads_prepared (cfg : config) (api : notion_api)
  (now_isoformat : nat -> string) (schema : json) (pages : list json)
  : Prop :=
  forall page, In page pages ->
  forall w, schema_cache w = Some schema ->
  exists w1 update_data,
    _prepare_update_data cfg api now_isoformat page w = (w1, Ok update_data).

(** A required setting is missing when it is unset or empty, or, for
    the two comma-separated settings, when it has no item. *)
Definition setting_missing (getenv : environ) (k : string) : bool :=
  if (String.eqb k "FREQUENCY_STATUS" || String.eqb k "STATUS_COLUMNS")%bool
  then match _parse_list (getenv k) with [] => true | _ :: _ => false end
  else match getenv k with
       | None => true
       | Some s => negb (Str.nonempty s)
       end.

(* ------------------------------------------------------------------ *)
(** ** The vocabulary of the further properties *)

(** A relation between the worlds before and after every run of a
    computation. *)
Definition preserves (R : world -> world -> Prop) {A} (m : M A) : Prop :=
  forall w w' r, m w = (w', r) -> R w w'.

(** A setting that is there and not empty. *)
Definition given (o : option string) : Prop :=
  exists s, o = Some s /\ s <> "".

(** What [strip] keeps of the code points of a string. *)
Definition stripped (s : string) : list string :=
  rev (Str.drop_space (rev (Str.drop_space (Str.chars s)))).

(** Continuation bytes only. *)
Fixpoint all_cont (s : string) : bool :=
  match s with
  | EmptyString => true
  | String b r => Str.is_cont b && all_cont r
  end.

Definition group (c : string) : Prop :=
  match c with
  | EmptyString => False
  | String _ r => all_cont r = true
  end.

Definition starts_fresh (c : string) : Prop :=
  match c with
  | EmptyString => False
  | String a _ => Str.is_cont a = false
  end.

Fixpoint grouped_tail (cs : list string) : Prop :=
  match cs with
  | [] => True
  | c :: r => group c /\ starts_fresh c /\ grouped_tail r
  end.

(** The lists of code points [chars] produces: every group is one byte
    followed by continuation bytes, and every group but the first
    starts with a byte that is no continuation byte. *)
Definition grouped (cs : list string) : Prop :=
  match cs with
  | [] => True
  | c :: r => group c /\ grouped_tail r
  end.

(** From a world that has a schema cached, a step that leaves the
    cache and the retrieve calls as they are. *)
Definition steady (w w' : world) : Prop :=
  schema_cache w <> None ->
  schema_cache w' = schema_cache w /\ retrieve_calls w' = retrieve_calls w.

(** The retrieve call of a world with nothing cached. *)
Definition retrieve_call (cfg : config) (api : notion_api) (w : world)
  : json * response :=
  (of_opt (NOTION_DATABASE_ID cfg),
   databases_retrieve api (length (retrieve_calls w))
     (of_opt (NOTION_DATABASE_ID cfg))).

(** At most fifty memoised columns, each once. *)
Definition bounded (w : world) : Prop :=
  (length (status_cache w) <= 50)%nat /\
  NoDup (Dict.keys (status_cache w)).

Definition keeps_bounded (w w' : world) : Prop := bounded w -> bounded w'.

(** The entry written for a status column. *)
Definition status_entry (id : json) : json :=
  JDict [("status", JDict [("id", id)])].

(** The entry written for the time column at the n-th clock read. *)
Definition date_entry (now_isoformat : nat -> string) (n : nat) : json :=
  JDict [ ("date",
           JDict [ ("start", JStr (now_isoformat n));
                   ("time_zone", JStr "Etc/GMT") ]) ].

(** The records of a result page, and its continuation flag as the
    loop reads it. *)
Definition records_of (page : dict) : list json :=
  match Dict.lookup "results" page with
  | Some (JList records) => records
  | _ => []
  end.

Definition has_more (page : dict) : bool :=
  match Dict.lookup "has_more" page with
  | Some flag => Py.truthy flag
  | None => false
  end.

(** The service answers the queries of a run with [pages], one after
    the other from its n-th query on: every page but the last has its
    continuation flag set and a cursor, which the next query carries
    as [start_cursor]; the last page has the flag unset. *)
Fixpoint served (api : notion_api) (n : nat) (query : dict)
  (pages : list dict) : Prop :=
  match pages with
  | [] => False
  | page :: rest =>
      databases_query api n (JDict query) = Returned (JDict page) /\
      Dict.lookup "results" page = Some (JList (records_of page)) /\
      match rest with
      | [] => has_more page = false
      | _ :: _ =>
          has_more page = true /\
          exists cursor,
            Dict.lookup "next_cursor" page = Some cursor /\
            served api (S n) (Dict.set "start_cursor" cursor query) rest
      end
  end.

(** The queries of a run that is answered with [pages], with their
    answers: the first is [query], and the query after a page is the
    one before it with [start_cursor] set to the cursor of that
    page. *)
Fixpoint asked (query : dict) (pages : list dict) : list (json * response) :=
  match pages with
  | [] => []
  | page :: rest =>
      (JDict query, Returned (JDict page))
      :: match Dict.lookup "next_cursor" page with
         | Some cursor => asked (Dict.set "start_cursor" cursor query) rest
         | None => []
         end
  end.

Definition is_info (entry : log_entry) : bool :=
  match entry with INFO _ => true | _ => false end.

(** A step that makes no query. *)
Definition same_queries (w w' : world) : Prop :=
  query_calls w' = query_calls w.

(** The body of [_build_frequency_filter] once the schema is at
    hand. *)
Definition filter_for (cfg : config) (schema : json) : result json :=
  properties <~ Py.getitem schema (JStr "properties") ;;
  prop_info <~ Py.getitem properties (of_opt (FREQUENCY_NAME cfg)) ;;
  prop_type <~ Py.getitem prop_info (JStr "type") ;;
  config <~ filter_config_of prop_type ;;
  filters <~ map_result (filter_condition cfg prop_type config)
               (FREQUENCY_STATUS cfg) ;;
  if 1 <? Z.of_nat (length filters) then Ok (JDict [("or", JList filters)])
  else Py.getitem (JList filters) (JInt 0).

(* ------------------------------------------------------------------ *)
(** ** Sample data *)

Module Sample.

Definition getenv : environ := fun k =>
  if String.eqb k "NOTION_API_KEY" then Some "secret"
  else if String.eqb k "NOTION_DATABASE_ID" then Some "tasks"
  else if String.eqb k "FREQUENCY_STATUS" then Some "daily, weekly"
  else if String.eqb k "STATUS_COLUMNS" then Some "Status"
  else if String.eqb k "TARGET_STATUS" then Some "Todo"
  else if String.eqb k "FREQUENCY_NAME" then Some "Frequency"
  else if String.eqb k "TIME_COLUMN" then Some "Reset at"
  else None.

Definition without (key : string) (e : environ) : environ :=
  fun k => if String.eqb k key then None else e k.

(** No API key, no target status, and a frequency list of blanks. *)
Definition incomplete_getenv : environ := fun k =>
  if String.eqb k "FREQUENCY_STATUS" then Some " , ,"
  else without "NOTION_API_KEY" (without "TARGET_STATUS" getenv) k.

Definition cfg : config :=
  mkConfig ["daily"; "weekly"] ["Status"] (Some "Todo") (Some "secret")
    (Some "tasks") (Some "Reset at") (Some "Frequency").

Definition status_options : list json :=
  [ JDict [("name", JStr "Done"); ("id", JStr "opt-1")];
    JDict [("name", JStr "Todo"); ("id", JStr "opt-2")] ].

Definition schema_of (frequency_type : string) : json :=
  JDict
    [ ("properties",
       JDict
         [ ("Frequency", JDict [("type", JStr frequency_type)]);
           ("Status",
            JDict [ ("type", JStr "status");
                    ("status", JDict [("options", JList status_options)]) ])
         ]) ].

Definition schema : json := schema_of "rich_text".

Definition page (id : string) : json :=
  JDict
    [ ("id", JStr id);
      ("url", JStr ("https://notion.example/" ++ id));
      ("properties",
       JDict
         [ (title_property,
            JDict [("title", JList [JDict [("plain_text", JStr id)]])]) ])
    ].

(** A record whose title is empty, as the service returns it. *)
Definition page_with_empty_title : json :=
  JDict
    [ ("id", JStr "p0");
      ("url", JStr "https://notion.example/p0");
      ("properties", JDict [(title_property, JDict [("title", JList [])])])
    ].

Definition records_1 : list json := repeat (page "a") 100.
Definition records_2 : list json := repeat (page "b") 37.

Definition page_1 : dict :=
  [ ("results", JList records_1);
    ("has_more", JBool true);
    ("next_cursor", JStr "C") ].

Definition page_2 : dict :=
  [ ("results", JList records_2);
    ("has_more", JBool false);
    ("next_cursor", JNone) ].

Definition update_answers (n : nat) (args : json) : response :=
  match n with
  | 1%nat => ApiError (JStr "validation_error")
  | _ => Returned JNone
  end.

(** Two result pages; the second update of the run is rejected. *)
Definition api : notion_api :=
  mkApi
    (fun _ _ => Returned schema)
    (fun n _ =>
       match n with
       | O => Returned (JDict page_1)
       | _ => Returned (JDict page_2)
       end)
    update_answers.

(** Two result pages; the third update of the run times out. *)
Definition timeout_api : notion_api :=
  mkApi
    (fun _ _ => Returned schema)
    (databases_query api)
    (fun n _ =>
       match n with
       | 2%nat => Failure "timeout"
       | _ => Returned JNone
       end).

(** A first page of 100 records, the third of them with an empty
    title. *)
Definition records_with_untitled : list json :=
  (page "a" :: page "a" :: page_with_empty_title :: repeat (page "a") 97)%list.

Definition page_with_untitled : dict :=
  [ ("results", JList records_with_untitled);
    ("has_more", JBool true);
    ("next_cursor", JStr "C") ].

Definition untitled_api : notion_api :=
  mkApi
    (fun _ _ => Returned schema)
    (fun n _ =>
       match n with
       | O => Returned (JDict page_with_untitled)
       | _ => Returned (JDict page_2)
       end)
    (fun _ _ => Returned JNone).

(** One result page of two records; the second update is rejected. *)
Definition small_api : notion_api :=
  mkApi
    (fun _ _ => Returned schema)
    (fun _ _ =>
       Returned (JDict [ ("results", JList [page "a"; page "b"]);
                         ("has_more", JBool false) ]))
    update_answers.


(** The frequency field has a type the builder does not support. *)
Definition number_api : notion_api :=
  mkApi
    (fun _ _ => Returned (schema_of "number"))
    (databases_query small_api)
    update_answers.

(** The target status is not among the options of the column. *)
Definition cfg_blocked : config :=
  mkConfig ["daily"; "weekly"] ["Status"] (Some "Blocked") (Some "secret")
    (Some "tasks") (Some "Reset at") (Some "Frequency").

(** The service rejects the retrieval of the schema. *)
Definition locked_api : notion_api :=
  mkApi
    (fun _ _ => ApiError (JStr "unauthorized"))
    (databases_query small_api)
    update_answers.

(** The queries time out. *)
Definition offline_api : notion_api :=
  mkApi
    (fun _ _ => Returned schema)
    (fun _ _ => Failure "timeout")
    update_answers.

(** A record whose title has two fragments. *)
Definition page_with_two_fragments : json :=
  JDict
    [ ("id", JStr "p2");
      ("properties",
       JDict
         [ (title_property,
            JDict
              [ ("title",
                 JList [ JDict [("plain_text", JStr "Water")];
                         JDict [("plain_text", JStr " the plants")] ]) ]) ])
    ].

(** Three result pages of two, one and no record. *)
Definition book : list dict :=
  [ [ ("results", JList [page "a"; page "b"]);
      ("has_more", JBool true);
      ("next_cursor", JStr "c1") ];
    [ ("results", JList [page "c"]);
      ("has_more", JInt 1);
      ("next_cursor", JStr "c2") ];
    [ ("results", JList []);
      ("has_more", JNone) ] ].

Definition book_api : notion_api :=
  mkApi
    (fun _ _ => Returned schema)
    (fun n _ => Returned (JDict (nth n book [])))
    update_answers.

(** A page that announces more but gives no cursor. *)
Definition cursorless_page : dict :=
  [ ("results", JList [page "a"]); ("has_more", JBool true) ].

Definition cursorless_api : notion_api :=
  mkApi
    (fun _ _ => Returned schema)
    (fun _ _ => Returned (JDict cursorless_page))
    update_answers.

(** The service answers every query with an empty object. *)
Definition blank_api : notion_api :=
  mkApi
    (fun _ _ => Returned schema)
    (fun _ _ => Returned (JDict []))
    update_answers.

Definition now_isoformat : nat -> string :=
  fun _ => "2024-01-01T00:00:00+00:00".

Definition world_with_schema : world :=
  with_schema_cache (Some schema) initial_world.

Definition query : dict :=
  [ ("database_id", JStr "tasks");
    ("filter",
     JDict [("property", JStr "Frequency");
            ("rich_text", JDict [("contains", JStr "daily")])]);
    ("page_size", JInt 100) ].

End Sample.

(* ------------------------------------------------------------------ *)
(** ** Properties: strings and dictionaries *)

Lemma append_empty_r (s : string) : (s ++ "")%string = s.
Proof. induction s as [|a s IH]; simpl; [reflexivity | now rewrite IH]. Qed.

Lemma append_assoc (a b c : string) :
  ((a ++ b) ++ c)%string = (a ++ (b ++ c))%string.
Proof. induction a as [|x a IH]; simpl; [reflexivity | now rewrite IH]. Qed.

Lemma occurs_in_join (sep x : string) (l : list string) :
  In x l -> Str.occurs_in x (Str.join sep l).
Proof.
  unfold Str.join.
  induction l as [|y l IH]; intros Hin; [contradiction|].
  destruct Hin as [-> | Hin].
  - destruct l as [|z l].
    + exists "", "". simpl. now rewrite append_empty_r.
    + exists "", (sep ++ String.concat sep (z :: l))%string. reflexivity.
  - destruct l as [|z l]; [contradiction|].
    destruct (IH Hin) as (pre & post & E).
    exists (y ++ sep ++ pre)%string, post.
    change (String.concat sep (y :: z :: l))
      with (y ++ sep ++ String.concat sep (z :: l))%string.
    rewrite E. now rewrite !append_assoc.
Qed.

Lemma parse_list_unset : _parse_list None = [].
Proof. reflexivity. Qed.

Lemma parse_list_empty : _parse_list (Some "") = [].
Proof. reflexivity. Qed.

(* ------------------------------------------------------------------ *)
(** ** Properties: configuration loading *)

Lemma missing_fields_complete (c : config) (k : string) :
  In k (Dict.keys required_fields) ->
  Py.truthy (config_get c k) = false ->
  In k (missing_fields c).
Proof.
  intros Hk Hfalse. unfold missing_fields, Dict.keys in *.
  apply in_map_iff in Hk. destruct Hk as ([k0 text] & Hfst & Hin).
  simpl in Hfst. subst k0.
  apply in_map_iff. exists (k, text). split; [reflexivity|].
  apply filter_In. split; [assumption|]. simpl. now rewrite Hfalse.
Qed.

Lemma unset_setting_is_falsy (getenv : environ) (k : string) :
  In k (Dict.keys required_fields) ->
  getenv k = None \/ getenv k = Some "" ->
  Py.truthy
    (config_get
       (mkConfig (_parse_list (getenv "FREQUENCY_STATUS"))
          (_parse_list (getenv "STATUS_COLUMNS")) (getenv "TARGET_STATUS")
          (getenv "NOTION_API_KEY") (getenv "NOTION_DATABASE_ID")
          (getenv "TIME_COLUMN") (getenv "FREQUENCY_NAME")) k) = false.
Proof.
  intros Hk Habsent. simpl in Hk.
  destruct Hk as [<- | [<- | [<- | [<- | [<- | []]]]]];
    unfold config_get; simpl;
    destruct Habsent as [-> | ->]; reflexivity.
Qed.

Lemma load_config_frequency_name (getenv : environ) (c : config) :
  _load_config getenv = Ok c -> FREQUENCY_NAME c = getenv "FREQUENCY_NAME".
Proof.
  unfold _load_config. cbv zeta.
  destruct (missing_fields _); intros H; inversion H. reflexivity.
Qed.

Lemma setting_missing_truthy (getenv : environ) (k : string) :
  In k (Dict.keys required_fields) ->
  negb
    (Py.truthy
       (config_get
          (mkConfig (_parse_list (getenv "FREQUENCY_STATUS"))
             (_parse_list (getenv "STATUS_COLUMNS")) (getenv "TARGET_STATUS")
             (getenv "NOTION_API_KEY") (getenv "NOTION_DATABASE_ID")
             (getenv "TIME_COLUMN") (getenv "FREQUENCY_NAME")) k))
  = setting_missing getenv k.
Proof.
  intros Hk. simpl in Hk.
  destruct Hk as [<- | [<- | [<- | [<- | [<- | []]]]]];
    unfold config_get, setting_missing; simpl.
  - destruct (getenv "NOTION_API_KEY") as [[|a s]|]; reflexivity.
  - destruct (getenv "NOTION_DATABASE_ID") as [[|a s]|]; reflexivity.
  - destruct (_parse_list (getenv "FREQUENCY_STATUS")); reflexivity.
  - destruct (_parse_list (getenv "STATUS_COLUMNS")); reflexivity.
  - destruct (getenv "TARGET_STATUS") as [[|a s]|]; reflexivity.
Qed.

Lemma unset_setting_is_missing (getenv : environ) (k : string) :
  In k (Dict.keys required_fields) ->
  getenv k = None \/ getenv k = Some "" ->
  setting_missing getenv k = true.
Proof.
  intros Hk Habsent. rewrite <- (setting_missing_truthy getenv k Hk).
  now rewrite (unset_setting_is_falsy getenv k Hk Habsent).
Qed.

Lemma load_config_message (getenv : environ) :
  _load_config getenv =
    match filter (fun kt => setting_missing getenv (fst kt)) required_fields
    with
    | [] =>
        Ok (mkConfig (_parse_list (getenv "FREQUENCY_STATUS"))
              (_parse_list (getenv "STATUS_COLUMNS")) (getenv "TARGET_STATUS")
              (getenv "NOTION_API_KEY") (getenv "NOTION_DATABASE_ID")
              (getenv "TIME_COLUMN") (getenv "FREQUENCY_NAME"))
    | missing =>
        Raise (ValueError [Lit (Str.join Str.newline (map snd missing))])
    end.
Proof.
  unfold _load_config. cbv zeta.
  match goal with |- context [missing_fields ?c] => set (loaded := c) end.
  assert (Hfilter :
    filter (fun kv => negb (Py.truthy (config_get loaded (fst kv))))
      required_fields
    = filter (fun kt => setting_missing getenv (fst kt)) required_fields).
  { apply filter_ext_in. intros [k text] Hin.
    apply setting_missing_truthy. unfold Dict.keys.
    apply in_map_iff. exists (k, text). split; [reflexivity | assumption]. }
  unfold missing_fields. rewrite Hfilter.
  assert (Htexts : forall l,
             incl l required_fields ->
             map required_message (map fst l) = map snd l).
  { induction l as [|[k text] l IH]; intros Hincl; [reflexivity|].
    simpl. rewrite IH by (intros x Hx; apply Hincl; now right).
    f_equal. assert (Hin : In (k, text) required_fields)
      by (apply Hincl; now left).
    simpl in Hin.
    destruct Hin as [E | [E | [E | [E | [E | []]]]]]; inversion E;
      reflexivity. }
  pose proof (Htexts
                (filter (fun kt => setting_missing getenv (fst kt))
                   required_fields)
                (incl_filter _ _)) as Hmap.
  destruct (filter (fun kt => setting_missing getenv (fst kt))
              required_fields) as [|m ms].
  - reflexivity.
  - simpl map at 1. rewrite Hmap. reflexivity.
Qed.

(** C7: when a required setting is missing (unset, empty, or, for the
    two comma-separated settings, without any item), [_load_config]
    raises a [ValueError] whose message is made of the lines of all
    the missing settings, in the order of the table, and the script
    ends with status 1 without a single call to the remote service. *)
Theorem load_config_reports_every_missing_setting :
  forall (getenv : environ) (k : string),
    In k [ "NOTION_API_KEY"; "NOTION_DATABASE_ID"; "FREQUENCY_STATUS";
           "STATUS_COLUMNS"; "TARGET_STATUS" ] ->
    (getenv k = None \/ getenv k = Some "" \/
     setting_missing getenv k = true) ->
    let texts :=
      [ ("NOTION_API_KEY", "必须配置API密钥");
        ("NOTION_DATABASE_ID", "必须配置数据库ID");
        ("FREQUENCY_STATUS", "必须配置频率状态");
        ("STATUS_COLUMNS", "必须配置状态列");
        ("TARGET_STATUS", "必须配置目标状态") ] in
    let message :=
      Str.join Str.newline
        (map snd (filter (fun kt => setting_missing getenv (fst kt)) texts)) in
    _load_config getenv = Raise (ValueError [Lit message]) /\
    (forall k' text,
        In (k', text) texts ->
        (getenv k' = None \/ getenv k' = Some "" \/
         setting_missing getenv k' = true) ->
        Str.occurs_in text message) /\
    (forall api now_isoformat fuel,
        let run := main getenv api now_isoformat fuel in
        snd run = Some 1 /\
        retrieve_calls (fst run) = [] /\
        query_calls (fst run) = [] /\
        update_calls (fst run) = [] /\
        log (fst run) = [ERROR_exn "程序终止: " (ValueError [Lit message])]).
Proof.
  intros getenv k Hk Habsent texts message.
  assert (Hmissing : forall k',
             In k' (Dict.keys required_fields) ->
             (getenv k' = None \/ getenv k' = Some "" \/
              setting_missing getenv k' = true) ->
             setting_missing getenv k' = true).
  { intros k' Hk' [H | [H | H]]; [| |exact H];
      apply unset_setting_is_missing; auto. }
  assert (Hin : forall k' text,
             In (k', text) texts ->
             (getenv k' = None \/ getenv k' = Some "" \/
              setting_missing getenv k' = true) ->
             In (k', text)
               (filter (fun kt => setting_missing getenv (fst kt)) texts)).
  { intros k' text Hkt Habs. apply filter_In. split; [assumption|].
    apply Hmissing; [|assumption].
    unfold Dict.keys. apply in_map_iff. exists (k', text). now split. }
  assert (Hload : _load_config getenv = Raise (ValueError [Lit message])).
  { rewrite load_config_message. subst message.
    change required_fields with texts.
    assert (Hk' : exists text, In (k, text) texts).
    { change (In k (map fst texts)) in Hk. apply in_map_iff in Hk.
      destruct Hk as ([k0 text] & <- & H). now exists text. }
    destruct Hk' as (text & Hkt). pose proof (Hin k text Hkt Habsent) as H.
    destruct (filter (fun kt => setting_missing getenv (fst kt)) texts);
      [contradiction | reflexivity]. }
  split; [exact Hload|]. split.
  - intros k' text Hkt Habs. apply occurs_in_join.
    pose proof (Hin k' text Hkt Habs) as Hthere.
    apply (in_map snd) in Hthere. exact Hthere.
  - intros api now_isoformat fuel. cbv zeta. unfold main. rewrite Hload.
    simpl. repeat split; reflexivity.
Qed.

Lemma load_config_reports_every_missing_setting_witness :
  _load_config Sample.incomplete_getenv
  = Raise (ValueError
             [Lit (Str.join Str.newline
                     [ "必须配置API密钥"; "必须配置频率状态";
                       "必须配置目标状态" ])]) /\
  Str.occurs_in "必须配置频率状态"
    (Str.join Str.newline
       [ "必须配置API密钥"; "必须配置频率状态"; "必须配置目标状态" ]).
Proof.
  destruct (load_config_reports_every_missing_setting
              Sample.incomplete_getenv "FREQUENCY_STATUS")
    as (Hload & Hall & _).
  - simpl. tauto.
  - right. right. reflexivity.
  - split; [exact Hload|].
    apply (Hall "FREQUENCY_STATUS"); [simpl; tauto|].
    right. right. reflexivity.
Defined.

(* ------------------------------------------------------------------ *)
(** ** Properties: the title of a record *)

Lemma page_title_absent_property (page : json) (properties : dict) :
  Py.getitem page (JStr "properties") = Ok (JDict properties) ->
  Dict.lookup title_property properties = None ->
  _get_page_title page = Ok (JStr untitled).
Proof.
  intros Hp Hl. unfold _get_page_title. rewrite Hp. simpl. now rewrite Hl.
Qed.

(** C8 (the code departs from it): a record whose title property is
    present with an empty title list makes [_get_page_title] raise
    [IndexError]; the placeholder is not returned. *)
Theorem page_title_empty_title_raises :
  forall (page : json) (properties title_prop : dict),
    Py.getitem page (JStr "properties") = Ok (JDict properties) ->
    Dict.lookup title_property properties = Some (JDict title_prop) ->
    Dict.lookup "title" title_prop = Some (JList []) ->
    _get_page_title page = Raise IndexError.
Proof.
  intros page properties title_prop Hp Ht He.
  unfold _get_page_title. rewrite Hp. simpl. rewrite Ht. simpl.
  rewrite He. reflexivity.
Qed.

Lemma page_title_empty_title_raises_witness :
  _get_page_title Sample.page_with_empty_title = Raise IndexError.
Proof.
  apply (page_title_empty_title_raises Sample.page_with_empty_title
           [(title_property, JDict [("title", JList [])])]
           [("title", JList [])]); reflexivity.
Defined.

(* ------------------------------------------------------------------ *)
(** ** Properties: the filter builder *)

Lemma map_result_total {A B} (f : A -> result B) (g : A -> B) (l : list A) :
  (forall a, f a = Ok (g a)) -> map_result f l = Ok (map g l).
Proof.
  intros Hf. induction l as [|a l IH]; simpl; [reflexivity|].
  rewrite Hf, IH. reflexivity.
Qed.

Lemma supported_type_cases (t : string) (config : filter_config) :
  Dict.lookup t filter_type_map = Some config ->
  (t = "rich_text" /\ config = mkFilterConfig "rich_text" "contains" (fun x => x))
  \/ (t = "select" /\ config = mkFilterConfig "select" "equals" (fun x => x))
  \/ (t = "multi_select" /\
      config = mkFilterConfig "multi_select" "contains" (fun x => x)).
Proof.
  unfold filter_type_map. simpl.
  destruct (String.eqb_spec t "rich_text") as [-> | _].
  { intros H; inversion H. left. now split. }
  destruct (String.eqb_spec t "select") as [-> | _].
  { intros H; inversion H. right; left. now split. }
  destruct (String.eqb_spec t "multi_select") as [-> | _].
  { intros H; inversion H. right; right. now split. }
  discriminate.
Qed.

Lemma unsupported_type_lookup (t : string) :
  ~ In t supported_types -> Dict.lookup t filter_type_map = None.
Proof.
  intros Hnot. unfold filter_type_map. simpl.
  destruct (String.eqb_spec t "rich_text") as [-> | _].
  { exfalso. apply Hnot. simpl. tauto. }
  destruct (String.eqb_spec t "select") as [-> | _].
  { exfalso. apply Hnot. simpl. tauto. }
  destruct (String.eqb_spec t "multi_select") as [-> | _].
  { exfalso. apply Hnot. simpl. tauto. }
  reflexivity.
Qed.

Section FilterBuilder.

Variable cfg : config.
Variable api : notion_api.

(** The condition of one frequency value, for a supported type. *)
Lemma filter_condition_supported (t : string) (config : filter_config)
  (status : string) :
  Dict.lookup t filter_type_map = Some config ->
  filter_condition cfg (JStr t) config status =
    Ok (JDict [ ("property", of_opt (FREQUENCY_NAME cfg));
                (t, JDict [(operator config, JStr status)]) ]).
Proof.
  intros Hsup.
  destruct (supported_type_cases t config Hsup)
    as [[-> ->] | [[-> ->] | [-> ->]]]; reflexivity.
Qed.

(** C4: for a multi-choice field the condition left by the extra
    assignment is the generically built one, and that is the
    intended shape: property name, multi-choice, contains, value. *)
Theorem multi_select_condition_is_intended_shape :
  forall (config : filter_config) (status : string),
    Dict.lookup "multi_select" filter_type_map = Some config ->
    filter_condition cfg (JStr "multi_select") config status
      = Ok (JDict (generic_condition cfg config status)) /\
    JDict (generic_condition cfg config status)
      = intended_multi_select_condition (FREQUENCY_NAME cfg) status.
Proof.
  intros config status Hc. inversion Hc; subst config. split; reflexivity.
Qed.

(** C3: for a supported type the builder gives one condition per
    configured frequency value, each of the shape of the type (the
    equals operator for a single-choice field, contains for a text or
    a multi-choice field); one value gives the bare condition, more
    than one gives them under "or". *)
Theorem frequency_filter_shape :
  forall (w w1 : world) (schema properties prop_info : json)
         (name t value : string) (values : list string),
    _get_db_schema cfg api w = (w1, Ok schema) ->
    Py.getitem schema (JStr "properties") = Ok properties ->
    FREQUENCY_NAME cfg = Some name ->
    Py.getitem properties (JStr name) = Ok prop_info ->
    Py.getitem prop_info (JStr "type") = Ok (JStr t) ->
    In t supported_types ->
    FREQUENCY_STATUS cfg = value :: values ->
    let operator :=
      if String.eqb t "select" then "equals" else "contains" in
    let condition := fun status =>
      JDict [ ("property", JStr name);
              (t, JDict [(operator, JStr status)]) ] in
    _build_frequency_filter cfg api w =
      (w1,
       Ok (match values with
           | [] => condition value
           | _ :: _ => JDict [("or", JList (map condition (value :: values)))]
           end)).
Proof.
  intros w w1 schema properties prop_info name t value values
    Hschema Hprops Hname Hinfo Htype Hsup Hvalues operator condition.
  assert (Hcond : exists config,
             filter_config_of (JStr t) = Ok config /\
             forall status,
               filter_condition cfg (JStr t) config status
               = Ok (condition status)).
  { subst operator condition. simpl in Hsup.
    destruct Hsup as [<- | [<- | [<- | []]]];
      (eexists; split; [reflexivity|]); intros status;
      (rewrite filter_condition_supported; [|reflexivity]);
      rewrite Hname; reflexivity. }
  destruct Hcond as (config & Hconfig & Hcond).
  unfold _build_frequency_filter, bind, lift.
  rewrite Hschema, Hprops, Hname. simpl of_opt.
  rewrite Hinfo, Htype, Hconfig.
  rewrite (map_result_total _ condition _ Hcond), Hvalues.
  destruct values as [|value' values]; [reflexivity|].
  assert (Hlen : (1 <? Z.of_nat
                        (length (map condition (value :: value' :: values))))
                 = true).
  { apply Z.ltb_lt. simpl length. lia. }
  rewrite Hlen. reflexivity.
Qed.

(** C5: when the declared type of the frequency field is none of the
    supported ones, the builder raises a [ValueError] whose message
    interpolates that type and the list of the supported types. *)
Theorem unsupported_frequency_type_raises :
  forall (w w1 : world) (schema properties prop_info : json) (t : string),
    _get_db_schema cfg api w = (w1, Ok schema) ->
    Py.getitem schema (JStr "properties") = Ok properties ->
    Py.getitem properties (of_opt (FREQUENCY_NAME cfg)) = Ok prop_info ->
    Py.getitem prop_info (JStr "type") = Ok (JStr t) ->
    ~ In t supported_types ->
    _build_frequency_filter cfg api w =
      (w1,
       Raise (ValueError
                [ Lit "不支持的频率字段类型: "; Val (JStr t);
                  Lit " (支持类型: ";
                  Val (JList (map JStr supported_types)); Lit ")" ])).
Proof.
  intros w w1 schema properties prop_info t
    Hschema Hprops Hinfo Htype Hnot.
  unfold _build_frequency_filter, bind, lift.
  rewrite Hschema, Hprops, Hinfo, Htype.
  unfold filter_config_of. rewrite (unsupported_type_lookup t Hnot).
  reflexivity.
Qed.

End FilterBuilder.

Lemma multi_select_condition_is_intended_shape_witness :
  filter_condition Sample.cfg (JStr "multi_select")
    (mkFilterConfig "multi_select" "contains" (fun x => x)) "daily"
  = Ok (intended_multi_select_condition (Some "Frequency") "daily").
Proof.
  destruct (multi_select_condition_is_intended_shape Sample.cfg
              (mkFilterConfig "multi_select" "contains" (fun x => x))
              "daily" eq_refl) as [Hcode Hshape].
  rewrite Hcode, Hshape. reflexivity.
Defined.

Lemma frequency_filter_shape_witness :
  _build_frequency_filter Sample.cfg Sample.api initial_world
  = (with_schema_cache (Some Sample.schema)
       (with_retrieve_calls [(JStr "tasks", Returned Sample.schema)]
          initial_world),
     Ok (JDict
           [ ("or",
              JList
                [ JDict [ ("property", JStr "Frequency");
                          ("rich_text", JDict [("contains", JStr "daily")]) ];
                  JDict [ ("property", JStr "Frequency");
                          ("rich_text", JDict [("contains", JStr "weekly")]) ]
                ]) ])).
Proof.
  apply (frequency_filter_shape Sample.cfg Sample.api initial_world _
           Sample.schema
           (JDict
              [ ("Frequency", JDict [("type", JStr "rich_text")]);
                ("Status",
                 JDict [ ("type", JStr "status");
                         ("status",
                          JDict [("options", JList Sample.status_options)]) ])
              ])
           (JDict [("type", JStr "rich_text")])
           "Frequency" "rich_text" "daily" ["weekly"]);
    try reflexivity.
  simpl. tauto.
Defined.

Lemma unsupported_frequency_type_raises_witness :
  _build_frequency_filter Sample.cfg Sample.number_api initial_world
  = (with_schema_cache (Some (Sample.schema_of "number"))
       (with_retrieve_calls
          [(JStr "tasks", Returned (Sample.schema_of "number"))]
          initial_world),
     Raise (ValueError
              [ Lit "不支持的频率字段类型: "; Val (JStr "number");
                Lit " (支持类型: ";
                Val (JList [JStr "rich_text"; JStr "select";
                            JStr "multi_select"]);
                Lit ")" ])).
Proof.
  apply (unsupported_frequency_type_raises Sample.cfg Sample.number_api
           initial_world _
           (Sample.schema_of "number")
           (JDict
              [ ("Frequency", JDict [("type", JStr "number")]);
                ("Status",
                 JDict [ ("type", JStr "status");
                         ("status",
                          JDict [("options", JList Sample.status_options)]) ])
              ])
           (JDict [("type", JStr "number")])
           "number");
    try reflexivity.
  simpl. intros [H | [H | [H | []]]]; discriminate H.
Defined.

(* ------------------------------------------------------------------ *)
(** ** Properties: what the methods leave untouched *)

Lemma kept_refl (w : world) : kept w w.
Proof. repeat split; auto. Qed.

Lemma kept_trans (w1 w2 w3 : world) : kept w1 w2 -> kept w2 w3 -> kept w1 w3.
Proof.
  intros (Hq & Hu & Hs) (Hq' & Hu' & Hs'). repeat split.
  - now rewrite Hq', Hq.
  - now rewrite Hu', Hu.
  - auto.
Qed.

Lemma keeps_ret {A} (a : A) : keeps (ret a).
Proof. intros w w' r H. inversion H. apply kept_refl. Qed.

Lemma keeps_raise {A} (e : exn) : keeps (@raise A e).
Proof. intros w w' r H. inversion H. apply kept_refl. Qed.

Lemma keeps_lift {A} (x : result A) : keeps (lift x).
Proof. intros w w' r H. inversion H. apply kept_refl. Qed.

Lemma keeps_gets {A} (f : world -> A) : keeps (gets f).
Proof. intros w w' r H. inversion H. apply kept_refl. Qed.

Lemma keeps_modify (f : world -> world) :
  (forall w, kept w (f w)) -> keeps (modify f).
Proof. intros Hf w w' r H. inversion H. apply Hf. Qed.

Lemma keeps_bind {A B} (m : M A) (k : A -> M B) :
  keeps m -> (forall a, keeps (k a)) -> keeps (bind m k).
Proof.
  intros Hm Hk w w' r. unfold bind.
  destruct (m w) as [w1 [a | e |]] eqn:E; intros H.
  - eapply kept_trans; [eapply Hm; exact E | eapply Hk; exact H].
  - inversion H; subst. eapply Hm; exact E.
  - inversion H; subst. eapply Hm; exact E.
Qed.

Lemma keeps_try_APIResponseError {A} (body : M A) (handler : json -> M A) :
  keeps body -> (forall b, keeps (handler b)) ->
  keeps (try_except_APIResponseError body handler).
Proof.
  intros Hb Hh w w' r. unfold try_except_APIResponseError.
  destruct (body w) as [w1 [a | e |]] eqn:E; intros H;
    try (inversion H; subst; eapply Hb; exact E).
  destruct e; try (inversion H; subst; eapply Hb; exact E).
  eapply kept_trans; [eapply Hb; exact E | eapply Hh; exact H].
Qed.

Lemma keeps_answer (r : response) : keeps (answer r).
Proof. destruct r; [apply keeps_ret | apply keeps_raise | apply keeps_raise]. Qed.

Create HintDb keeps.

#[local] Hint Resolve keeps_ret keeps_raise keeps_lift keeps_gets
  keeps_answer kept_refl : keeps.

Section Frames.

Variable cfg : config.
Variable api : notion_api.
Variable now_isoformat : nat -> string.

Lemma keeps_logger_error (message : list piece) :
  keeps (logger_error message).
Proof. apply keeps_modify. intros w. repeat split; auto. Qed.

Lemma keeps_logger_info (message : list piece) :
  keeps (logger_info message).
Proof. apply keeps_modify. intros w. repeat split; auto. Qed.

Lemma keeps_get_db_schema : keeps (_get_db_schema cfg api).
Proof.
  intros w w' r. unfold _get_db_schema, bind, gets.
  destruct (schema_cache w) as [schema|] eqn:Hcache.
  { intros H. inversion H; subst. apply kept_refl. }
  unfold try_except_APIResponseError, notion_databases_retrieve, bind,
    gets, modify, answer, logger_error, raise, ret.
  destruct (databases_retrieve api _ _); simpl; intros H;
    inversion H; subst; (repeat split; [reflexivity .. |]);
    intros schema Hs; simpl in Hs; congruence.
Qed.

Lemma get_db_schema_cached (w : world) (schema : json) :
  schema_cache w = Some schema ->
  _get_db_schema cfg api w = (w, Ok schema).
Proof.
  intros H. unfold _get_db_schema, bind, gets. rewrite H. reflexivity.
Qed.

Lemma keeps_get_status_id (column : string) :
  keeps (_get_status_id cfg api column).
Proof.
  unfold _get_status_id.
  apply keeps_bind; [auto with keeps|]. intros cache.
  destruct (Dict.lookup column cache) as [id|].
  - apply keeps_bind; [|auto with keeps].
    apply keeps_modify. intros w. repeat split; auto.
  - apply keeps_bind.
    + unfold _get_status_id_body.
      apply keeps_bind; [apply keeps_get_db_schema | auto with keeps].
    + intros id. apply keeps_bind; [|auto with keeps].
      apply keeps_modify. intros w. repeat split; auto.
Qed.

Lemma keeps_status_properties (columns : list string) :
  forall properties, keeps (status_properties cfg api columns properties).
Proof.
  induction columns as [|col rest IH]; intros properties; simpl.
  - auto with keeps.
  - apply keeps_bind; [apply keeps_get_status_id | intros id; apply IH].
Qed.

Lemma keeps_current_timestamp : keeps (_current_timestamp now_isoformat).
Proof.
  unfold _current_timestamp.
  apply keeps_bind; [auto with keeps|]. intros n.
  apply keeps_bind; [|auto with keeps].
  apply keeps_modify. intros w. repeat split; auto.
Qed.

Lemma keeps_prepare_update_data (page : json) :
  keeps (_prepare_update_data cfg api now_isoformat page).
Proof.
  unfold _prepare_update_data.
  apply keeps_bind; [apply keeps_status_properties|]. intros properties.
  apply keeps_bind.
  { destruct (TIME_COLUMN cfg) as [tc|]; [|auto with keeps].
    destruct (Str.nonempty tc); [|auto with keeps].
    apply keeps_bind; [apply keeps_current_timestamp | auto with keeps]. }
  intros properties'.
  repeat (apply keeps_bind; [auto with keeps|]; intros ?).
  auto with keeps.
Qed.

Lemma keeps_build_frequency_filter :
  keeps (_build_frequency_filter cfg api).
Proof.
  unfold _build_frequency_filter.
  apply keeps_bind; [apply keeps_get_db_schema|]. intros schema.
  repeat (apply keeps_bind; [auto with keeps|]; intros ?).
  destruct (1 <? _); auto with keeps.
Qed.

(** The payload of a record: its three entries, in this order. *)
Lemma prepare_update_data_shape (page : json) (w w1 : world)
  (update_data : json) :
  _prepare_update_data cfg api now_isoformat page w = (w1, Ok update_data) ->
  exists page_id properties title url,
    update_data =
      JDict [ ("page_id", page_id);
              ("properties", JDict properties);
              ("metadata", JDict [("title", title); ("url", url)]) ] /\
    Py.getitem page (JStr "id") = Ok page_id /\
    _get_page_title page = Ok title /\
    Py.get page "url" (JStr "") = Ok url.
Proof.
  unfold _prepare_update_data, bind at 1.
  destruct (status_properties _ _ _ _ w) as [w0 [p | e |]];
    try discriminate.
  unfold bind at 1.
  match goal with
  | |- context [match ?m w0 with _ => _ end] =>
      destruct (m w0) as [w2 [p' | e |]]; try discriminate
  end.
  unfold bind, lift, ret.
  destruct (Py.getitem page (JStr "id")) as [page_id | e |];
    try discriminate.
  destruct (_get_page_title page) as [title | e |]; try discriminate.
  destruct (Py.get page "url" (JStr "")) as [url | e |]; try discriminate.
  intros H. inversion H; subst.
  exists page_id, p', title, url. repeat split; reflexivity.
Qed.

End Frames.

(* ------------------------------------------------------------------ *)
(** ** Properties: the update of one record *)

Section Records.

Variable cfg : config.
Variable api : notion_api.
Variable now_isoformat : nat -> string.

Notation prepare := (_prepare_update_data cfg api now_isoformat).
Notation process := (process_page cfg api now_isoformat).
Notation for_pages := (for_page_in cfg api now_isoformat).

(** One turn of the loop over the records, once the payload is
    prepared: by the answer of the update call. *)
Lemma process_page_step (page : json) (success : Z) (w w1 : world)
  (update_data : json) :
  prepare page w = (w1, Ok update_data) ->
  exists title url,
    _get_page_title page = Ok title /\
    Py.get page "url" (JStr "") = Ok url /\
    process page success w =
      let r := pages_update api (length (update_calls w1)) update_data in
      let w2 := called update_data r w1 in
      match r with
      | Returned _ =>
          (logged (INFO [Lit "更新成功: "; Val title]) w2, Ok (success + 1))
      | ApiError body =>
          (logged (ERROR [Lit "更新失败 "; Val url; Lit ": "; Val body]) w2,
           Ok success)
      | Failure what => (w2, Raise (OtherException what))
      end.
Proof.
  intros Hprep.
  destruct (prepare_update_data_shape _ _ _ _ _ _ _ Hprep)
    as (page_id & properties & title & url & -> & _ & Htitle & Hurl).
  exists title, url. split; [assumption|]. split; [assumption|].
  unfold process_page, bind at 1. rewrite Hprep.
  unfold try_except_APIResponseError, notion_pages_update, bind, gets,
    modify, answer, metadata, logger_info, logger_error, raise, ret, lift.
  cbv zeta.
  destruct (pages_update api _ _); reflexivity.
Qed.

(** C10: the arguments of the update call are the prepared payload
    itself, with its "metadata" entry (title and URL) beside the
    record id and the properties. *)
Theorem update_call_receives_prepared_payload :
  forall (page : json) (success : Z) (w w1 : world) (update_data : json),
    prepare page w = (w1, Ok update_data) ->
    (exists page_id properties title url,
        update_data =
          JDict [ ("page_id", page_id);
                  ("properties", JDict properties);
                  ("metadata", JDict [("title", title); ("url", url)]) ] /\
        Py.getitem page (JStr "id") = Ok page_id /\
        _get_page_title page = Ok title /\
        Py.get page "url" (JStr "") = Ok url) /\
    exists w2 r,
      process page success w = (w2, r) /\
      update_calls w2 =
        (update_calls w ++
         [(update_data,
           pages_update api (length (update_calls w)) update_data)])%list.
Proof.
  intros page success w w1 update_data Hprep. split.
  { eapply prepare_update_data_shape; exact Hprep. }
  destruct (keeps_prepare_update_data _ _ _ _ _ _ _ Hprep) as (_ & Hu & _).
  destruct (process_page_step page success _ _ _ Hprep)
    as (title & url & _ & _ & Hstep).
  clear Hprep. rewrite Hu in Hstep. cbv zeta in Hstep.
  destruct (pages_update api (length (update_calls w)) update_data);
    eexists; eexists; (split; [exact Hstep|]); simpl; rewrite Hu;
    reflexivity.
Qed.

Lemma process_page_counts (page : json) (success success' : Z)
  (w w' : world) :
  process page success w = (w', Ok success') ->
  exists c,
    update_calls w' = (update_calls w ++ [c])%list /\
    success' = success + count is_returned [c] /\
    count is_api_error [c] = 1 - count is_returned [c] /\
    query_calls w' = query_calls w /\
    (forall schema, schema_cache w = Some schema ->
                    schema_cache w' = Some schema).
Proof.
  intros H.
  destruct (prepare page w) as [w1 [update_data | e |]] eqn:Hprep.
  2,3: unfold process_page, bind in H; rewrite Hprep in H; discriminate.
  destruct (keeps_prepare_update_data _ _ _ _ _ _ _ Hprep)
    as (Hq & Hu & Hs).
  destruct (process_page_step page success _ _ _ Hprep)
    as (title & url & _ & _ & Hstep).
  rewrite Hstep in H. cbv zeta in H.
  destruct (pages_update api _ _) as [v | body | what] eqn:Hr;
    inversion H; subst; clear H.
  - exists (update_data, Returned v). simpl. rewrite Hu.
    repeat split; auto; unfold count; simpl; try lia.
  - exists (update_data, ApiError body). simpl. rewrite Hu.
    repeat split; auto; unfold count; simpl; try lia.
Qed.

Lemma count_app {A} (p : A -> bool) (l1 l2 : list A) :
  count p (l1 ++ l2)%list = count p l1 + count p l2.
Proof.
  unfold count. rewrite filter_app, length_app. lia.
Qed.

Lemma for_page_in_counts (pages : list json) :
  forall (success success' : Z) (w w' : world),
    for_pages pages success w = (w', Ok success') ->
    exists new,
      update_calls w' = (update_calls w ++ new)%list /\
      length new = length pages /\
      success' = success + count is_returned new /\
      count is_api_error new = Z.of_nat (length new) - count is_returned new /\
      query_calls w' = query_calls w /\
      (forall schema, schema_cache w = Some schema ->
                      schema_cache w' = Some schema).
Proof.
  induction pages as [|page rest IH]; intros success success' w w' H.
  - inversion H; subst. exists []. rewrite app_nil_r.
    repeat split; auto; unfold count; simpl; lia.
  - simpl in H. unfold bind in H.
    destruct (process page success w) as [w1 [s1 | e |]] eqn:Hp;
      try discriminate.
    destruct (process_page_counts _ _ _ _ _ Hp)
      as (c & Hu & Hs1 & Hc & Hq & Hsc).
    destruct (IH _ _ _ _ H) as (new & Hu' & Hlen & Hs' & Hc' & Hq' & Hsc').
    exists (c :: new). repeat split.
    + rewrite Hu', Hu, <- app_assoc. reflexivity.
    + simpl. now rewrite Hlen.
    + change (c :: new) with ([c] ++ new)%list. rewrite count_app. lia.
    + change (c :: new) with ([c] ++ new)%list. rewrite !count_app.
      simpl length. lia.
    + now rewrite Hq', Hq.
    + auto.
Qed.

End Records.

(* ------------------------------------------------------------------ *)
(** ** Properties: the pagination loop and the run *)

Lemma len_iter (v : json) (n : Z) (items : list json) :
  Py.len v = Ok n -> Py.iter v = Ok items -> n = Z.of_nat (length items).
Proof.
  destruct v; simpl; try discriminate; intros Hn Hi;
    inversion Hn; inversion Hi; subst;
    unfold Dict.keys; now rewrite ?length_map.
Qed.

Section Loop.

Variable cfg : config.
Variable api : notion_api.
Variable now_isoformat : nat -> string.

Notation prepare := (_prepare_update_data cfg api now_isoformat).
Notation process := (process_page cfg api now_isoformat).
Notation for_pages := (for_page_in cfg api now_isoformat).
Notation loop := (while_true cfg api now_isoformat).

Lemma notion_databases_query_step (q : json) (w : world) :
  notion_databases_query api q w =
    let r := databases_query api (length (query_calls w)) q in
    answer r (queried q r w).
Proof. reflexivity. Qed.

Lemma while_true_counts (fuel : nat) :
  forall (query : dict) (success total success' total' : Z) (w w' : world),
    loop fuel query success total w = (w', Ok (success', total')) ->
    exists new,
      update_calls w' = (update_calls w ++ new)%list /\
      total' = total + Z.of_nat (length new) /\
      success' = success + count is_returned new /\
      count is_api_error new = Z.of_nat (length new) - count is_returned new.
Proof.
  induction fuel as [|fuel IH];
    intros query success total success' total' w w' H.
  { discriminate H. }
  simpl in H. unfold bind at 1 in H.
  rewrite notion_databases_query_step in H. cbv zeta in H.
  destruct (databases_query api _ _) as [response | body | what];
    simpl in H; try discriminate.
  set (w0 := queried _ _ w) in H.
  unfold bind at 1, lift at 1 in H.
  destruct (Py.get response "results" (JList [])) as [pages | e |];
    try discriminate.
  unfold bind at 1, lift at 1 in H.
  destruct (Py.len pages) as [n | e |] eqn:Hlen; try discriminate.
  unfold bind at 1, lift at 1 in H.
  destruct (Py.iter pages) as [items | e |] eqn:Hiter; try discriminate.
  pose proof (len_iter _ _ _ Hlen Hiter) as Hn.
  unfold bind at 1 in H.
  destruct (for_pages items success w0) as [w1 [s1 | e |]] eqn:Hdrain;
    try discriminate.
  destruct (for_page_in_counts _ _ _ _ _ _ _ _ Hdrain)
    as (new & Hu & Hnew & Hs1 & Hc & _).
  change (update_calls w0) with (update_calls w) in Hu.
  unfold bind at 1, lift at 1 in H.
  destruct (Py.get response "has_more" JNone) as [has_more | e |];
    try discriminate.
  destruct (negb (Py.truthy has_more)).
  - inversion H; subst. exists new. repeat split; auto. lia.
  - unfold bind at 1, lift at 1 in H.
    destruct (Py.getitem response (JStr "next_cursor")) as [cursor | e |];
      try discriminate.
    destruct (IH _ _ _ _ _ _ _ H) as (new' & Hu' & Ht' & Hs' & Hc').
    exists (new ++ new')%list. repeat split.
    + rewrite Hu', Hu, app_assoc. reflexivity.
    + rewrite length_app. lia.
    + rewrite count_app. lia.
    + rewrite !count_app, length_app. lia.
Qed.

Lemma batch_process_tasks_summary (fuel : nat) (w w' : world) :
  batch_process_tasks cfg api now_isoformat fuel w = (w', Ok tt) ->
  exists total success new earlier,
    log w' = (earlier ++ [INFO (summary total success)])%list /\
    update_calls w' = (update_calls w ++ new)%list /\
    total = Z.of_nat (length new) /\
    success = count is_returned new /\
    total - success = count is_api_error new.
Proof.
  unfold batch_process_tasks, try_except_Exception.
  unfold bind at 1.
  destruct (_build_frequency_filter cfg api w) as [w0 [filter | e |]]
    eqn:Hfilter.
  2,3: unfold logger_error_exn, bind, modify, raise; simpl; discriminate.
  destruct (keeps_build_frequency_filter _ _ _ _ _ Hfilter) as (_ & Hu0 & _).
  unfold bind at 1.
  match goal with
  | |- context [loop fuel ?q 0 0 w0] =>
      destruct (loop fuel q 0 0 w0) as [w1 [[success total] | e |]] eqn:Hloop
  end.
  2,3: unfold logger_error_exn, bind, modify, raise; simpl; discriminate.
  destruct (while_true_counts _ _ _ _ _ _ _ _ Hloop)
    as (new & Hu & Ht & Hs & Hc).
  unfold logger_info, modify. intros H. inversion H; subst w'.
  exists total, success, new, (log w1). simpl.
  repeat split; try lia. now rewrite Hu, Hu0.
Qed.


End Loop.

Section Pagination.

Variable cfg : config.
Variable api : notion_api.
Variable now_isoformat : nat -> string.

Notation prepare := (_prepare_update_data cfg api now_isoformat).
Notation process := (process_page cfg api now_isoformat).
Notation for_pages := (for_page_in cfg api now_isoformat).
Notation loop := (while_true cfg api now_isoformat).

Notation payloads_prepared := (payloads_prepared cfg api now_isoformat).

Lemma for_page_in_total (schema : json) (pages : list json) :
  payloads_prepared schema pages ->
  updates_answered api ->
  forall (success : Z) (w : world),
    schema_cache w = Some schema ->
    exists w' success',
      for_pages pages success w = (w', Ok success') /\
      query_calls w' = query_calls w /\
      schema_cache w' = Some schema.
Proof.
  intros Hprep Hans.
  induction pages as [|page rest IH]; intros success w Hcache.
  { exists w, success. repeat split; auto. }
  destruct (Hprep page (or_introl eq_refl) w Hcache)
    as (w1 & update_data & Hp).
  destruct (process_page_step cfg api now_isoformat page success _ _ _ Hp)
    as (title & url & _ & _ & Hstep).
  assert (Hok : exists w2 s2, process page success w = (w2, Ok s2)).
  { cbv zeta in Hstep.
    destruct (Hans (length (update_calls w1)) update_data) as (v & [E | E]);
      rewrite E in Hstep; eauto. }
  destruct Hok as (w2 & s2 & Hproc).
  destruct (process_page_counts _ _ _ _ _ _ _ _ Hproc)
    as (_ & _ & _ & _ & Hq & Hs).
  destruct (IH (fun p Hin => Hprep p (or_intror Hin)) s2 w2 (Hs _ Hcache))
    as (w' & s' & Hrest & Hq' & Hs').
  exists w', s'. simpl for_page_in. unfold bind at 1. rewrite Hproc.
  repeat split; auto. now rewrite Hq', Hq.
Qed.

Lemma while_true_S (fuel : nat) (query : dict) (success total : Z) :
  loop (S fuel) query success total =
    (response <- notion_databases_query api (JDict query) ;;
     pages <- lift (Py.get response "results" (JList [])) ;;
     n <- lift (Py.len pages) ;;
     let total := total + n in
     items <- lift (Py.iter pages) ;;
     success <- for_pages items success ;;
     has_more <- lift (Py.get response "has_more" JNone) ;;
     if negb (Py.truthy has_more) then ret (success, total)
     else
       cursor <- lift (Py.getitem response (JStr "next_cursor")) ;;
       loop fuel (Dict.set "start_cursor" cursor query) success total).
Proof. reflexivity. Qed.

(** One fetch that returns the dictionary [page] whose records all
    get their update attempted. *)
Lemma fetch_step (fuel : nat) (query page : dict) (records : list json)
  (schema : json) (success total : Z) (w : world) :
  databases_query api (length (query_calls w)) (JDict query)
    = Returned (JDict page) ->
  Dict.lookup "results" page = Some (JList records) ->
  payloads_prepared schema records ->
  updates_answered api ->
  schema_cache w = Some schema ->
  exists w1 success1,
    query_calls w1 =
      (query_calls w ++ [(JDict query, Returned (JDict page))])%list /\
    schema_cache w1 = Some schema /\
    loop (S fuel) query success total w =
      (has_more <- lift (Py.get (JDict page) "has_more" JNone) ;;
       if negb (Py.truthy has_more)
       then ret (success1, total + Z.of_nat (length records))
       else
         cursor <- lift (Py.getitem (JDict page) (JStr "next_cursor")) ;;
         loop fuel (Dict.set "start_cursor" cursor query) success1
           (total + Z.of_nat (length records))) w1.
Proof.
  intros Hquery Hresults Hprep Hans Hcache.
  destruct (for_page_in_total schema records Hprep Hans success
              (queried (JDict query) (Returned (JDict page)) w) Hcache)
    as (w1 & success1 & Hdrain & Hq & Hs).
  exists w1, success1. split; [exact Hq|]. split; [exact Hs|].
  rewrite while_true_S. unfold bind at 1.
  rewrite notion_databases_query_step. cbv zeta. rewrite Hquery.
  simpl answer. unfold ret at 1.
  unfold bind at 1, lift at 1. simpl Py.get. rewrite Hresults.
  unfold bind at 1, lift at 1. simpl Py.len.
  unfold bind at 1, lift at 1. simpl Py.iter.
  unfold bind at 1. rewrite Hdrain. reflexivity.
Qed.

(** C2, with the two conditions it needs: a first page of 100 records
    with the continuation flag set and cursor [C], then a second page
    of 37 records with the flag unset: provided the payload of every
    record can be prepared and every update call returns or fails
    with an [APIResponseError], the loop ends after exactly two
    fetches, the second with [start_cursor] set to [C], and [total]
    is 137. *)
Theorem two_pages_two_fetches_total_137 :
  forall (query first_page second_page : dict)
         (records_1 records_2 : list json) (C schema : json) (w : world),
    schema_cache w = Some schema ->
    payloads_prepared schema (records_1 ++ records_2) ->
    updates_answered api ->
    databases_query api (length (query_calls w)) (JDict query)
      = Returned (JDict first_page) ->
    Dict.lookup "results" first_page = Some (JList records_1) ->
    length records_1 = 100%nat ->
    Dict.lookup "has_more" first_page = Some (JBool true) ->
    Dict.lookup "next_cursor" first_page = Some C ->
    databases_query api (S (length (query_calls w)))
      (JDict (Dict.set "start_cursor" C query))
      = Returned (JDict second_page) ->
    Dict.lookup "results" second_page = Some (JList records_2) ->
    length records_2 = 37%nat ->
    Dict.lookup "has_more" second_page = Some (JBool false) ->
    forall fuel, (2 <= fuel)%nat ->
    exists w' success,
      loop fuel query 0 0 w = (w', Ok (success, 137)) /\
      query_calls w' =
        (query_calls w ++
         [ (JDict query, Returned (JDict first_page));
           (JDict (Dict.set "start_cursor" C query),
            Returned (JDict second_page)) ])%list.
Proof.
  intros query first_page second_page records_1 records_2 C schema w
    Hcache Hprep Hans Hq1 Hr1 Hlen1 Hmore1 Hcursor Hq2 Hr2 Hlen2 Hmore2
    fuel Hfuel.
  destruct fuel as [|[|fuel]]; try lia.
  assert (Hprep1 : payloads_prepared schema records_1).
  { intros p Hin. apply Hprep. apply in_or_app. now left. }
  assert (Hprep2 : payloads_prepared schema records_2).
  { intros p Hin. apply Hprep. apply in_or_app. now right. }
  destruct (fetch_step (S fuel) query first_page records_1 schema 0 0 w
              Hq1 Hr1 Hprep1 Hans Hcache)
    as (w1 & s1 & Hcalls1 & Hcache1 & Hloop1).
  rewrite Hloop1. unfold bind at 1, lift at 1. simpl Py.get.
  rewrite Hmore1. change (negb (Py.truthy (JBool true))) with false.
  cbv iota. unfold bind at 1, lift at 1. simpl Py.getitem. rewrite Hcursor.
  assert (Hq2' :
    databases_query api (length (query_calls w1))
      (JDict (Dict.set "start_cursor" C query))
    = Returned (JDict second_page)).
  { rewrite Hcalls1, length_app. simpl length.
    replace (length (query_calls w) + 1)%nat
      with (S (length (query_calls w))) by lia.
    exact Hq2. }
  destruct (fetch_step fuel (Dict.set "start_cursor" C query) second_page
              records_2 schema s1 (0 + Z.of_nat (length records_1)) w1
              Hq2' Hr2 Hprep2 Hans Hcache1)
    as (w2 & s2 & Hcalls2 & _ & Hloop2).
  rewrite Hloop2. unfold bind at 1, lift at 1. simpl Py.get.
  rewrite Hmore2. change (negb (Py.truthy (JBool false))) with true.
  cbv iota. unfold ret.
  exists w2, s2. split.
  - rewrite Hlen1, Hlen2. reflexivity.
  - rewrite Hcalls2, Hcalls1, <- app_assoc. reflexivity.
Qed.

End Pagination.

(* ------------------------------------------------------------------ *)
(** ** Properties: the resolution of the target status *)

Lemma eq_opt_str_false (n : json) (target : string) :
  n <> JStr target -> Py.eq_opt_str n (Some target) = false.
Proof.
  intros Hne. destruct n; simpl; try reflexivity.
  destruct (String.eqb_spec s target) as [-> | _]; [now elim Hne | reflexivity].
Qed.

Lemma lookup_remove {A} (k c : string) (cache : list (string * A)) (v : A) :
  Dict.lookup c
    (filter (fun kv => negb (String.eqb k (fst kv))) cache) = Some v ->
  Dict.lookup c cache = Some v.
Proof.
  induction cache as [|[k' v'] cache IH]; simpl; [discriminate|].
  destruct (String.eqb_spec k k') as [<- | Hne]; simpl.
  - intros H. destruct (String.eqb_spec c k) as [-> | _]; [|auto].
    clear IH. exfalso. revert H.
    induction cache as [|[k2 v2] cache IH]; simpl; [discriminate|].
    destruct (String.eqb_spec k k2) as [<- | Hne2]; simpl; [exact IH|].
    destruct (String.eqb_spec k k2); [contradiction | exact IH].
  - destruct (String.eqb c k'); auto.
Qed.

Lemma lookup_firstn {A} (n : nat) (c : string) (cache : list (string * A))
  (v : A) :
  Dict.lookup c (firstn n cache) = Some v -> Dict.lookup c cache = Some v.
Proof.
  revert cache. induction n as [|n IH]; intros [|[k' v'] cache]; simpl;
    try discriminate.
  destruct (String.eqb c k'); auto.
Qed.

Section StatusId.

Variable cfg : config.
Variable api : notion_api.

Lemma status_id_in_options (schema options : json) (column : string) :
  declared_options schema column = Ok options ->
  status_id_in cfg schema column =
    (opts <~ Py.iter options ;; find_target_option cfg column opts).
Proof.
  unfold status_id_in. intros ->. reflexivity.
Qed.

Lemma find_target_option_found (column target : string)
  (before after : list json) (opt id : json) :
  TARGET_STATUS cfg = Some target ->
  (forall o, In o before ->
     exists n, Py.getitem o (JStr "name") = Ok n /\ n <> JStr target) ->
  Py.getitem opt (JStr "name") = Ok (JStr target) ->
  Py.getitem opt (JStr "id") = Ok id ->
  find_target_option cfg column (before ++ opt :: after) = Ok id.
Proof.
  intros Htarget Hbefore Hname Hid.
  induction before as [|o before IH]; simpl.
  - rewrite Hname, Htarget. simpl. now rewrite String.eqb_refl.
  - destruct (Hbefore o (or_introl eq_refl)) as (n & Hn & Hne).
    rewrite Hn, Htarget. simpl. rewrite (eq_opt_str_false _ _ Hne).
    apply IH. intros o' Hin. apply Hbefore. now right.
Qed.

Lemma find_target_option_missing (column target : string)
  (options : list json) :
  TARGET_STATUS cfg = Some target ->
  (forall o, In o options ->
     exists n, Py.getitem o (JStr "name") = Ok n /\ n <> JStr target) ->
  find_target_option cfg column options =
    Raise (ValueError [ Lit "状态列 "; Val (JStr column);
                        Lit " 中未找到 "; Val (JStr target) ]).
Proof.
  intros Htarget Hall.
  induction options as [|o options IH]; simpl.
  - now rewrite Htarget.
  - destruct (Hall o (or_introl eq_refl)) as (n & Hn & Hne).
    rewrite Hn, Htarget. simpl. rewrite (eq_opt_str_false _ _ Hne).
    apply IH. intros o' Hin. apply Hall. now right.
Qed.

(** With a coherent cache the memoised method gives what its body
    gives on the schema. *)
Lemma get_status_id_result (column : string) (schema : json)
  (w w1 : world) :
  _get_db_schema cfg api w = (w1, Ok schema) ->
  status_cache_coherent cfg schema w ->
  match status_id_in cfg schema column with
  | Ok id => exists w', _get_status_id cfg api column w = (w', Ok id)
  | Raise e => _get_status_id cfg api column w = (w1, Raise e)
  | OutOfFuel => _get_status_id cfg api column w = (w1, OutOfFuel)
  end.
Proof.
  intros Hschema Hcoherent.
  assert (Hrun :
    _get_status_id cfg api column w =
      match Dict.lookup column (status_cache w) with
      | Some id =>
          (with_status_cache (Lru.touch column id (status_cache w)) w, Ok id)
      | None =>
          match status_id_in cfg schema column with
          | Ok id =>
              (with_status_cache
                 (Lru.insert 50 column id (status_cache w1)) w1, Ok id)
          | Raise e => (w1, Raise e)
          | OutOfFuel => (w1, OutOfFuel)
          end
      end).
  { unfold _get_status_id, bind at 1, gets. cbv beta iota.
    destruct (Dict.lookup column (status_cache w)); [reflexivity|].
    unfold _get_status_id_body, bind, lift, modify, ret.
    rewrite Hschema.
    destruct (status_id_in cfg schema column); reflexivity. }
  rewrite Hrun.
  destruct (Dict.lookup column (status_cache w)) as [cached|] eqn:Hhit.
  - rewrite (Hcoherent _ _ Hhit). eexists. reflexivity.
  - destruct (status_id_in cfg schema column); [eexists|..]; reflexivity.
Qed.

Lemma initial_world_coherent (schema : json) :
  status_cache_coherent cfg schema initial_world.
Proof. intros column id H. discriminate H. Qed.

(** Coherence is an invariant of the memoised method. *)
Lemma get_status_id_keeps_coherent (column : string) (schema : json)
  (w w' : world) (r : result json) :
  schema_cache w = Some schema ->
  status_cache_coherent cfg schema w ->
  _get_status_id cfg api column w = (w', r) ->
  status_cache_coherent cfg schema w'.
Proof.
  intros Hcache Hcoherent.
  unfold _get_status_id, bind at 1, gets. cbv beta iota.
  destruct (Dict.lookup column (status_cache w)) as [cached|] eqn:Hhit.
  - unfold bind, modify, ret. intros H. inversion H; subst.
    intros c id. simpl.
    destruct (String.eqb_spec c column) as [-> | _].
    + intros E. inversion E; subst. now apply Hcoherent.
    + intros E. apply Hcoherent. eapply lookup_remove. exact E.
  - unfold _get_status_id_body, bind, lift, modify, ret.
    rewrite (get_db_schema_cached cfg api w schema Hcache).
    destruct (status_id_in cfg schema column) as [id | e |] eqn:Hid;
      intros H; inversion H; subst; try exact Hcoherent.
    intros c id' E. unfold with_status_cache in E.
    cbn [status_cache] in E. unfold Lru.insert in E.
    apply lookup_firstn in E. cbn [Dict.lookup] in E.
    destruct (String.eqb_spec c column) as [-> | _].
    + inversion E; subst. exact Hid.
    + apply Hcoherent. eapply lookup_remove. exact E.
Qed.

(** C6: the target status of a column resolves to the id of the
    declared option that bears its name, and to a [ValueError] that
    interpolates the column and the target when no declared option
    bears it. *)
Theorem status_id_resolution :
  forall (column target : string) (schema : json) (options : list json)
         (w w1 : world),
    TARGET_STATUS cfg = Some target ->
    _get_db_schema cfg api w = (w1, Ok schema) ->
    status_cache_coherent cfg schema w ->
    declared_options schema column = Ok (JList options) ->
    (forall before opt after id,
        options = (before ++ opt :: after)%list ->
        (forall o, In o before ->
           exists n, Py.getitem o (JStr "name") = Ok n /\ n <> JStr target) ->
        Py.getitem opt (JStr "name") = Ok (JStr target) ->
        Py.getitem opt (JStr "id") = Ok id ->
        exists w', _get_status_id cfg api column w = (w', Ok id))
    /\
    ((forall o, In o options ->
        exists n, Py.getitem o (JStr "name") = Ok n /\ n <> JStr target) ->
     _get_status_id cfg api column w =
       (w1, Raise (ValueError [ Lit "状态列 "; Val (JStr column);
                                Lit " 中未找到 "; Val (JStr target) ]))).
Proof.
  intros column target schema options w w1 Htarget Hschema Hcoherent Hopts.
  pose proof (get_status_id_result column schema w w1 Hschema Hcoherent)
    as Hresult.
  rewrite (status_id_in_options _ _ _ Hopts) in Hresult.
  simpl in Hresult. split.
  - intros before opt after id -> Hbefore Hname Hid.
    now rewrite (find_target_option_found column target before after opt id
                   Htarget Hbefore Hname Hid) in Hresult.
  - intros Hall.
    now rewrite (find_target_option_missing column target options
                   Htarget Hall) in Hresult.
Qed.

End StatusId.

(* ------------------------------------------------------------------ *)
(** ** Properties: a run without the frequency field name *)

Lemma getitem_none_key (c : json) :
  exists e, Py.getitem c JNone = Raise e.
Proof. destruct c; simpl; eauto. Qed.

Lemma build_frequency_filter_without_name (cfg : config) (api : notion_api)
  (w : world) :
  FREQUENCY_NAME cfg = None ->
  exists w' e, _build_frequency_filter cfg api w = (w', Raise e).
Proof.
  intros Hname. unfold _build_frequency_filter, bind at 1.
  destruct (_get_db_schema cfg api w) as [w' [schema | e |]] eqn:Hschema.
  - unfold bind at 1, lift at 1.
    destruct (Py.getitem schema (JStr "properties")) as [props | e |] eqn:Hp.
    + unfold bind at 1, lift at 1. rewrite Hname. simpl of_opt.
      destruct (getitem_none_key props) as (e & ->). eauto.
    + eauto.
    + destruct schema; simpl in Hp; try discriminate.
      destruct (Dict.lookup "properties" d); discriminate.
  - eauto.
  - exfalso. revert Hschema.
    unfold _get_db_schema, bind, gets, try_except_APIResponseError,
      notion_databases_retrieve, bind, gets, modify, answer, logger_error,
      raise, ret.
    destruct (schema_cache w); [discriminate|].
    destruct (databases_retrieve api _ _); discriminate.
Qed.

(** C9 (the code departs from it): with every required setting given
    and FREQUENCY_NAME unset, the configuration loads, and the run
    then ends with status 1 on an exception raised by the filter
    builder, before any query or update. *)
Theorem run_without_frequency_name_aborts :
  forall (getenv : environ) (cfg : config),
    _load_config getenv = Ok cfg ->
    getenv "FREQUENCY_NAME" = None ->
    forall (api : notion_api) (now_isoformat : nat -> string) (fuel : nat),
    exists w e,
      main getenv api now_isoformat fuel = (w, Some 1) /\
      query_calls w = [] /\
      update_calls w = [] /\
      In (ERROR_exn "流程中断: " e) (log w).
Proof.
  intros getenv cfg Hload Hunset api now_isoformat fuel.
  assert (Hname : FREQUENCY_NAME cfg = None).
  { now rewrite (load_config_frequency_name _ _ Hload). }
  destruct (build_frequency_filter_without_name cfg api initial_world Hname)
    as (w' & e & Hfilter).
  destruct (keeps_build_frequency_filter _ _ _ _ _ Hfilter) as (Hq & Hu & _).
  unfold main. rewrite Hload.
  unfold batch_process_tasks, try_except_Exception, bind at 1.
  rewrite Hfilter.
  unfold logger_error_exn, bind, modify, raise.
  eexists. exists e. split; [reflexivity|]. simpl.
  repeat split; [exact Hq | exact Hu |].
  apply in_or_app. left. apply in_or_app. right. now left.
Qed.

Lemma run_without_frequency_name_aborts_witness :
  exists w e,
    main (Sample.without "FREQUENCY_NAME" Sample.getenv) Sample.small_api
      Sample.now_isoformat 3 = (w, Some 1) /\
    query_calls w = [] /\
    update_calls w = [] /\
    In (ERROR_exn "流程中断: " e) (log w).
Proof.
  apply (run_without_frequency_name_aborts
           (Sample.without "FREQUENCY_NAME" Sample.getenv)
           (mkConfig ["daily"; "weekly"] ["Status"] (Some "Todo")
              (Some "secret") (Some "tasks") (Some "Reset at") None));
    reflexivity.
Defined.

(* ------------------------------------------------------------------ *)
(** ** The properties on the sample data *)

Lemma sample_prepare (id : string) (w : world) :
  schema_cache w = Some Sample.schema ->
  exists w1 update_data,
    _prepare_update_data Sample.cfg Sample.api Sample.now_isoformat
      (Sample.page id) w = (w1, Ok update_data).
Proof.
  intros Hcache.
  assert (Hid : exists w0 v,
             _get_status_id Sample.cfg Sample.api "Status" w = (w0, Ok v) /\
             schema_cache w0 = Some Sample.schema).
  { unfold _get_status_id, bind at 1, gets. cbv beta iota.
    destruct (Dict.lookup "Status" (status_cache w)) as [v|].
    - eexists. exists v. split; [reflexivity | exact Hcache].
    - unfold _get_status_id_body, bind, lift, modify, ret.
      rewrite (get_db_schema_cached _ _ _ _ Hcache).
      eexists. eexists. split; [reflexivity | exact Hcache]. }
  destruct Hid as (w0 & v & Hid & _).
  unfold _prepare_update_data, bind at 1.
  change (STATUS_COLUMNS Sample.cfg) with ["Status"].
  cbn [status_properties]. unfold bind at 1. rewrite Hid.
  eexists. eexists. reflexivity.
Qed.

Lemma sample_payloads_prepared :
  payloads_prepared Sample.cfg Sample.api Sample.now_isoformat Sample.schema
    (Sample.records_1 ++ Sample.records_2).
Proof.
  intros page Hin w Hcache.
  apply in_app_or in Hin.
  destruct Hin as [Hin | Hin]; apply repeat_spec in Hin; subst page;
    now apply sample_prepare.
Qed.

Lemma sample_updates_answered : updates_answered Sample.api.
Proof.
  intros n args. destruct n as [|[|n]]; eexists; simpl; eauto.
Qed.

(** C2 does not hold without these conditions: with the two pages
    of the claim, the loop stops after the first fetch when the third
    update times out (only [APIResponseError] is caught around the
    update), and when the third record has an empty title (the
    payload is prepared outside the [try]). *)
Lemma two_pages_one_fetch_when_a_record_aborts :
  (databases_query Sample.timeout_api 0 (JDict Sample.query)
   = Returned (JDict Sample.page_1) /\
   Dict.lookup "results" Sample.page_1 = Some (JList Sample.records_1) /\
   length Sample.records_1 = 100%nat /\
   Dict.lookup "has_more" Sample.page_1 = Some (JBool true) /\
   Dict.lookup "next_cursor" Sample.page_1 = Some (JStr "C") /\
   databases_query Sample.timeout_api 1
     (JDict (Dict.set "start_cursor" (JStr "C") Sample.query))
   = Returned (JDict Sample.page_2) /\
   Dict.lookup "results" Sample.page_2 = Some (JList Sample.records_2) /\
   length Sample.records_2 = 37%nat /\
   Dict.lookup "has_more" Sample.page_2 = Some (JBool false) /\
   exists w',
     while_true Sample.cfg Sample.timeout_api Sample.now_isoformat 2
       Sample.query 0 0 Sample.world_with_schema
     = (w', Raise (OtherException "timeout")) /\
     query_calls w' = [(JDict Sample.query, Returned (JDict Sample.page_1))] /\
     length (update_calls w') = 3%nat)
  /\
  (databases_query Sample.untitled_api 0 (JDict Sample.query)
   = Returned (JDict Sample.page_with_untitled) /\
   Dict.lookup "results" Sample.page_with_untitled
   = Some (JList Sample.records_with_untitled) /\
   length Sample.records_with_untitled = 100%nat /\
   Dict.lookup "has_more" Sample.page_with_untitled = Some (JBool true) /\
   Dict.lookup "next_cursor" Sample.page_with_untitled = Some (JStr "C") /\
   databases_query Sample.untitled_api 1
     (JDict (Dict.set "start_cursor" (JStr "C") Sample.query))
   = Returned (JDict Sample.page_2) /\
   exists w',
     while_true Sample.cfg Sample.untitled_api Sample.now_isoformat 2
       Sample.query 0 0 Sample.world_with_schema
     = (w', Raise IndexError) /\
     query_calls w'
     = [(JDict Sample.query, Returned (JDict Sample.page_with_untitled))] /\
     length (update_calls w') = 2%nat).
Proof.
  split; repeat (split; [reflexivity|]); eexists;
    (split; [vm_compute; reflexivity|]); split; reflexivity.
Qed.

Lemma two_pages_two_fetches_total_137_witness :
  exists w' success,
    while_true Sample.cfg Sample.api Sample.now_isoformat 2 Sample.query 0 0
      Sample.world_with_schema = (w', Ok (success, 137)) /\
    query_calls w' =
      [ (JDict Sample.query, Returned (JDict Sample.page_1));
        (JDict (Dict.set "start_cursor" (JStr "C") Sample.query),
         Returned (JDict Sample.page_2)) ].
Proof.
  apply (two_pages_two_fetches_total_137 Sample.cfg Sample.api
           Sample.now_isoformat Sample.query Sample.page_1 Sample.page_2
           Sample.records_1 Sample.records_2 (JStr "C") Sample.schema
           Sample.world_with_schema);
    try reflexivity.
  - exact sample_payloads_prepared.
  - exact sample_updates_answered.
Defined.

Lemma status_id_resolution_witness :
  (exists w',
      _get_status_id Sample.cfg Sample.api "Status" initial_world
      = (w', Ok (JStr "opt-2")))
  /\
  _get_status_id Sample.cfg_blocked Sample.api "Status" initial_world
  = (with_schema_cache (Some Sample.schema)
       (with_retrieve_calls [(JStr "tasks", Returned Sample.schema)]
          initial_world),
     Raise (ValueError [ Lit "状态列 "; Val (JStr "Status");
                         Lit " 中未找到 "; Val (JStr "Blocked") ])).
Proof.
  split.
  - apply (proj1 (status_id_resolution Sample.cfg Sample.api "Status" "Todo"
                    Sample.schema Sample.status_options initial_world _
                    eq_refl eq_refl (initial_world_coherent _ _) eq_refl)
             [JDict [("name", JStr "Done"); ("id", JStr "opt-1")]]
             (JDict [("name", JStr "Todo"); ("id", JStr "opt-2")])
             []);
      try reflexivity.
    intros o [<- | []]. exists (JStr "Done"). split; [reflexivity|].
    discriminate.
  - apply (proj2 (status_id_resolution Sample.cfg_blocked Sample.api "Status"
                    "Blocked" Sample.schema Sample.status_options
                    initial_world _ eq_refl eq_refl
                    (initial_world_coherent _ _) eq_refl)).
    intros o [<- | [<- | []]]; eexists; (split; [reflexivity | discriminate]).
Defined.

Lemma update_call_receives_prepared_payload_witness :
  exists update_data w2 r,
    process_page Sample.cfg Sample.api Sample.now_isoformat (Sample.page "a")
      0 Sample.world_with_schema = (w2, r) /\
    update_calls w2 = [(update_data, Returned JNone)] /\
    Py.getitem update_data (JStr "metadata")
    = Ok (JDict [ ("title", JStr "a");
                  ("url", JStr "https://notion.example/a") ]).
Proof.
  destruct (update_call_receives_prepared_payload Sample.cfg Sample.api
              Sample.now_isoformat (Sample.page "a") 0
              Sample.world_with_schema
              (fst (_prepare_update_data Sample.cfg Sample.api
                      Sample.now_isoformat (Sample.page "a")
                      Sample.world_with_schema))
              (JDict
                 [ ("page_id", JStr "a");
                   ("properties",
                    JDict
                      [ ("Status",
                         JDict [("status", JDict [("id", JStr "opt-2")])]);
                        ("Reset at",
                         JDict
                           [ ("date",
                              JDict
                                [ ("start", JStr "2024-01-01T00:00:00+00:00");
                                  ("time_zone", JStr "Etc/GMT") ]) ]) ]);
                   ("metadata",
                    JDict [ ("title", JStr "a");
                            ("url", JStr "https://notion.example/a") ]) ])
              eq_refl) as (_ & w2 & r & Hproc & Hcalls).
  eexists. exists w2, r. split; [exact Hproc|]. split; [exact Hcalls|].
  reflexivity.
Defined.


(* ================================================================== *)
(** * Further properties of the script *)

(* ------------------------------------------------------------------ *)
(** ** [_parse_list]: trimmed, non-empty items *)

Lemma concat_empty_cons (x : string) (l : list string) :
  String.concat "" (x :: l) = (x ++ String.concat "" l)%string.
Proof.
  destruct l as [|y l]; simpl; [now rewrite append_empty_r | reflexivity].
Qed.

Lemma bytes_append (a b : string) :
  list_ascii_of_string (a ++ b)
  = (list_ascii_of_string a ++ list_ascii_of_string b)%list.
Proof. induction a as [|x a IH]; simpl; [reflexivity | now rewrite IH]. Qed.

Lemma concat_chars (s : string) : String.concat "" (Str.chars s) = s.
Proof.
  induction s as [|a r IH]; [reflexivity|].
  cbn [Str.chars]. cbv zeta.
  destruct r as [|b r'].
  { reflexivity. }
  destruct (Str.chars (String b r')) as [|c cs] eqn:E.
  { rewrite concat_empty_cons, <- IH. reflexivity. }
  destruct (Str.is_cont b).
  - rewrite concat_empty_cons. rewrite concat_empty_cons in IH.
    simpl. now rewrite IH.
  - rewrite concat_empty_cons, IH. reflexivity.
Qed.

(** A byte of one of the pieces is a byte of their concatenation, and
    conversely. *)
Lemma byte_of_concat (a : ascii) (cs : list string) :
  In a (list_ascii_of_string (String.concat "" cs)) <->
  exists c, In c cs /\ In a (list_ascii_of_string c).
Proof.
  induction cs as [|c cs IH].
  - simpl. split; [contradiction | intros (c & [] & _)].
  - rewrite concat_empty_cons, bytes_append, in_app_iff, IH. split.
    + intros [H | (c' & Hin & H)]; [exists c | exists c']; simpl; auto.
    + intros (c' & [<- | Hin] & H); [now left | right; eauto].
Qed.

Lemma drop_space_incl (cs : list string) : incl (Str.drop_space cs) cs.
Proof.
  induction cs as [|c cs IH]; simpl; [apply incl_refl|].
  destruct (Str.is_space c); [now apply incl_tl | apply incl_refl].
Qed.

Lemma stripped_incl (s : string) : incl (stripped s) (Str.chars s).
Proof.
  unfold stripped. intros c Hc. apply in_rev in Hc.
  apply drop_space_incl in Hc. apply in_rev in Hc.
  now apply drop_space_incl in Hc.
Qed.

Lemma strip_bytes (a : ascii) (s : string) :
  In a (list_ascii_of_string (Str.strip s)) -> In a (list_ascii_of_string s).
Proof.
  unfold Str.strip. fold (stripped s). intros H.
  apply byte_of_concat in H. destruct H as (c & Hc & Ha).
  rewrite <- (concat_chars s). apply byte_of_concat.
  exists c. split; [now apply stripped_incl | assumption].
Qed.

Lemma split_comma_no_comma (s p : string) :
  In p (Str.split_comma s) -> ~ In ","%char (list_ascii_of_string p).
Proof.
  revert p. induction s as [|a r IH]; intros p.
  - simpl. intros [<- | []]. simpl. tauto.
  - simpl. destruct (Ascii.eqb_spec a ","%char) as [-> | Hne].
    + intros [<- | Hin]; [simpl; tauto | now apply IH].
    + destruct (Str.split_comma r) as [|q qs] eqn:E.
      * intros [<- | []]. simpl. intros [H | []]. now apply Hne.
      * intros [<- | Hin].
        -- simpl. intros [H | H]; [now apply Hne|].
           revert H. apply IH. now left.
        -- apply IH. now right.
Qed.

Lemma grouped_tail_grouped (cs : list string) : grouped_tail cs -> grouped cs.
Proof. destruct cs; simpl; tauto. Qed.

Lemma chars_grouped (s : string) : grouped (Str.chars s).
Proof.
  induction s as [|a r IH]; [exact I|].
  cbn [Str.chars]. cbv zeta.
  destruct r as [|b r'].
  { simpl. auto. }
  assert (Hhead : match Str.chars (String b r') with
                  | [] => True
                  | c :: _ => exists t, c = String b t
                  end).
  { cbn [Str.chars]. cbv zeta. destruct r' as [|b' r'']; [simpl; eauto|].
    destruct (Str.chars (String b' r'')) as [|c cs]; [eauto|].
    destruct (Str.is_cont b'); eauto. }
  destruct (Str.chars (String b r')) as [|c cs] eqn:E.
  { simpl. auto. }
  destruct Hhead as (t & ->). simpl in IH. destruct IH as (Hg & Ht).
  destruct (Str.is_cont b) eqn:Hb.
  - simpl. rewrite Hb, Hg. auto.
  - simpl. repeat split; auto.
Qed.

Lemma chars_of_group (a : ascii) (t rest : string) :
  all_cont t = true ->
  match rest with
  | EmptyString => True
  | String b _ => Str.is_cont b = false
  end ->
  Str.chars (String a (t ++ rest)) = String a t :: Str.chars rest.
Proof.
  revert a. induction t as [|b t IH]; intros a Ht Hrest.
  - simpl append. cbn [Str.chars]. cbv zeta.
    destruct rest as [|b r]; [reflexivity|].
    rewrite Hrest. destruct (Str.chars (String b r)); reflexivity.
  - simpl in Ht. apply andb_prop in Ht. destruct Ht as (Hb & Ht).
    change (String a (String b t ++ rest))
      with (String a (String b (t ++ rest))).
    cbn [Str.chars]. cbv zeta.
    change (Str.chars (String b (t ++ rest)))
      with (Str.chars (String b (t ++ rest))).
    pose proof (IH b Ht Hrest) as E. cbn [Str.chars] in E. cbv zeta in E.
    rewrite E, Hb. reflexivity.
Qed.

Lemma chars_concat_grouped (cs : list string) :
  grouped cs -> Str.chars (String.concat "" cs) = cs.
Proof.
  assert (Htail : forall cs, grouped_tail cs ->
            Str.chars (String.concat "" cs) = cs /\
            match String.concat "" cs with
            | EmptyString => True
            | String b _ => Str.is_cont b = false
            end).
  { clear cs. induction cs as [|c cs IH]; [simpl; auto|].
    intros (Hg & Hf & Ht). destruct (IH Ht) as (E & Hfirst).
    rewrite concat_empty_cons. destruct c as [|a t]; [contradiction|].
    simpl in Hg, Hf. split; [|exact Hf].
    change (String a t ++ String.concat "" cs)%string
      with (String a (t ++ String.concat "" cs)).
    rewrite (chars_of_group a t _ Hg Hfirst), E. reflexivity. }
  destruct cs as [|c cs]; [reflexivity|].
  intros (Hg & Ht). destruct (Htail cs Ht) as (E & Hfirst).
  rewrite concat_empty_cons. destruct c as [|a t]; [contradiction|].
  simpl in Hg.
  change (String a t ++ String.concat "" cs)%string
    with (String a (t ++ String.concat "" cs)).
  rewrite (chars_of_group a t _ Hg Hfirst), E. reflexivity.
Qed.

Lemma grouped_tail_prefix (a b : list string) :
  grouped_tail (a ++ b) -> grouped_tail a.
Proof. induction a as [|c a IH]; simpl; [auto | tauto]. Qed.

Lemma grouped_prefix (a b : list string) : grouped (a ++ b) -> grouped a.
Proof.
  destruct a as [|c a]; simpl; [auto|].
  intros (Hg & Ht). split; [assumption|]. eapply grouped_tail_prefix; eauto.
Qed.

Lemma drop_space_suffix (cs : list string) :
  exists spaces, cs = (spaces ++ Str.drop_space cs)%list.
Proof.
  induction cs as [|c cs (spaces & IH)]; [now exists []|].
  simpl. destruct (Str.is_space c).
  - exists (c :: spaces). simpl. now rewrite <- IH.
  - now exists [].
Qed.

Lemma drop_space_head (cs : list string) (c : string) :
  hd_error (Str.drop_space cs) = Some c -> Str.is_space c = false.
Proof.
  induction cs as [|c' cs IH]; simpl; [discriminate|].
  destruct (Str.is_space c') eqn:E; [exact IH|].
  simpl. intros H. inversion H; subst. exact E.
Qed.

Lemma drop_space_grouped (cs : list string) :
  grouped cs -> grouped (Str.drop_space cs).
Proof.
  induction cs as [|c cs IH]; [auto|].
  intros Hg. simpl. destruct (Str.is_space c); [|assumption].
  apply IH. destruct Hg as (_ & Ht). now apply grouped_tail_grouped.
Qed.

(** [stripped s] is a prefix of what is left of [chars s] once the
    leading white space is dropped. *)
Lemma stripped_prefix (s : string) :
  exists spaces,
    Str.drop_space (Str.chars s) = (stripped s ++ spaces)%list.
Proof.
  unfold stripped.
  destruct (drop_space_suffix (rev (Str.drop_space (Str.chars s))))
    as (spaces & E).
  exists (rev spaces).
  rewrite <- rev_app_distr, <- E, rev_involutive. reflexivity.
Qed.

Lemma chars_strip (s : string) : Str.chars (Str.strip s) = stripped s.
Proof.
  unfold Str.strip. fold (stripped s). apply chars_concat_grouped.
  destruct (stripped_prefix s) as (spaces & E).
  apply (grouped_prefix _ spaces). rewrite <- E.
  apply drop_space_grouped, chars_grouped.
Qed.

Lemma stripped_first (s c : string) :
  hd_error (stripped s) = Some c -> Str.is_space c = false.
Proof.
  intros H. destruct (stripped_prefix s) as (spaces & E).
  apply (drop_space_head (Str.chars s)). rewrite E.
  destruct (stripped s); [discriminate | exact H].
Qed.

Lemma stripped_last (s c : string) :
  hd_error (rev (stripped s)) = Some c -> Str.is_space c = false.
Proof.
  unfold stripped. rewrite rev_involutive. apply drop_space_head.
Qed.

Lemma parse_list_item (value : option string) (x : string) :
  In x (_parse_list value) ->
  x <> "" /\
  ~ In ","%char (list_ascii_of_string x) /\
  (forall c, hd_error (Str.chars x) = Some c -> Str.is_space c = false) /\
  (forall c, hd_error (rev (Str.chars x)) = Some c ->
             Str.is_space c = false).
Proof.
  intros Hin. unfold _parse_list in Hin.
  apply filter_In in Hin. destruct Hin as (Hin & Hne).
  apply in_map_iff in Hin. destruct Hin as (p & <- & Hp).
  repeat split.
  - intros E. rewrite E in Hne. discriminate.
  - intros Hc. apply strip_bytes in Hc.
    revert Hc. eapply split_comma_no_comma; exact Hp.
  - intros c. rewrite chars_strip. apply stripped_first.
  - intros c. rewrite chars_strip. apply stripped_last.
Qed.

(** X1: every item [_parse_list] returns is a non-empty string with no
    comma in it, and neither its first nor its last code point is
    white space. *)
Theorem parse_list_items_are_trimmed :
  forall (value : option string) (x : string),
    In x (_parse_list value) ->
    x <> "" /\
    ~ In ","%char (list_ascii_of_string x) /\
    (forall c, hd_error (Str.chars x) = Some c -> Str.is_space c = false) /\
    (forall c, hd_error (rev (Str.chars x)) = Some c ->
               Str.is_space c = false).
Proof. exact parse_list_item. Qed.

Lemma parse_list_items_are_trimmed_witness :
  "weekly" <> "" /\
  ~ In ","%char (list_ascii_of_string "weekly") /\
  (forall c, hd_error (Str.chars "weekly") = Some c ->
             Str.is_space c = false) /\
  (forall c, hd_error (rev (Str.chars "weekly")) = Some c ->
             Str.is_space c = false).
Proof.
  apply (parse_list_items_are_trimmed (Some "daily, weekly ,")).
  vm_compute. tauto.
Defined.

Lemma drop_space_fixed (cs : list string) :
  (forall c, hd_error cs = Some c -> Str.is_space c = false) ->
  Str.drop_space cs = cs.
Proof.
  destruct cs as [|c cs]; [reflexivity|].
  intros H. simpl. now rewrite (H c eq_refl).
Qed.

Lemma strip_fixed (x : string) :
  (forall c, hd_error (Str.chars x) = Some c -> Str.is_space c = false) ->
  (forall c, hd_error (rev (Str.chars x)) = Some c ->
             Str.is_space c = false) ->
  Str.strip x = x.
Proof.
  intros Hfirst Hlast. unfold Str.strip.
  rewrite (drop_space_fixed _ Hfirst), (drop_space_fixed _ Hlast).
  rewrite rev_involutive. apply concat_chars.
Qed.

Lemma split_comma_piece (p rest : string) :
  ~ In ","%char (list_ascii_of_string p) ->
  Str.split_comma p = [p] /\
  Str.split_comma (p ++ String ","%char rest) = p :: Str.split_comma rest.
Proof.
  induction p as [|a p IH]; intros Hno.
  - split; reflexivity.
  - assert (Ha : Ascii.eqb a ","%char = false).
    { apply Ascii.eqb_neq. intros ->. apply Hno. now left. }
    destruct IH as (E1 & E2).
    { intros H. apply Hno. now right. }
    simpl. rewrite Ha, E1, E2. split; reflexivity.
Qed.

Lemma split_comma_join (l : list string) :
  l <> [] ->
  (forall x, In x l -> ~ In ","%char (list_ascii_of_string x)) ->
  Str.split_comma (Str.join "," l) = l.
Proof.
  unfold Str.join.
  induction l as [|x l IH]; intros Hne Hno; [congruence|].
  destruct l as [|y l].
  - simpl.
    destruct (split_comma_piece x "" (Hno x (or_introl eq_refl))) as (E & _).
    exact E.
  - change (String.concat "," (x :: y :: l))
      with (x ++ String ","%char (String.concat "," (y :: l)))%string.
    destruct (split_comma_piece x (String.concat "," (y :: l))) as (_ & ->).
    { apply Hno. now left. }
    rewrite IH; [reflexivity | discriminate |].
    intros z Hz. apply Hno. now right.
Qed.

Lemma map_fixed {A} (f : A -> A) (l : list A) :
  (forall x, In x l -> f x = x) -> map f l = l.
Proof.
  induction l as [|x l IH]; intros H; simpl; [reflexivity|].
  rewrite (H x (or_introl eq_refl)), IH; [reflexivity|].
  intros y Hy. apply H. now right.
Qed.

Lemma filter_fixed {A} (p : A -> bool) (l : list A) :
  (forall x, In x l -> p x = true) -> filter p l = l.
Proof.
  induction l as [|x l IH]; intros H; simpl; [reflexivity|].
  rewrite (H x (or_introl eq_refl)), IH; [reflexivity|].
  intros y Hy. apply H. now right.
Qed.

(** X2: a parsed list is in normal form: joined with commas and parsed
    again, it comes back unchanged. *)
Theorem parse_list_of_joined_items :
  forall (value : option string),
    _parse_list (Some (Str.join "," (_parse_list value)))
    = _parse_list value.
Proof.
  intros value.
  pose proof (parse_list_item value) as Hitems.
  destruct (_parse_list value) as [|x l] eqn:E; [reflexivity|].
  unfold _parse_list.
  rewrite split_comma_join;
    [| discriminate | intros z Hz; now apply (Hitems z)].
  rewrite map_fixed.
  - apply filter_fixed. intros z Hz.
    destruct (Hitems z Hz) as (Hne & _).
    destruct z; [congruence | reflexivity].
  - intros z Hz. destruct (Hitems z Hz) as (_ & _ & Hfirst & Hlast).
    now apply strip_fixed.
Qed.

(* ------------------------------------------------------------------ *)
(** ** [_load_config]: when it succeeds *)

Lemma truthy_of_opt (o : option string) :
  Py.truthy (of_opt o) = true <-> given o.
Proof.
  unfold given. destruct o as [[|a s]|]; simpl; split; intros H.
  - discriminate.
  - destruct H as (s' & H & Hne). inversion H. congruence.
  - eexists. split; [reflexivity | discriminate].
  - reflexivity.
  - discriminate.
  - destruct H as (s' & H & _). discriminate.
Qed.

Lemma truthy_of_list (l : list string) :
  Py.truthy (JList (map JStr l)) = true <-> l <> [].
Proof. destruct l; simpl; split; congruence. Qed.

Lemma missing_fields_none (c : config) :
  missing_fields c = [] <->
  given (NOTION_API_KEY c) /\ given (NOTION_DATABASE_ID c) /\
  FREQUENCY_STATUS c <> [] /\ STATUS_COLUMNS c <> [] /\
  given (TARGET_STATUS c).
Proof.
  rewrite <- !truthy_of_opt, <- !truthy_of_list.
  cbv [missing_fields required_fields config_get config_items Dict.lookup
       filter fst String.eqb Ascii.eqb Bool.eqb].
  destruct (Py.truthy (of_opt (NOTION_API_KEY c)));
    destruct (Py.truthy (of_opt (NOTION_DATABASE_ID c)));
    destruct (Py.truthy (JList (map JStr (FREQUENCY_STATUS c))));
    destruct (Py.truthy (JList (map JStr (STATUS_COLUMNS c))));
    destruct (Py.truthy (of_opt (TARGET_STATUS c)));
    simpl; split; intros H; try discriminate; try tauto;
    decompose [and] H; discriminate.
Qed.

(** X3: [_load_config] succeeds exactly when the API key, the database
    id and the target status are given and both list settings have at
    least one item; the configuration it returns then holds the values
    of the environment, the two optional ones as they are. *)
Theorem load_config_succeeds_iff :
  forall (getenv : environ) (c : config),
    _load_config getenv = Ok c <->
    c = mkConfig (_parse_list (getenv "FREQUENCY_STATUS"))
          (_parse_list (getenv "STATUS_COLUMNS")) (getenv "TARGET_STATUS")
          (getenv "NOTION_API_KEY") (getenv "NOTION_DATABASE_ID")
          (getenv "TIME_COLUMN") (getenv "FREQUENCY_NAME") /\
    given (getenv "NOTION_API_KEY") /\
    given (getenv "NOTION_DATABASE_ID") /\
    _parse_list (getenv "FREQUENCY_STATUS") <> [] /\
    _parse_list (getenv "STATUS_COLUMNS") <> [] /\
    given (getenv "TARGET_STATUS").
Proof.
  intros getenv c. unfold _load_config. cbv zeta.
  match goal with |- context [missing_fields ?l] => set (loaded := l) end.
  pose proof (missing_fields_none loaded) as Hnone. simpl in Hnone.
  destruct (missing_fields loaded) as [|m ms]; split.
  - intros H. inversion H. split; [reflexivity|]. now apply Hnone.
  - intros (-> & _). reflexivity.
  - discriminate.
  - intros (_ & H). apply Hnone in H. discriminate.
Qed.

(* ------------------------------------------------------------------ *)
(** ** Relations that every step of the script preserves R *)

Section Preserved.

Variable R : world -> world -> Prop.
Hypothesis R_refl : forall w, R w w.
Hypothesis R_trans : forall w1 w2 w3, R w1 w2 -> R w2 w3 -> R w1 w3.

Lemma preserves_ret {A} (a : A) : preserves R (ret a).
Proof. intros w w' r H. inversion H. apply R_refl. Qed.

Lemma preserves_raise {A} (e : exn) : preserves R (@raise A e).
Proof. intros w w' r H. inversion H. apply R_refl. Qed.

Lemma preserves_out_of_fuel {A} : preserves R (@out_of_fuel A).
Proof. intros w w' r H. inversion H. apply R_refl. Qed.

Lemma preserves_lift {A} (x : result A) : preserves R (lift x).
Proof. intros w w' r H. inversion H. apply R_refl. Qed.

Lemma preserves_gets {A} (f : world -> A) : preserves R (gets f).
Proof. intros w w' r H. inversion H. apply R_refl. Qed.

Lemma preserves_modify (f : world -> world) :
  (forall w, R w (f w)) -> preserves R (modify f).
Proof. intros Hf w w' r H. inversion H. apply Hf. Qed.

Lemma preserves_answer (r : response) : preserves R (answer r).
Proof.
  destruct r; [apply preserves_ret | apply preserves_raise ..].
Qed.

Lemma preserves_bind {A B} (m : M A) (k : A -> M B) :
  preserves R m -> (forall a, preserves R (k a)) -> preserves R (bind m k).
Proof.
  intros Hm Hk w w' r. unfold bind.
  destruct (m w) as [w1 [a | e |]] eqn:E; intros H.
  - eapply R_trans; [eapply Hm; exact E | eapply Hk; exact H].
  - inversion H; subst. eapply Hm; exact E.
  - inversion H; subst. eapply Hm; exact E.
Qed.

Lemma preserves_try_APIResponseError {A} (body : M A)
  (handler : json -> M A) :
  preserves R body -> (forall b, preserves R (handler b)) ->
  preserves R (try_except_APIResponseError body handler).
Proof.
  intros Hb Hh w w' r. unfold try_except_APIResponseError.
  destruct (body w) as [w1 [a | e |]] eqn:E; intros H;
    try (inversion H; subst; eapply Hb; exact E).
  destruct e; try (inversion H; subst; eapply Hb; exact E).
  eapply R_trans; [eapply Hb; exact E | eapply Hh; exact H].
Qed.

Lemma preserves_try_Exception {A} (body : M A) (handler : exn -> M A) :
  preserves R body -> (forall e, preserves R (handler e)) ->
  preserves R (try_except_Exception body handler).
Proof.
  intros Hb Hh w w' r. unfold try_except_Exception.
  destruct (body w) as [w1 [a | e |]] eqn:E; intros H;
    try (inversion H; subst; eapply Hb; exact E).
  eapply R_trans; [eapply Hb; exact E | eapply Hh; exact H].
Qed.

(** Once the basic steps preserve [R], so do the methods built from
    them. *)
Variable cfg : config.
Variable api : notion_api.
Variable now_isoformat : nat -> string.

Hypothesis R_log : forall l w, R w (with_log l w).
Hypothesis R_clock : forall n w, R w (with_clock_reads n w).
Hypothesis R_query : forall l w, R w (with_query_calls l w).
Hypothesis R_update : forall l w, R w (with_update_calls l w).
Hypothesis R_schema : preserves R (_get_db_schema cfg api).
Hypothesis R_status : forall column, preserves R (_get_status_id cfg api column).

Lemma preserves_status_properties (columns : list string) :
  forall properties, preserves R (status_properties cfg api columns properties).
Proof.
  induction columns as [|col rest IH]; intros properties; simpl.
  - apply preserves_ret.
  - apply preserves_bind; [apply R_status | intros id; apply IH].
Qed.

Lemma preserves_prepare_update_data (page : json) :
  preserves R (_prepare_update_data cfg api now_isoformat page).
Proof.
  unfold _prepare_update_data.
  apply preserves_bind; [apply preserves_status_properties|].
  intros properties. apply preserves_bind.
  { destruct (TIME_COLUMN cfg) as [tc|]; [|apply preserves_ret].
    destruct (Str.nonempty tc); [|apply preserves_ret].
    unfold _current_timestamp.
    repeat (apply preserves_bind; [|intros ?]);
      try apply preserves_gets; try apply preserves_ret.
    apply preserves_modify. intros w. apply R_clock. }
  intros properties'.
  repeat (apply preserves_bind; [apply preserves_lift|]; intros ?).
  apply preserves_ret.
Qed.

Lemma preserves_metadata (update_data : json) (k : string) :
  preserves R (metadata update_data k).
Proof.
  unfold metadata. apply preserves_bind; [apply preserves_lift|].
  intros md. apply preserves_lift.
Qed.

Lemma preserves_process_page (page : json) (success : Z) :
  preserves R (process_page cfg api now_isoformat page success).
Proof.
  unfold process_page.
  apply preserves_bind; [apply preserves_prepare_update_data|].
  intros update_data. apply preserves_try_APIResponseError.
  - apply preserves_bind.
    { unfold notion_pages_update.
      apply preserves_bind; [apply preserves_gets|]. intros n.
      apply preserves_bind; [|intros; apply preserves_answer].
      apply preserves_modify. intros w. apply R_update. }
    intros _. apply preserves_bind; [apply preserves_metadata|].
    intros title. apply preserves_bind; [|intros; apply preserves_ret].
    apply preserves_modify. intros w. apply R_log.
  - intros body. apply preserves_bind; [apply preserves_metadata|].
    intros url. apply preserves_bind; [|intros; apply preserves_ret].
    apply preserves_modify. intros w. apply R_log.
Qed.

Lemma preserves_for_page_in (pages : list json) :
  forall success, preserves R (for_page_in cfg api now_isoformat pages success).
Proof.
  induction pages as [|page rest IH]; intros success; simpl.
  - apply preserves_ret.
  - apply preserves_bind; [apply preserves_process_page | intros s; apply IH].
Qed.

Lemma preserves_while_true (fuel : nat) :
  forall query success total,
    preserves R (while_true cfg api now_isoformat fuel query success total).
Proof.
  induction fuel as [|fuel IH]; intros query success total; simpl.
  - apply preserves_out_of_fuel.
  - apply preserves_bind.
    { unfold notion_databases_query.
      apply preserves_bind; [apply preserves_gets|]. intros n.
      apply preserves_bind; [|intros; apply preserves_answer].
      apply preserves_modify. intros w. apply R_query. }
    intros response.
    apply preserves_bind; [apply preserves_lift|]. intros pages.
    apply preserves_bind; [apply preserves_lift|]. intros n.
    apply preserves_bind; [apply preserves_lift|]. intros items.
    apply preserves_bind; [apply preserves_for_page_in|]. intros s.
    apply preserves_bind; [apply preserves_lift|]. intros has_more.
    destruct (negb (Py.truthy has_more)); [apply preserves_ret|].
    apply preserves_bind; [apply preserves_lift|]. intros cursor.
    apply IH.
Qed.

Lemma preserves_build_frequency_filter :
  preserves R (_build_frequency_filter cfg api).
Proof.
  unfold _build_frequency_filter.
  apply preserves_bind; [apply R_schema|]. intros schema.
  repeat (apply preserves_bind; [apply preserves_lift|]; intros ?).
  destruct (1 <? _); [apply preserves_ret | apply preserves_lift].
Qed.

Lemma preserves_batch_process_tasks (fuel : nat) :
  preserves R (batch_process_tasks cfg api now_isoformat fuel).
Proof.
  unfold batch_process_tasks. apply preserves_try_Exception.
  - apply preserves_bind; [apply preserves_build_frequency_filter|].
    intros filter.
    apply preserves_bind; [apply preserves_while_true|].
    intros [success total]. apply preserves_modify. intros w. apply R_log.
  - intros e. apply preserves_bind; [|intros; apply preserves_raise].
    apply preserves_modify. intros w. apply R_log.
Qed.

End Preserved.

(* ------------------------------------------------------------------ *)
(** ** The schema is retrieved once *)

Lemma steady_refl (w : world) : steady w w.
Proof. intros _. split; reflexivity. Qed.

Lemma steady_trans (w1 w2 w3 : world) :
  steady w1 w2 -> steady w2 w3 -> steady w1 w3.
Proof.
  intros H12 H23 Hc. destruct (H12 Hc) as (Hs & Hr).
  destruct H23 as (Hs' & Hr'); [now rewrite Hs|].
  split; [now rewrite Hs', Hs | now rewrite Hr', Hr].
Qed.

Section SchemaOnce.

Variable cfg : config.
Variable api : notion_api.
Variable now_isoformat : nat -> string.

Lemma get_db_schema_run (w : world) :
  _get_db_schema cfg api w =
    match schema_cache w with
    | Some schema => (w, Ok schema)
    | None =>
        let w1 :=
          with_retrieve_calls
            (retrieve_calls w ++ [retrieve_call cfg api w]) w in
        match snd (retrieve_call cfg api w) with
        | Returned schema => (with_schema_cache (Some schema) w1, Ok schema)
        | ApiError body =>
            (logged (ERROR [Lit "架构获取失败: "; Val body]) w1,
             Raise (APIResponseError body))
        | Failure what => (w1, Raise (OtherException what))
        end
    end.
Proof.
  unfold _get_db_schema, bind at 1, gets. cbv beta iota.
  destruct (schema_cache w); [reflexivity|].
  unfold retrieve_call, try_except_APIResponseError,
    notion_databases_retrieve, bind, gets, modify, answer, logger_error,
    raise, ret, logged. cbv zeta. simpl snd.
  destruct (databases_retrieve api _ _); reflexivity.
Qed.

Lemma steady_get_db_schema : preserves steady (_get_db_schema cfg api).
Proof.
  intros w w' r H Hc. rewrite get_db_schema_run in H.
  destruct (schema_cache w) eqn:E; [|congruence].
  inversion H; subst. split; [assumption | reflexivity].
Qed.

Lemma steady_get_status_id (column : string) :
  preserves steady (_get_status_id cfg api column).
Proof.
  unfold _get_status_id.
  apply (preserves_bind steady steady_trans);
    [apply (preserves_gets steady steady_refl)|].
  intros cache. destruct (Dict.lookup column cache).
  - apply (preserves_bind steady steady_trans);
      [|intros; apply (preserves_ret steady steady_refl)].
    apply preserves_modify. intros w _. split; reflexivity.
  - apply (preserves_bind steady steady_trans).
    + unfold _get_status_id_body.
      apply (preserves_bind steady steady_trans);
        [apply steady_get_db_schema|].
      intros schema. apply (preserves_lift steady steady_refl).
    + intros id. apply (preserves_bind steady steady_trans);
        [|intros; apply (preserves_ret steady steady_refl)].
      apply preserves_modify. intros w _. split; reflexivity.
Qed.

Lemma steady_while_true (fuel : nat) (query : dict) (success total : Z) :
  preserves steady (while_true cfg api now_isoformat fuel query success total).
Proof.
  apply (preserves_while_true steady steady_refl steady_trans);
    try (intros; intros _; split; reflexivity).
  exact steady_get_status_id.
Qed.

Lemma steady_batch_process_tasks (fuel : nat) :
  preserves steady (batch_process_tasks cfg api now_isoformat fuel).
Proof.
  apply (preserves_batch_process_tasks steady steady_refl steady_trans);
    try (intros; intros _; split; reflexivity).
  - exact steady_get_db_schema.
  - exact steady_get_status_id.
Qed.

(** The builder changes the world only through [_get_db_schema], and
    gives a filter only when that gave a schema. *)
Lemma build_frequency_filter_world (w w0 : world) (res : result json) :
  _build_frequency_filter cfg api w = (w0, res) ->
  exists r,
    _get_db_schema cfg api w = (w0, r) /\
    (forall filter, res = Ok filter -> exists schema, r = Ok schema).
Proof.
  unfold _build_frequency_filter, bind at 1.
  destruct (_get_db_schema cfg api w) as [w1 [schema | e |]].
  2,3: intros H; inversion H; subst; eexists;
       (split; [reflexivity | discriminate]).
  unfold bind, lift, ret. intros H. exists (Ok schema).
  split; [|eauto]. f_equal.
  repeat match type of H with
         | context [match ?x with Ok _ => _ | Raise _ => _
                             | OutOfFuel => _ end] =>
             destruct x; try (inversion H; reflexivity)
         end.
  destruct (1 <? _); inversion H; reflexivity.
Qed.

Lemma batch_process_tasks_retrieves (fuel : nat) (w : world) :
  retrieve_calls (fst (batch_process_tasks cfg api now_isoformat fuel w))
  = (retrieve_calls w ++
     match schema_cache w with
     | None => [retrieve_call cfg api w]
     | Some _ => []
     end)%list.
Proof.
  destruct (schema_cache w) as [schema|] eqn:Hcache.
  { rewrite app_nil_r.
    destruct (batch_process_tasks cfg api now_isoformat fuel w) as [w' r]
      eqn:Hrun.
    apply steady_batch_process_tasks in Hrun.
    apply Hrun. congruence. }
  unfold batch_process_tasks, try_except_Exception, bind at 1.
  destruct (_build_frequency_filter cfg api w) as [w0 res] eqn:Hbuild.
  destruct (build_frequency_filter_world _ _ _ Hbuild) as (r & Hschema & Hok).
  rewrite get_db_schema_run, Hcache in Hschema. cbv zeta in Hschema.
  destruct res as [filter | e |].
  - destruct (Hok filter eq_refl) as (schema & ->).
    assert (Hw0 : schema_cache w0 <> None /\
                  retrieve_calls w0
                  = (retrieve_calls w ++ [retrieve_call cfg api w])%list).
    { destruct (snd (retrieve_call cfg api w));
        inversion Hschema; subst; simpl; split; congruence. }
    destruct Hw0 as (Hc0 & Hr0).
    unfold bind at 1.
    match goal with
    | |- context [while_true cfg api now_isoformat fuel ?q 0 0 w0] =>
        destruct (while_true cfg api now_isoformat fuel q 0 0 w0)
          as [w1 [[success total] | e |]] eqn:Hloop
    end;
      apply steady_while_true in Hloop; destruct (Hloop Hc0) as (_ & Hr1);
      simpl; now rewrite Hr1, Hr0.
  - simpl.
    destruct (snd (retrieve_call cfg api w)); inversion Hschema; subst;
      reflexivity.
  - simpl.
    destruct (snd (retrieve_call cfg api w)); inversion Hschema; subst;
      reflexivity.
Qed.

End SchemaOnce.

(** X4: a run asks for the schema once when none is cached, with the
    configured database id, and never when one is cached, however the
    run ends. *)
Theorem schema_is_retrieved_once :
  forall (cfg : config) (api : notion_api) (now_isoformat : nat -> string)
         (fuel : nat) (w : world),
    retrieve_calls (fst (batch_process_tasks cfg api now_isoformat fuel w))
    = (retrieve_calls w ++
       match schema_cache w with
       | None =>
           [(of_opt (NOTION_DATABASE_ID cfg),
             databases_retrieve api (length (retrieve_calls w))
               (of_opt (NOTION_DATABASE_ID cfg)))]
       | Some _ => []
       end)%list.
Proof. exact batch_process_tasks_retrieves. Qed.

(** X5: when the retrieval of the schema is rejected by the service,
    the error body is logged, the same [APIResponseError] is raised
    again and logged by the run, nothing is cached, and no query or
    update is made. *)
Theorem schema_retrieval_failure_aborts :
  forall (cfg : config) (api : notion_api) (now_isoformat : nat -> string)
         (fuel : nat) (w : world) (body : json),
    schema_cache w = None ->
    databases_retrieve api (length (retrieve_calls w))
      (of_opt (NOTION_DATABASE_ID cfg)) = ApiError body ->
    let run := batch_process_tasks cfg api now_isoformat fuel w in
    snd run = Raise (APIResponseError body) /\
    log (fst run)
    = (log w ++
       [ ERROR [Lit "架构获取失败: "; Val body];
         ERROR_exn "流程中断: " (APIResponseError body) ])%list /\
    schema_cache (fst run) = None /\
    query_calls (fst run) = query_calls w /\
    update_calls (fst run) = update_calls w.
Proof.
  intros cfg api now_isoformat fuel w body Hcache Hrejected.
  assert (Hrun :
    batch_process_tasks cfg api now_isoformat fuel w
    = (logged (ERROR_exn "流程中断: " (APIResponseError body))
         (logged (ERROR [Lit "架构获取失败: "; Val body])
            (with_retrieve_calls
               (retrieve_calls w ++
                [(of_opt (NOTION_DATABASE_ID cfg), ApiError body)]) w)),
       Raise (APIResponseError body))).
  { unfold batch_process_tasks, try_except_Exception, bind at 1.
    unfold _build_frequency_filter, bind at 1.
    rewrite get_db_schema_run, Hcache. unfold retrieve_call. cbv zeta.
    simpl snd. rewrite Hrejected. reflexivity. }
  cbv zeta. rewrite Hrun. simpl.
  rewrite <- app_assoc. repeat split. exact Hcache.
Qed.

Lemma schema_retrieval_failure_aborts_witness :
  let run :=
    batch_process_tasks Sample.cfg Sample.locked_api Sample.now_isoformat 3
      initial_world in
  snd run = Raise (APIResponseError (JStr "unauthorized")) /\
  log (fst run)
  = [ ERROR [Lit "架构获取失败: "; Val (JStr "unauthorized")];
      ERROR_exn "流程中断: " (APIResponseError (JStr "unauthorized")) ] /\
  schema_cache (fst run) = None /\
  query_calls (fst run) = [] /\
  update_calls (fst run) = [].
Proof.
  apply (schema_retrieval_failure_aborts Sample.cfg Sample.locked_api
           Sample.now_isoformat 3 initial_world (JStr "unauthorized"));
    reflexivity.
Defined.

(* ------------------------------------------------------------------ *)
(** ** The memoised resolution of a status id *)

Lemma lookup_insert_head (maxsize : nat) (k : string) (v : json)
  (c : Lru.cache) :
  Dict.lookup k (Lru.insert (S maxsize) k v c) = Some v.
Proof. unfold Lru.insert. simpl. now rewrite String.eqb_refl. Qed.

Lemma lookup_touch_head (k : string) (v : json) (c : Lru.cache) :
  Dict.lookup k (Lru.touch k v c) = Some v.
Proof. unfold Lru.touch. simpl. now rewrite String.eqb_refl. Qed.

(** The run of [_get_status_id], by the cache and by its body. *)
Lemma get_status_id_run (cfg : config) (api : notion_api) (column : string)
  (w : world) :
  _get_status_id cfg api column w =
    match Dict.lookup column (status_cache w) with
    | Some id =>
        (with_status_cache (Lru.touch column id (status_cache w)) w, Ok id)
    | None =>
        match _get_db_schema cfg api w with
        | (w1, Ok schema) =>
            match status_id_in cfg schema column with
            | Ok id =>
                (with_status_cache
                   (Lru.insert 50 column id (status_cache w1)) w1, Ok id)
            | Raise e => (w1, Raise e)
            | OutOfFuel => (w1, OutOfFuel)
            end
        | (w1, Raise e) => (w1, Raise e)
        | (w1, OutOfFuel) => (w1, OutOfFuel)
        end
    end.
Proof.
  unfold _get_status_id, bind at 1, gets. cbv beta iota.
  destruct (Dict.lookup column (status_cache w)); [reflexivity|].
  unfold _get_status_id_body, bind, lift, modify, ret.
  destruct (_get_db_schema cfg api w) as [w1 [schema | e |]];
    try reflexivity.
Qed.

Lemma get_status_id_cached (cfg : config) (api : notion_api)
  (column : string) (w w1 : world) (id : json) :
  _get_status_id cfg api column w = (w1, Ok id) ->
  Dict.lookup column (status_cache w1) = Some id.
Proof.
  rewrite get_status_id_run.
  destruct (Dict.lookup column (status_cache w)) as [id'|].
  - intros H. inversion H; subst. apply lookup_touch_head.
  - destruct (_get_db_schema cfg api w) as [w0 [schema | e |]];
      try discriminate.
    destruct (status_id_in cfg schema column); try discriminate.
    intros H. inversion H; subst. apply lookup_insert_head.
Qed.

(** X6: once a column has resolved, resolving it again gives the same
    id from the cache: no schema is read, nothing is retrieved or
    logged, and only the order of the cache may change. *)
Theorem status_id_is_memoised :
  forall (cfg : config) (api : notion_api) (column : string)
         (w w1 : world) (id : json),
    _get_status_id cfg api column w = (w1, Ok id) ->
    _get_status_id cfg api column w1
    = (with_status_cache (Lru.touch column id (status_cache w1)) w1, Ok id).
Proof.
  intros cfg api column w w1 id H.
  rewrite get_status_id_run, (get_status_id_cached _ _ _ _ _ _ H).
  reflexivity.
Qed.

Lemma status_id_is_memoised_witness :
  _get_status_id Sample.cfg Sample.api "Status"
    (fst (_get_status_id Sample.cfg Sample.api "Status" initial_world))
  = (fst (_get_status_id Sample.cfg Sample.api "Status" initial_world),
     Ok (JStr "opt-2")).
Proof.
  rewrite (status_id_is_memoised Sample.cfg Sample.api "Status" initial_world
             (fst (_get_status_id Sample.cfg Sample.api "Status"
                     initial_world))
             (JStr "opt-2")).
  - vm_compute. reflexivity.
  - vm_compute. reflexivity.
Defined.

(** X7: on a cache miss, a column that the schema does not have, or
    that has no "status" entry, makes [_get_status_id] raise
    [KeyError] with the missing key; nothing is cached for it. *)
Theorem status_id_of_unknown_column :
  forall (cfg : config) (api : notion_api) (column : string)
         (w w1 : world) (schema : json) (properties : dict),
    Dict.lookup column (status_cache w) = None ->
    _get_db_schema cfg api w = (w1, Ok schema) ->
    Py.getitem schema (JStr "properties") = Ok (JDict properties) ->
    (Dict.lookup column properties = None ->
     _get_status_id cfg api column w = (w1, Raise (KeyError (JStr column))))
    /\
    (forall info,
        Dict.lookup column properties = Some (JDict info) ->
        Dict.lookup "status" info = None ->
        _get_status_id cfg api column w
        = (w1, Raise (KeyError (JStr "status")))).
Proof.
  intros cfg api column w w1 schema properties Hmiss Hschema Hprops.
  rewrite get_status_id_run, Hmiss, Hschema.
  unfold status_id_in, declared_options, rbind. rewrite Hprops. simpl.
  split.
  - intros ->. reflexivity.
  - intros info -> Hstatus. simpl. rewrite Hstatus. reflexivity.
Qed.

Lemma status_id_of_unknown_column_witness :
  _get_status_id Sample.cfg Sample.api "Stage" Sample.world_with_schema
  = (Sample.world_with_schema, Raise (KeyError (JStr "Stage")))
  /\
  _get_status_id Sample.cfg Sample.api "Frequency" Sample.world_with_schema
  = (Sample.world_with_schema, Raise (KeyError (JStr "status"))).
Proof.
  split.
  - apply (proj1 (status_id_of_unknown_column Sample.cfg Sample.api "Stage"
                    Sample.world_with_schema Sample.world_with_schema
                    Sample.schema _ eq_refl eq_refl eq_refl)).
    reflexivity.
  - apply (proj2 (status_id_of_unknown_column Sample.cfg Sample.api
                    "Frequency" Sample.world_with_schema
                    Sample.world_with_schema Sample.schema _
                    eq_refl eq_refl eq_refl)
             [("type", JStr "rich_text")]);
      reflexivity.
Defined.

(* ------------------------------------------------------------------ *)
(** ** The size of the status cache *)

Lemma keys_remove (k : string) (c : Lru.cache) :
  ~ In k (Dict.keys (Lru.remove k c)) /\
  (NoDup (Dict.keys c) -> NoDup (Dict.keys (Lru.remove k c))) /\
  (forall k', In k' (Dict.keys (Lru.remove k c)) -> In k' (Dict.keys c)).
Proof.
  unfold Lru.remove, Dict.keys.
  induction c as [|[k' v'] c (Hnot & Hnodup & Hsub)]; simpl.
  { repeat split; [tauto | auto | auto]. }
  destruct (String.eqb_spec k k') as [<- | Hne]; simpl.
  - repeat split; [assumption | | auto].
    intros H. inversion H; subst. auto.
  - repeat split.
    + intros [E | H]; [congruence | contradiction].
    + intros H. inversion H; subst. constructor; auto.
    + intros k2 [E | H]; auto.
Qed.

Lemma length_remove_hit (k : string) (v : json) (c : Lru.cache) :
  Dict.lookup k c = Some v ->
  (length (Lru.remove k c) < length c)%nat.
Proof.
  unfold Lru.remove.
  induction c as [|[k' v'] c IH]; simpl; [discriminate|].
  destruct (String.eqb_spec k k') as [<- | Hne]; simpl.
  - intros _. pose proof (filter_length_le
                            (fun kv : string * json =>
                               negb (String.eqb k (fst kv))) c).
    lia.
  - intros H. apply IH in H. lia.
Qed.

Lemma NoDup_firstn {A} (n : nat) (l : list A) :
  NoDup l -> NoDup (firstn n l).
Proof.
  intros H. rewrite <- (firstn_skipn n l) in H.
  eapply NoDup_app_remove_r. exact H.
Qed.

Lemma bounded_touch (k : string) (v : json) (w : world) :
  Dict.lookup k (status_cache w) = Some v ->
  bounded w ->
  bounded (with_status_cache (Lru.touch k v (status_cache w)) w).
Proof.
  intros Hhit (Hlen & Hnodup). unfold bounded, Lru.touch. simpl.
  destruct (keys_remove k (status_cache w)) as (Hnot & Hkeep & _).
  pose proof (length_remove_hit _ _ _ Hhit). split; [lia|].
  constructor; auto.
Qed.

Lemma bounded_insert (k : string) (v : json) (w : world) :
  NoDup (Dict.keys (status_cache w)) ->
  bounded (with_status_cache (Lru.insert 50 k v (status_cache w)) w).
Proof.
  intros Hnodup. unfold bounded, Lru.insert, with_status_cache.
  cbn [status_cache]. split; [apply firstn_le_length|].
  unfold Dict.keys. rewrite <- firstn_map. apply NoDup_firstn.
  destruct (keys_remove k (status_cache w)) as (Hnot & Hkeep & _).
  simpl. constructor; auto.
Qed.

Lemma get_db_schema_status_cache (cfg : config) (api : notion_api)
  (w w' : world) (r : result json) :
  _get_db_schema cfg api w = (w', r) -> status_cache w' = status_cache w.
Proof.
  rewrite get_db_schema_run. destruct (schema_cache w).
  - intros H; inversion H; reflexivity.
  - cbv zeta. destruct (snd (retrieve_call cfg api w));
      intros H; inversion H; reflexivity.
Qed.

Lemma bounded_get_status_id (cfg : config) (api : notion_api)
  (column : string) :
  preserves keeps_bounded (_get_status_id cfg api column).
Proof.
  intros w w' r H Hb. rewrite get_status_id_run in H.
  destruct (Dict.lookup column (status_cache w)) as [id|] eqn:Hhit.
  - inversion H; subst. now apply bounded_touch.
  - destruct (_get_db_schema cfg api w) as [w1 res] eqn:Hschema.
    pose proof (get_db_schema_status_cache _ _ _ _ _ Hschema) as Hsame.
    assert (Hb1 : bounded w1).
    { unfold bounded. rewrite Hsame. exact Hb. }
    destruct res as [schema | e |]; try (inversion H; subst; exact Hb1).
    destruct (status_id_in cfg schema column);
      inversion H; subst; try exact Hb1.
    apply bounded_insert. apply Hb1.
Qed.

(** X8: the cache of status ids never holds more than fifty columns,
    nor a column twice, at the end of a run that began so, however the
    run ends. *)
Theorem status_cache_stays_bounded :
  forall (cfg : config) (api : notion_api) (now_isoformat : nat -> string)
         (fuel : nat) (w : world),
    (length (status_cache w) <= 50)%nat ->
    NoDup (Dict.keys (status_cache w)) ->
    let w' := fst (batch_process_tasks cfg api now_isoformat fuel w) in
    (length (status_cache w') <= 50)%nat /\
    NoDup (Dict.keys (status_cache w')).
Proof.
  intros cfg api now_isoformat fuel w Hlen Hnodup. cbv zeta.
  destruct (batch_process_tasks cfg api now_isoformat fuel w) as [w' r]
    eqn:Hrun.
  simpl fst.
  assert (Hrefl : forall w0, keeps_bounded w0 w0) by (intros w0 H; exact H).
  assert (Htrans : forall w1 w2 w3,
             keeps_bounded w1 w2 -> keeps_bounded w2 w3 ->
             keeps_bounded w1 w3) by (intros w1 w2 w3 H12 H23 H; auto).
  assert (Hkeeps : preserves keeps_bounded
                     (batch_process_tasks cfg api now_isoformat fuel)).
  { apply (preserves_batch_process_tasks keeps_bounded Hrefl Htrans);
      try (intros ? w0 H; exact H).
    - intros w0 w1 r0 H0 Hb. unfold bounded.
      rewrite (get_db_schema_status_cache _ _ _ _ _ H0). exact Hb.
    - intros column. apply bounded_get_status_id. }
  exact (Hkeeps w w' r Hrun (conj Hlen Hnodup)).
Qed.

Lemma status_cache_stays_bounded_witness :
  let w' :=
    fst (batch_process_tasks Sample.cfg Sample.small_api
           Sample.now_isoformat 3 initial_world) in
  (length (status_cache w') <= 50)%nat /\
  NoDup (Dict.keys (status_cache w')).
Proof.
  apply (status_cache_stays_bounded Sample.cfg Sample.small_api
           Sample.now_isoformat 3 initial_world).
  - simpl. lia.
  - constructor.
Defined.

(* ------------------------------------------------------------------ *)
(** ** The payload of a record *)

Lemma lookup_set_same {A} (k : string) (v : A) (d : list (string * A)) :
  Dict.lookup k (Dict.set k v d) = Some v.
Proof.
  induction d as [|[k' v'] d IH]; simpl.
  - now rewrite String.eqb_refl.
  - destruct (String.eqb_spec k k') as [<- | Hne]; simpl.
    + now rewrite String.eqb_refl.
    + destruct (String.eqb_spec k k'); [contradiction | exact IH].
Qed.

Lemma lookup_set_other {A} (k k' : string) (v : A) (d : list (string * A)) :
  k <> k' -> Dict.lookup k (Dict.set k' v d) = Dict.lookup k d.
Proof.
  intros Hne. induction d as [|[k2 v2] d IH]; simpl.
  - destruct (String.eqb_spec k k'); [contradiction | reflexivity].
  - destruct (String.eqb_spec k' k2) as [<- | Hne2]; simpl.
    + destruct (String.eqb_spec k k'); [contradiction | reflexivity].
    + destruct (String.eqb k k2); [reflexivity | exact IH].
Qed.

Lemma keys_set {A} (k k' : string) (v : A) (d : list (string * A)) :
  In k (Dict.keys (Dict.set k' v d)) <-> k = k' \/ In k (Dict.keys d).
Proof.
  unfold Dict.keys. induction d as [|[k2 v2] d IH]; simpl.
  - split; [intros [E | []]; auto | intros [E | []]; auto].
  - destruct (String.eqb_spec k' k2) as [<- | Hne]; simpl.
    + split; [intros [E | H]; auto | intros [E | [E | H]]; auto].
    + rewrite IH. split; [intros [E | [E | H]]; auto
                         | intros [E | [E | H]]; auto].
Qed.

Section Payload.

Variable cfg : config.
Variable api : notion_api.
Variable now_isoformat : nat -> string.

(** With a schema cached, [_get_status_id] changes the status cache
    at most. *)
Lemma get_status_id_world (column : string) (schema : json)
  (w w1 : world) (r : result json) :
  schema_cache w = Some schema ->
  _get_status_id cfg api column w = (w1, r) ->
  w1 = with_status_cache (status_cache w1) w.
Proof.
  intros Hcache. rewrite get_status_id_run.
  destruct (Dict.lookup column (status_cache w)).
  - intros H. inversion H. reflexivity.
  - rewrite (get_db_schema_cached cfg api w schema Hcache).
    destruct (status_id_in cfg schema column); intros H; inversion H;
      subst; try reflexivity; destruct w1; reflexivity.
Qed.

Lemma get_status_id_resolves (column : string) (schema : json)
  (w w1 : world) (id : json) :
  schema_cache w = Some schema ->
  status_cache_coherent cfg schema w ->
  _get_status_id cfg api column w = (w1, Ok id) ->
  status_id_in cfg schema column = Ok id.
Proof.
  intros Hcache Hcoherent Hrun.
  pose proof (get_status_id_result cfg api column schema w w
                (get_db_schema_cached cfg api w schema Hcache) Hcoherent)
    as Hres.
  destruct (status_id_in cfg schema column) as [id' | e |].
  - destruct Hres as (w' & E). rewrite E in Hrun. congruence.
  - rewrite Hres in Hrun. discriminate.
  - rewrite Hres in Hrun. discriminate.
Qed.

Lemma status_properties_entries (columns : list string) :
  forall (properties result : dict) (schema : json) (w w' : world),
    schema_cache w = Some schema ->
    status_cache_coherent cfg schema w ->
    status_properties cfg api columns properties w = (w', Ok result) ->
    w' = with_status_cache (status_cache w') w /\
    (forall col, In col columns ->
       exists id, status_id_in cfg schema col = Ok id /\
                  Dict.lookup col result = Some (status_entry id)) /\
    (forall k, ~ In k columns ->
               Dict.lookup k result = Dict.lookup k properties) /\
    (forall k, In k (Dict.keys result) ->
               In k columns \/ In k (Dict.keys properties)).
Proof.
  induction columns as [|c rest IH];
    intros properties result schema w w' Hcache Hcoherent Hrun.
  { inversion Hrun; subst. repeat split; auto; [destruct w'; reflexivity|].
    intros col []. }
  simpl in Hrun. unfold bind at 1 in Hrun.
  destruct (_get_status_id cfg api c w) as [w1 [id | e |]] eqn:Hid;
    try discriminate.
  pose proof (get_status_id_resolves _ _ _ _ _ Hcache Hcoherent Hid) as Hres.
  pose proof (get_status_id_world _ _ _ _ _ Hcache Hid) as Hw1.
  pose proof (get_status_id_keeps_coherent cfg api c schema w w1 _
                Hcache Hcoherent Hid) as Hcoherent1.
  assert (Hcache1 : schema_cache w1 = Some schema).
  { rewrite Hw1. exact Hcache. }
  destruct (IH _ _ _ _ _ Hcache1 Hcoherent1 Hrun)
    as (Hw' & Hcols & Hother & Hkeys).
  repeat split.
  - rewrite Hw', Hw1. reflexivity.
  - intros col [<- | Hin]; [|now apply Hcols].
    destruct (in_dec string_dec c rest) as [Hin | Hnot]; [now apply Hcols|].
    exists id. split; [assumption|].
    rewrite (Hother c Hnot). apply lookup_set_same.
  - intros k Hnot. rewrite Hother; [|intros H; apply Hnot; now right].
    apply lookup_set_other. intros ->. apply Hnot. now left.
  - intros k Hk. destruct (Hkeys k Hk) as [Hin | Hin]; [left; now right|].
    apply keys_set in Hin. destruct Hin as [-> | Hin]; [left; now left|].
    now right.
Qed.

(** The steps of [_prepare_update_data] up to the properties. *)
Lemma prepare_update_data_properties (page : json) (w w1 : world)
  (update_data : json) :
  _prepare_update_data cfg api now_isoformat page w = (w1, Ok update_data) ->
  exists w0 statuses properties,
    status_properties cfg api (STATUS_COLUMNS cfg) [] w = (w0, Ok statuses) /\
    Py.getitem update_data (JStr "properties") = Ok (JDict properties) /\
    match TIME_COLUMN cfg with
    | Some time_column =>
        if Str.nonempty time_column then
          properties
          = Dict.set time_column (date_entry now_isoformat (clock_reads w0))
              statuses /\
          w1 = with_clock_reads (S (clock_reads w0)) w0
        else properties = statuses /\ w1 = w0
    | None => properties = statuses /\ w1 = w0
    end.
Proof.
  unfold _prepare_update_data, bind at 1.
  destruct (status_properties _ _ _ _ w) as [w0 [statuses | e |]];
    try discriminate.
  intros H. exists w0, statuses.
  assert (Hstep :
    exists properties,
      match TIME_COLUMN cfg with
      | Some time_column =>
          if Str.nonempty time_column then
            properties
            = Dict.set time_column
                (date_entry now_isoformat (clock_reads w0)) statuses /\
            w1 = with_clock_reads (S (clock_reads w0)) w0
          else properties = statuses /\ w1 = w0
      | None => properties = statuses /\ w1 = w0
      end /\
      Py.getitem update_data (JStr "properties") = Ok (JDict properties)).
  { revert H. unfold bind at 1.
    destruct (TIME_COLUMN cfg) as [tc|]; [destruct (Str.nonempty tc)|];
      unfold _current_timestamp, bind, gets, modify, ret, lift; simpl;
      destruct (Py.getitem page (JStr "id")); try discriminate;
      destruct (_get_page_title page); try discriminate;
      destruct (Py.get page "url" (JStr "")); try discriminate;
      intros H; inversion H; subst; eexists; (split; [split|]); reflexivity. }
  destruct Hstep as (properties & Hshape & Hget).
  exists properties. repeat split; assumption.
Qed.

(** X9: in the payload of a record, every configured status column
    (the time column apart) is set to the id that the cached schema
    gives for the target status, and the properties hold no key but
    the status columns and the time column. *)
Theorem payload_sets_every_status_column :
  forall (page : json) (w w1 : world) (update_data schema : json),
    schema_cache w = Some schema ->
    status_cache_coherent cfg schema w ->
    _prepare_update_data cfg api now_isoformat page w = (w1, Ok update_data) ->
    exists properties,
      Py.getitem update_data (JStr "properties") = Ok (JDict properties) /\
      (forall col,
          In col (STATUS_COLUMNS cfg) ->
          TIME_COLUMN cfg <> Some col ->
          exists id,
            status_id_in cfg schema col = Ok id /\
            Dict.lookup col properties
            = Some (JDict [("status", JDict [("id", id)])])) /\
      (forall k,
          In k (Dict.keys properties) ->
          In k (STATUS_COLUMNS cfg) \/ TIME_COLUMN cfg = Some k).
Proof.
  intros page w w1 update_data schema Hcache Hcoherent Hprep.
  destruct (prepare_update_data_properties _ _ _ _ Hprep)
    as (w0 & statuses & properties & Hstatus & Hget & Htime).
  destruct (status_properties_entries _ _ _ _ _ _ Hcache Hcoherent Hstatus)
    as (_ & Hcols & _ & Hkeys).
  exists properties. split; [assumption|].
  destruct (TIME_COLUMN cfg) as [tc|];
    [destruct (Str.nonempty tc)|]; destruct Htime as (-> & _); split.
  - intros col Hin Hne. destruct (Hcols col Hin) as (id & Hid & Hl).
    exists id. split; [assumption|].
    rewrite lookup_set_other; [exact Hl | congruence].
  - intros k Hk. apply keys_set in Hk. destruct Hk as [-> | Hk]; [now right|].
    destruct (Hkeys k Hk) as [H | []]. now left.
  - intros col Hin _. now apply Hcols.
  - intros k Hk. destruct (Hkeys k Hk) as [H | []]. now left.
  - intros col Hin _. now apply Hcols.
  - intros k Hk. destruct (Hkeys k Hk) as [H | []]. now left.
Qed.

Lemma status_properties_clock (columns : list string) :
  forall (properties result : dict) (schema : json) (w w' : world),
    schema_cache w = Some schema ->
    status_properties cfg api columns properties w = (w', Ok result) ->
    clock_reads w' = clock_reads w /\
    (forall k, In k (Dict.keys result) ->
               In k columns \/ In k (Dict.keys properties)).
Proof.
  induction columns as [|c rest IH];
    intros properties result schema w w' Hcache Hrun.
  { inversion Hrun; subst. auto. }
  simpl in Hrun. unfold bind at 1 in Hrun.
  destruct (_get_status_id cfg api c w) as [w1 [id | e |]] eqn:Hid;
    try discriminate.
  pose proof (get_status_id_world _ _ _ _ _ Hcache Hid) as Hw1.
  assert (Hcache1 : schema_cache w1 = Some schema)
    by (rewrite Hw1; exact Hcache).
  destruct (IH _ _ _ _ _ Hcache1 Hrun) as (Hclock & Hkeys). split.
  - rewrite Hclock, Hw1. reflexivity.
  - intros k Hin. destruct (Hkeys k Hin) as [H | H]; [left; now right|].
    apply keys_set in H. destruct H as [-> | H]; [left; now left | now right].
Qed.

(** X10: with a non-empty time column the payload sets it to the date
    entry of one clock read, the next one of the run; with none, or an
    empty one, the clock is not read and the properties hold status
    columns only. *)
Theorem payload_stamps_the_time_column :
  forall (page : json) (w w1 : world) (update_data schema : json),
    schema_cache w = Some schema ->
    _prepare_update_data cfg api now_isoformat page w = (w1, Ok update_data) ->
    exists properties,
      Py.getitem update_data (JStr "properties") = Ok (JDict properties) /\
      (forall time_column,
          TIME_COLUMN cfg = Some time_column -> time_column <> "" ->
          Dict.lookup time_column properties
          = Some (JDict
                    [ ("date",
                       JDict
                         [ ("start", JStr (now_isoformat (clock_reads w)));
                           ("time_zone", JStr "Etc/GMT") ]) ]) /\
          clock_reads w1 = S (clock_reads w)) /\
      (TIME_COLUMN cfg = None \/ TIME_COLUMN cfg = Some "" ->
       clock_reads w1 = clock_reads w /\
       forall k, In k (Dict.keys properties) -> In k (STATUS_COLUMNS cfg)).
Proof.
  intros page w w1 update_data schema Hcache Hprep.
  destruct (prepare_update_data_properties _ _ _ _ Hprep)
    as (w0 & statuses & properties & Hstatus & Hget & Htime).
  destruct (status_properties_clock _ _ _ _ _ _ Hcache Hstatus)
    as (Hclock & Hkeys).
  exists properties. split; [assumption|].
  destruct (TIME_COLUMN cfg) as [[|a rest]|]; simpl in Htime;
    destruct Htime as (-> & ->); split.
  - intros tc H. inversion H; subst. congruence.
  - intros _. split; [assumption|].
    intros k Hk. destruct (Hkeys k Hk) as [H | []]. assumption.
  - intros tc H _. inversion H; subst. rewrite <- Hclock. split.
    + apply lookup_set_same.
    + reflexivity.
  - intros [H | H]; discriminate H.
  - intros tc H. discriminate H.
  - intros _. split; [assumption|].
    intros k Hk. destruct (Hkeys k Hk) as [H | []]. assumption.
Qed.

End Payload.

Lemma payload_sets_every_status_column_witness :
  exists properties,
    Py.getitem
      (match snd (_prepare_update_data Sample.cfg Sample.api
                    Sample.now_isoformat (Sample.page "a")
                    Sample.world_with_schema) with
       | Ok update_data => update_data
       | _ => JNone
       end) (JStr "properties") = Ok (JDict properties) /\
    Dict.lookup "Status" properties
    = Some (JDict [("status", JDict [("id", JStr "opt-2")])]).
Proof.
  destruct (payload_sets_every_status_column Sample.cfg Sample.api
              Sample.now_isoformat (Sample.page "a")
              Sample.world_with_schema
              (fst (_prepare_update_data Sample.cfg Sample.api
                      Sample.now_isoformat (Sample.page "a")
                      Sample.world_with_schema))
              (match snd (_prepare_update_data Sample.cfg Sample.api
                            Sample.now_isoformat (Sample.page "a")
                            Sample.world_with_schema) with
               | Ok update_data => update_data
               | _ => JNone
               end)
              Sample.schema)
    as (properties & Hget & Hcols & _).
  - reflexivity.
  - intros column id H. discriminate H.
  - vm_compute. reflexivity.
  - exists properties. split; [exact Hget|].
    destruct (Hcols "Status") as (id & Hid & Hlookup).
    + simpl. tauto.
    + discriminate.
    + rewrite Hlookup. vm_compute in Hid. inversion Hid. reflexivity.
Defined.

Lemma payload_stamps_the_time_column_witness :
  exists properties,
    Py.getitem
      (match snd (_prepare_update_data Sample.cfg Sample.api
                    Sample.now_isoformat (Sample.page "a")
                    Sample.world_with_schema) with
       | Ok update_data => update_data
       | _ => JNone
       end) (JStr "properties") = Ok (JDict properties) /\
    Dict.lookup "Reset at" properties
    = Some (JDict
              [ ("date",
                 JDict [ ("start", JStr "2024-01-01T00:00:00+00:00");
                         ("time_zone", JStr "Etc/GMT") ]) ]).
Proof.
  destruct (payload_stamps_the_time_column Sample.cfg Sample.api
              Sample.now_isoformat (Sample.page "a")
              Sample.world_with_schema
              (fst (_prepare_update_data Sample.cfg Sample.api
                      Sample.now_isoformat (Sample.page "a")
                      Sample.world_with_schema))
              (match snd (_prepare_update_data Sample.cfg Sample.api
                            Sample.now_isoformat (Sample.page "a")
                            Sample.world_with_schema) with
               | Ok update_data => update_data
               | _ => JNone
               end)
              Sample.schema)
    as (properties & Hget & Hstamp & _).
  - reflexivity.
  - vm_compute. reflexivity.
  - exists properties. split; [exact Hget|].
    destruct (Hstamp "Reset at" eq_refl) as (Hlookup & _); [discriminate|].
    exact Hlookup.
Defined.

(* ------------------------------------------------------------------ *)
(** ** Failures outside the [try] of a record *)

Section Aborts.

Variable cfg : config.
Variable api : notion_api.
Variable now_isoformat : nat -> string.

Notation prepare := (_prepare_update_data cfg api now_isoformat).
Notation for_pages := (for_page_in cfg api now_isoformat).
Notation loop := (while_true cfg api now_isoformat).

(** X11: an exception raised while the payload of a record is
    prepared, or an update that fails with anything but an
    [APIResponseError], ends the loop over the records: the exception
    comes out of it and the records that follow are not touched. *)
Theorem failure_outside_the_try_aborts_the_records :
  (forall (page : json) (rest : list json) (success : Z) (w w1 : world)
          (e : exn),
      prepare page w = (w1, Raise e) ->
      for_pages (page :: rest) success w = (w1, Raise e) /\
      update_calls w1 = update_calls w)
  /\
  (forall (page : json) (rest : list json) (success : Z) (w w1 : world)
          (update_data : json) (what : string),
      prepare page w = (w1, Ok update_data) ->
      pages_update api (length (update_calls w1)) update_data
        = Failure what ->
      for_pages (page :: rest) success w
      = (called update_data (Failure what) w1,
         Raise (OtherException what))).
Proof.
  split.
  - intros page rest success w w1 e Hprep. split.
    + simpl for_page_in. unfold bind at 1, process_page, bind at 1.
      rewrite Hprep. reflexivity.
    + now destruct (keeps_prepare_update_data _ _ _ _ _ _ _ Hprep)
        as (_ & Hu & _).
  - intros page rest success w w1 update_data what Hprep Hfail.
    destruct (process_page_step cfg api now_isoformat page success
                _ _ _ Hprep) as (title & url & _ & _ & Hstep).
    rewrite Hfail in Hstep. cbv zeta in Hstep.
    simpl for_page_in. unfold bind at 1. now rewrite Hstep.
Qed.

(** X18: a query that fails ends the loop at once with the exception
    of the client: the call is recorded, no record is updated, and the
    counters are not returned. *)
Theorem failed_fetch_aborts_the_loop :
  forall (fuel : nat) (query : dict) (success total : Z) (w : world),
    (forall body,
        databases_query api (length (query_calls w)) (JDict query)
          = ApiError body ->
        loop (S fuel) query success total w
        = (queried (JDict query) (ApiError body) w,
           Raise (APIResponseError body)))
    /\
    (forall what,
        databases_query api (length (query_calls w)) (JDict query)
          = Failure what ->
        loop (S fuel) query success total w
        = (queried (JDict query) (Failure what) w,
           Raise (OtherException what))).
Proof.
  intros fuel query success total w. split.
  - intros body H. simpl while_true. unfold bind at 1.
    rewrite notion_databases_query_step. cbv zeta. rewrite H. reflexivity.
  - intros what H. simpl while_true. unfold bind at 1.
    rewrite notion_databases_query_step. cbv zeta. rewrite H. reflexivity.
Qed.

End Aborts.

Lemma failure_outside_the_try_aborts_the_records_witness :
  snd (for_page_in Sample.cfg Sample.api Sample.now_isoformat
         [Sample.page_with_empty_title; Sample.page "a"] 0
         Sample.world_with_schema) = Raise IndexError
  /\
  update_calls
    (fst (for_page_in Sample.cfg Sample.api Sample.now_isoformat
            [Sample.page_with_empty_title; Sample.page "a"] 0
            Sample.world_with_schema)) = [].
Proof.
  destruct (proj1 (failure_outside_the_try_aborts_the_records Sample.cfg
                     Sample.api Sample.now_isoformat)
              Sample.page_with_empty_title [Sample.page "a"] 0
              Sample.world_with_schema
              (fst (_prepare_update_data Sample.cfg Sample.api
                      Sample.now_isoformat Sample.page_with_empty_title
                      Sample.world_with_schema))
              IndexError) as (Hrun & Hcalls).
  - vm_compute. reflexivity.
  - rewrite Hrun. split; [reflexivity | exact Hcalls].
Defined.

Lemma failed_fetch_aborts_the_loop_witness :
  while_true Sample.cfg Sample.offline_api Sample.now_isoformat 3
    Sample.query 0 0 Sample.world_with_schema
  = (queried (JDict Sample.query) (Failure "timeout")
       Sample.world_with_schema,
     Raise (OtherException "timeout")).
Proof.
  apply (proj2 (failed_fetch_aborts_the_loop Sample.cfg Sample.offline_api
                  Sample.now_isoformat 2 Sample.query 0 0
                  Sample.world_with_schema)).
  reflexivity.
Defined.

(* ------------------------------------------------------------------ *)
(** ** Pagination over any number of pages *)

Section Pages.

Variable cfg : config.
Variable api : notion_api.
Variable now_isoformat : nat -> string.

Notation for_pages := (for_page_in cfg api now_isoformat).
Notation loop := (while_true cfg api now_isoformat).
Notation payloads_prepared := (payloads_prepared cfg api now_isoformat).

(** One fetch whose records all get their update attempted: the
    world after the records, and what the loop does next. *)
Lemma fetch_records (fuel : nat) (query page : dict) (schema : json)
  (success total : Z) (w : world) :
  databases_query api (length (query_calls w)) (JDict query)
    = Returned (JDict page) ->
  Dict.lookup "results" page = Some (JList (records_of page)) ->
  payloads_prepared schema (records_of page) ->
  updates_answered api ->
  schema_cache w = Some schema ->
  exists w1 success1,
    for_pages (records_of page) success
      (queried (JDict query) (Returned (JDict page)) w) = (w1, Ok success1) /\
    loop (S fuel) query success total w =
      (if has_more page then
         cursor <- lift (Py.getitem (JDict page) (JStr "next_cursor")) ;;
         loop fuel (Dict.set "start_cursor" cursor query) success1
           (total + Z.of_nat (length (records_of page)))
       else ret (success1, total + Z.of_nat (length (records_of page)))) w1.
Proof.
  intros Hquery Hresults Hprep Hans Hcache.
  destruct (for_page_in_total cfg api now_isoformat schema (records_of page)
              Hprep Hans success
              (queried (JDict query) (Returned (JDict page)) w) Hcache)
    as (w1 & success1 & Hdrain & _).
  exists w1, success1. split; [exact Hdrain|].
  rewrite while_true_S. unfold bind at 1.
  rewrite notion_databases_query_step. cbv zeta. rewrite Hquery.
  simpl answer. unfold ret at 1.
  unfold bind at 1, lift at 1. simpl Py.get. rewrite Hresults.
  unfold bind at 1, lift at 1. simpl Py.len.
  unfold bind at 1, lift at 1. simpl Py.iter.
  unfold bind at 1. rewrite Hdrain.
  unfold bind at 1, lift at 1, has_more. simpl Py.get.
  destruct (Dict.lookup "has_more" page) as [flag|];
    [destruct (Py.truthy flag)|]; reflexivity.
Qed.

Lemma paginate (pages : list dict) :
  forall (fuel : nat) (query : dict) (success total : Z) (w : world)
         (schema : json),
    schema_cache w = Some schema ->
    served api (length (query_calls w)) query pages ->
    payloads_prepared schema (flat_map records_of pages) ->
    updates_answered api ->
    (length pages <= fuel)%nat ->
    exists w' success',
      loop fuel query success total w
      = (w', Ok (success',
                 total + Z.of_nat (length (flat_map records_of pages)))) /\
      query_calls w' = (query_calls w ++ asked query pages)%list /\
      length (query_calls w') = (length (query_calls w) + length pages)%nat /\
      length (update_calls w')
      = (length (update_calls w) + length (flat_map records_of pages))%nat.
Proof.
  induction pages as [|page rest IH];
    intros fuel query success total w schema Hcache Hserved Hprep Hans Hfuel.
  { contradiction. }
  destruct fuel as [|fuel]; [simpl in Hfuel; lia|].
  destruct Hserved as (Hquery & Hresults & Hrest).
  assert (Hprep1 : payloads_prepared schema (records_of page)).
  { intros p Hin. apply Hprep. simpl. apply in_or_app. now left. }
  assert (Hprep2 : payloads_prepared schema (flat_map records_of rest)).
  { intros p Hin. apply Hprep. simpl. apply in_or_app. now right. }
  destruct (fetch_records fuel query page schema success total w
              Hquery Hresults Hprep1 Hans Hcache)
    as (w1 & success1 & Hdrain & Hloop).
  destruct (for_page_in_counts _ _ _ _ _ _ _ _ Hdrain)
    as (new & Hu & Hnew & _ & _ & Hq & Hs).
  rewrite Hloop. cbn [flat_map]. rewrite length_app.
  destruct rest as [|next rest].
  - rewrite Hrest. unfold ret. exists w1, success1. repeat split.
    + simpl. rewrite Nat.add_0_r. reflexivity.
    + rewrite Hq. unfold queried, with_query_calls. cbn [query_calls asked].
      destruct (Dict.lookup "next_cursor" page); reflexivity.
    + rewrite Hq. unfold queried, with_query_calls. cbn [query_calls].
      rewrite length_app. reflexivity.
    + rewrite Hu, length_app, Hnew. simpl. lia.
  - destruct Hrest as (Hmore & cursor & Hcursor & Hserved).
    rewrite Hmore. unfold bind at 1, lift at 1. simpl Py.getitem.
    rewrite Hcursor.
    assert (Hcache1 : schema_cache w1 = Some schema) by now apply Hs.
    assert (Hqueries1 : length (query_calls w1) = S (length (query_calls w))).
    { rewrite Hq. unfold queried, with_query_calls. cbn [query_calls].
      rewrite length_app. simpl. lia. }
    assert (Hserved1 :
      served api (length (query_calls w1))
        (Dict.set "start_cursor" cursor query) (next :: rest)).
    { rewrite Hqueries1. exact Hserved. }
    assert (Hfuel1 : (length (next :: rest) <= fuel)%nat).
    { simpl in Hfuel. simpl. lia. }
    destruct (IH fuel (Dict.set "start_cursor" cursor query) success1
                (total + Z.of_nat (length (records_of page))) w1 schema
                Hcache1 Hserved1 Hprep2 Hans Hfuel1)
      as (w' & success' & Hrun & Hasked & Hqueries & Hupdates).
    exists w', success'. repeat split.
    + rewrite Hrun. do 3 f_equal. rewrite Nat2Z.inj_add. lia.
    + rewrite Hasked, Hq. unfold queried, with_query_calls.
      cbn [query_calls]. rewrite <- app_assoc.
      change (asked query (page :: next :: rest))
        with ((JDict query, Returned (JDict page))
              :: match Dict.lookup "next_cursor" page with
                 | Some cursor =>
                     asked (Dict.set "start_cursor" cursor query)
                       (next :: rest)
                 | None => []
                 end).
      rewrite Hcursor. reflexivity.
    + rewrite Hqueries, Hqueries1. simpl. lia.
    + rewrite Hupdates, Hu, length_app, Hnew.
      unfold queried, with_query_calls. cbn [update_calls]. lia.
Qed.

(** X12: when the service answers with any number of pages, each but
    the last with its continuation flag set and a cursor, and the
    payload of every record can be prepared and every update call
    returns or fails with an [APIResponseError], the loop makes one
    query per page, the first as given and each later one with
    [start_cursor] set to the cursor of the page before, attempts one
    update per record, and ends with [total] the number of records of
    all the pages. *)
Theorem pagination_visits_every_page :
  forall (pages : list dict) (fuel : nat) (query : dict) (w : world)
         (schema : json),
    schema_cache w = Some schema ->
    served api (length (query_calls w)) query pages ->
    payloads_prepared schema (flat_map records_of pages) ->
    updates_answered api ->
    (length pages <= fuel)%nat ->
    exists w' success,
      loop fuel query 0 0 w
      = (w', Ok (success, Z.of_nat (length (flat_map records_of pages)))) /\
      query_calls w' = (query_calls w ++ asked query pages)%list /\
      length (query_calls w') = (length (query_calls w) + length pages)%nat /\
      length (update_calls w')
      = (length (update_calls w) + length (flat_map records_of pages))%nat.
Proof.
  intros pages fuel query w schema Hcache Hserved Hprep Hans Hfuel.
  exact (paginate pages fuel query 0 0 w schema Hcache Hserved Hprep Hans
           Hfuel).
Qed.

(** X13: a page whose continuation flag is set but that has no
    "next_cursor" entry makes the loop raise [KeyError], after the
    update of every record of the page was attempted, provided the
    payload of every record of the page can be prepared and every
    update call returns or fails with an [APIResponseError]. *)
Theorem missing_cursor_raises_after_the_page :
  forall (fuel : nat) (query page : dict) (schema : json)
         (success total : Z) (w : world),
    schema_cache w = Some schema ->
    databases_query api (length (query_calls w)) (JDict query)
      = Returned (JDict page) ->
    Dict.lookup "results" page = Some (JList (records_of page)) ->
    payloads_prepared schema (records_of page) ->
    updates_answered api ->
    has_more page = true ->
    Dict.lookup "next_cursor" page = None ->
    exists w1,
      loop (S fuel) query success total w
      = (w1, Raise (KeyError (JStr "next_cursor"))) /\
      length (update_calls w1)
      = (length (update_calls w) + length (records_of page))%nat.
Proof.
  intros fuel query page schema success total w
    Hcache Hquery Hresults Hprep Hans Hmore Hcursor.
  destruct (fetch_records fuel query page schema success total w
              Hquery Hresults Hprep Hans Hcache)
    as (w1 & success1 & Hdrain & Hloop).
  destruct (for_page_in_counts _ _ _ _ _ _ _ _ Hdrain)
    as (new & Hu & Hnew & _).
  exists w1. split.
  - rewrite Hloop, Hmore. unfold bind at 1, lift at 1. simpl Py.getitem.
    rewrite Hcursor. reflexivity.
  - rewrite Hu, length_app, Hnew. reflexivity.
Qed.

(** X14: a response with no "results" entry counts as an empty page,
    and one whose continuation flag is absent or falsy ends the loop:
    with both, the loop returns its counters unchanged after that one
    query, without any update. *)
Theorem response_without_results_ends_the_loop :
  forall (fuel : nat) (query page : dict) (success total : Z) (w : world),
    databases_query api (length (query_calls w)) (JDict query)
      = Returned (JDict page) ->
    Dict.lookup "results" page = None ->
    has_more page = false ->
    loop (S fuel) query success total w
    = (queried (JDict query) (Returned (JDict page)) w,
       Ok (success, total)).
Proof.
  intros fuel query page success total w Hquery Hresults Hmore.
  rewrite while_true_S. unfold bind at 1.
  rewrite notion_databases_query_step. cbv zeta. rewrite Hquery.
  simpl answer. unfold ret at 1.
  unfold bind at 1, lift at 1. simpl Py.get. rewrite Hresults.
  unfold bind at 1, lift at 1. simpl Py.len.
  unfold bind at 1, lift at 1. simpl Py.iter.
  unfold bind at 1. simpl for_page_in. unfold ret at 1.
  unfold bind at 1, lift at 1. simpl Py.get.
  unfold has_more in Hmore.
  destruct (Dict.lookup "has_more" page) as [flag|];
    [rewrite Hmore|]; unfold ret; simpl; do 3 f_equal; lia.
Qed.

End Pages.

(* ------------------------------------------------------------------ *)
(** ** The log of a run *)

Section Log.

Variable cfg : config.
Variable api : notion_api.
Variable now_isoformat : nat -> string.

Notation prepare := (_prepare_update_data cfg api now_isoformat).
Notation process := (process_page cfg api now_isoformat).
Notation for_pages := (for_page_in cfg api now_isoformat).

Lemma get_db_schema_ok_log (w w' : world) (schema : json) :
  _get_db_schema cfg api w = (w', Ok schema) -> log w' = log w.
Proof.
  rewrite get_db_schema_run. destruct (schema_cache w).
  - intros H. inversion H. reflexivity.
  - cbv zeta. destruct (snd (retrieve_call cfg api w));
      intros H; inversion H. reflexivity.
Qed.

Lemma get_status_id_ok_log (column : string) (w w' : world) (id : json) :
  _get_status_id cfg api column w = (w', Ok id) -> log w' = log w.
Proof.
  rewrite get_status_id_run.
  destruct (Dict.lookup column (status_cache w)).
  - intros H. inversion H. reflexivity.
  - destruct (_get_db_schema cfg api w) as [w1 [schema | e |]] eqn:Hschema;
      try discriminate.
    destruct (status_id_in cfg schema column); try discriminate.
    intros H. inversion H. simpl.
    eapply get_db_schema_ok_log. exact Hschema.
Qed.

Lemma status_properties_ok_log (columns : list string) :
  forall (properties result : dict) (w w' : world),
    status_properties cfg api columns properties w = (w', Ok result) ->
    log w' = log w.
Proof.
  induction columns as [|c rest IH]; intros properties result w w' H.
  { inversion H. reflexivity. }
  simpl in H. unfold bind at 1 in H.
  destruct (_get_status_id cfg api c w) as [w1 [id | e |]] eqn:Hid;
    try discriminate.
  rewrite (IH _ _ _ _ H). eapply get_status_id_ok_log. exact Hid.
Qed.

Lemma prepare_ok_log (page : json) (w w1 : world) (update_data : json) :
  prepare page w = (w1, Ok update_data) -> log w1 = log w.
Proof.
  intros Hprep.
  destruct (prepare_update_data_properties _ _ _ _ _ _ _ Hprep)
    as (w0 & statuses & properties & Hstatus & _ & Htime).
  rewrite <- (status_properties_ok_log _ _ _ _ _ Hstatus).
  destruct (TIME_COLUMN cfg) as [tc|]; [destruct (Str.nonempty tc)|];
    destruct Htime as (_ & ->); reflexivity.
Qed.

Lemma for_page_in_log (pages : list json) :
  forall (success success' : Z) (w w' : world),
    for_pages pages success w = (w', Ok success') ->
    exists lines,
      log w' = (log w ++ lines)%list /\
      length lines = length pages /\
      success' = success + count is_info lines.
Proof.
  induction pages as [|page rest IH]; intros success success' w w' H.
  { inversion H; subst. exists []. rewrite app_nil_r.
    repeat split. unfold count. simpl. lia. }
  simpl in H. unfold bind at 1 in H.
  destruct (process page success w) as [w2 [s2 | e |]] eqn:Hproc;
    try discriminate.
  assert (Hline : exists line,
             log w2 = (log w ++ [line])%list /\
             s2 = success + count is_info [line]).
  { destruct (prepare page w) as [w1 [update_data | e |]] eqn:Hprep.
    2,3: unfold process_page, bind in Hproc; rewrite Hprep in Hproc;
         discriminate.
    pose proof (prepare_ok_log _ _ _ _ Hprep) as Hlog.
    destruct (process_page_step cfg api now_isoformat page success
                _ _ _ Hprep) as (title & url & _ & _ & Hstep).
    rewrite Hstep in Hproc. cbv zeta in Hproc.
    destruct (pages_update api _ _); inversion Hproc; subst;
      eexists; simpl; rewrite Hlog; split; try reflexivity;
      unfold count; simpl; lia. }
  destruct Hline as (line & Hlog2 & Hs2).
  destruct (IH _ _ _ _ H) as (lines & Hlog & Hlen & Hs).
  exists (line :: lines). repeat split.
  - rewrite Hlog, Hlog2, <- app_assoc. reflexivity.
  - simpl. now rewrite Hlen.
  - change (line :: lines) with ([line] ++ lines)%list.
    rewrite count_app. lia.
Qed.

(** X17: the loop over the records of a page writes exactly one log
    line per record, and [success] grows by the number of INFO lines
    among them. *)
Theorem every_record_leaves_one_log_line :
  forall (pages : list json) (success success' : Z) (w w' : world),
    for_pages pages success w = (w', Ok success') ->
    exists lines,
      log w' = (log w ++ lines)%list /\
      length lines = length pages /\
      success' = success + count is_info lines.
Proof. exact for_page_in_log. Qed.

Lemma count_bounds {A} (p : A -> bool) (l : list A) :
  0 <= count p l <= Z.of_nat (length l).
Proof.
  unfold count. pose proof (filter_length_le p l). lia.
Qed.

(** X15: in the summary line of a run that ends, the successes are
    between zero and the total, so the failure count it prints is
    never negative. *)
Theorem summary_counts_are_ordered :
  forall (fuel : nat) (w w' : world),
    batch_process_tasks cfg api now_isoformat fuel w = (w', Ok tt) ->
    exists earlier total success,
      log w' = (earlier ++ [INFO (summary total success)])%list /\
      0 <= success <= total /\
      0 <= total - success.
Proof.
  intros fuel w w' Hrun.
  destruct (batch_process_tasks_summary _ _ _ _ _ _ Hrun)
    as (total & success & new & earlier & Hlog & _ & Ht & Hs & _).
  exists earlier, total, success. split; [assumption|].
  pose proof (count_bounds is_returned new). lia.
Qed.

End Log.

Lemma every_record_leaves_one_log_line_witness :
  exists lines,
    log (fst (for_page_in Sample.cfg Sample.api Sample.now_isoformat
                [Sample.page "a"; Sample.page "b"] 0
                Sample.world_with_schema))
    = lines /\
    length lines = 2%nat /\
    1 = 0 + count is_info lines.
Proof.
  apply (every_record_leaves_one_log_line Sample.cfg Sample.api
           Sample.now_isoformat [Sample.page "a"; Sample.page "b"] 0 1
           Sample.world_with_schema).
  vm_compute. reflexivity.
Defined.

Lemma summary_counts_are_ordered_witness :
  exists earlier total success,
    log (fst (batch_process_tasks Sample.cfg Sample.small_api
                Sample.now_isoformat 3 initial_world))
    = (earlier ++ [INFO (summary total success)])%list /\
    0 <= success <= total /\
    0 <= total - success.
Proof.
  apply (summary_counts_are_ordered Sample.cfg Sample.small_api
           Sample.now_isoformat 3 initial_world).
  vm_compute. reflexivity.
Defined.

(* ------------------------------------------------------------------ *)
(** ** The title of a record, by the shape of its title property *)

(** X16: for a record with a properties dictionary, the title is the
    placeholder when the title property is absent or has no "title"
    entry, and otherwise the "plain_text" of the first fragment of the
    title (the placeholder when that fragment has none); the fragments
    after the first are not read. *)
Theorem page_title_is_first_fragment :
  forall (page : json) (properties : dict),
    Py.getitem page (JStr "properties") = Ok (JDict properties) ->
    (Dict.lookup title_property properties = None ->
     _get_page_title page = Ok (JStr untitled))
    /\
    (forall title_prop,
        Dict.lookup title_property properties = Some (JDict title_prop) ->
        Dict.lookup "title" title_prop = None ->
        _get_page_title page = Ok (JStr untitled))
    /\
    (forall title_prop first others,
        Dict.lookup title_property properties = Some (JDict title_prop) ->
        Dict.lookup "title" title_prop
          = Some (JList (JDict first :: others)) ->
        _get_page_title page
        = Ok (match Dict.lookup "plain_text" first with
              | Some text => text
              | None => JStr untitled
              end)).
Proof.
  intros page properties Hprops. unfold _get_page_title.
  rewrite Hprops. simpl. repeat split.
  - intros ->. reflexivity.
  - intros title_prop -> Htitle. simpl. rewrite Htitle. reflexivity.
  - intros title_prop first others -> Htitle. simpl. rewrite Htitle.
    simpl. destruct (Dict.lookup "plain_text" first); reflexivity.
Qed.

Lemma page_title_is_first_fragment_witness :
  _get_page_title Sample.page_with_two_fragments = Ok (JStr "Water").
Proof.
  apply (proj2 (proj2 (page_title_is_first_fragment
                         Sample.page_with_two_fragments _ eq_refl))
           [("title", JList [ JDict [("plain_text", JStr "Water")];
                              JDict [("plain_text", JStr " the plants")] ])]
           [("plain_text", JStr "Water")]
           [JDict [("plain_text", JStr " the plants")]]);
    reflexivity.
Defined.

(* ------------------------------------------------------------------ *)
(** ** The exit status of the script *)

(** What [batch_process_tasks] raises is what its body raised, after
    the line that reports it. *)
Lemma batch_process_tasks_raises (cfg : config) (api : notion_api)
  (now_isoformat : nat -> string) (fuel : nat) (w w' : world) (e : exn) :
  batch_process_tasks cfg api now_isoformat fuel w = (w', Raise e) ->
  exists earlier, log w' = (earlier ++ [ERROR_exn "流程中断: " e])%list.
Proof.
  unfold batch_process_tasks, try_except_Exception.
  match goal with
  | |- context [match ?body w with _ => _ end] =>
      destruct (body w) as [w0 [[] | e0 |]]
  end; try discriminate.
  unfold logger_error_exn, bind, modify, raise. intros H.
  inversion H; subst. exists (log w0). reflexivity.
Qed.

(** X19: the script exits with status 0 only when the configuration
    loads and the run returns, and its last log line is then the
    summary line of that run; it exits with status 1 only when
    loading the configuration or the run raises, and its last log
    line then reports that very exception (after the line the run
    itself wrote for it); it has no other status. *)
Theorem main_exit_status :
  forall (getenv : environ) (api : notion_api)
         (now_isoformat : nat -> string) (fuel : nat),
    let run := main getenv api now_isoformat fuel in
    forall code, snd run = Some code ->
      (code = 0 /\
       exists cfg earlier total success,
         _load_config getenv = Ok cfg /\
         batch_process_tasks cfg api now_isoformat fuel initial_world
         = (fst run, Ok tt) /\
         log (fst run) =
           (earlier ++
            [INFO [ Lit "处理完成 | 总数: "; Val (JInt total);
                    Lit " | 成功: "; Val (JInt success);
                    Lit " | 失败: "; Val (JInt (total - success)) ]])%list)
      \/
      (code = 1 /\
       exists e,
         (_load_config getenv = Raise e /\
          log (fst run) = [ERROR_exn "程序终止: " e])
         \/
         (exists cfg w earlier,
             _load_config getenv = Ok cfg /\
             batch_process_tasks cfg api now_isoformat fuel initial_world
             = (w, Raise e) /\
             log w = (earlier ++ [ERROR_exn "流程中断: " e])%list /\
             log (fst run) = (log w ++ [ERROR_exn "程序终止: " e])%list)).
Proof.
  intros getenv api now_isoformat fuel. cbv zeta. unfold main.
  destruct (_load_config getenv) as [cfg | e |].
  - destruct (batch_process_tasks cfg api now_isoformat fuel initial_world)
      as [w [[] | e |]] eqn:Hrun; simpl; intros code Hcode;
      inversion Hcode; subst.
    + left. split; [reflexivity|].
      destruct (batch_process_tasks_summary _ _ _ _ _ _ Hrun)
        as (total & success & new & earlier & Hlog & _).
      exists cfg, earlier, total, success.
      split; [reflexivity|]. split; [exact Hrun | exact Hlog].
    + right. split; [reflexivity|]. exists e. right.
      destruct (batch_process_tasks_raises _ _ _ _ _ _ _ Hrun)
        as (earlier & Hlog).
      exists cfg, w, earlier. repeat split; assumption.
  - simpl. intros code Hcode. inversion Hcode; subst.
    right. split; [reflexivity|]. exists e. left. split; reflexivity.
  - simpl. discriminate.
Qed.

Lemma main_exit_status_witness :
  (exists earlier total success,
      log (fst (main Sample.getenv Sample.small_api Sample.now_isoformat 3))
      = (earlier ++
         [INFO [ Lit "处理完成 | 总数: "; Val (JInt total);
                 Lit " | 成功: "; Val (JInt success);
                 Lit " | 失败: "; Val (JInt (total - success)) ]])%list)
  /\
  (exists earlier e,
      log (fst (main Sample.getenv Sample.number_api Sample.now_isoformat 3))
      = (earlier ++
         [ERROR_exn "流程中断: " e; ERROR_exn "程序终止: " e])%list)
  /\
  (exists e,
      _load_config Sample.incomplete_getenv = Raise e /\
      log (fst (main Sample.incomplete_getenv Sample.small_api
                  Sample.now_isoformat 3))
      = [ERROR_exn "程序终止: " e]).
Proof.
  split; [|split].
  - destruct (main_exit_status Sample.getenv Sample.small_api
                Sample.now_isoformat 3 0)
      as [(_ & cfg & earlier & total & success & _ & _ & Hlog)
         | (Hcode & _)].
    + vm_compute. reflexivity.
    + exists earlier, total, success. exact Hlog.
    + discriminate Hcode.
  - destruct (main_exit_status Sample.getenv Sample.number_api
                Sample.now_isoformat 3 1)
      as [(Hcode & _)
         | (_ & e & [(Hload & _)
                    | (cfg & w & earlier & _ & _ & Hw & Hlog)])].
    + vm_compute. reflexivity.
    + discriminate Hcode.
    + vm_compute in Hload. discriminate Hload.
    + exists earlier, e. rewrite Hlog, Hw, <- app_assoc. reflexivity.
  - destruct (main_exit_status Sample.incomplete_getenv Sample.small_api
                Sample.now_isoformat 3 1)
      as [(Hcode & _)
         | (_ & e & [(Hload & Hlog)
                    | (cfg & w & earlier & Hload & _)])].
    + vm_compute. reflexivity.
    + discriminate Hcode.
    + exists e. split; assumption.
    + vm_compute in Hload. discriminate Hload.
Defined.

(* ------------------------------------------------------------------ *)
(** ** The further properties on the sample data *)

Lemma sample_page_prepared (api : notion_api) (id : string) (w : world) :
  schema_cache w = Some Sample.schema ->
  exists w1 update_data,
    _prepare_update_data Sample.cfg api Sample.now_isoformat
      (Sample.page id) w = (w1, Ok update_data).
Proof.
  intros Hcache.
  assert (Hid : exists w0 v,
             _get_status_id Sample.cfg api "Status" w = (w0, Ok v)).
  { rewrite get_status_id_run.
    destruct (Dict.lookup "Status" (status_cache w)) as [v|]; [eauto|].
    rewrite (get_db_schema_cached _ _ _ _ Hcache). simpl. eauto. }
  destruct Hid as (w0 & v & Hid).
  unfold _prepare_update_data, bind at 1.
  change (STATUS_COLUMNS Sample.cfg) with ["Status"].
  cbn [status_properties]. unfold bind at 1. rewrite Hid.
  eexists. eexists. reflexivity.
Qed.

Lemma sample_pages_prepared (api : notion_api) (ids : list string) :
  payloads_prepared Sample.cfg api Sample.now_isoformat Sample.schema
    (map Sample.page ids).
Proof.
  intros page Hin w Hcache. apply in_map_iff in Hin.
  destruct Hin as (id & <- & _). now apply sample_page_prepared.
Qed.

Lemma sample_answers (api : notion_api) :
  pages_update api = Sample.update_answers -> updates_answered api.
Proof.
  intros E n args. rewrite E.
  destruct n as [|[|n]]; eexists; simpl; eauto.
Qed.

Lemma pagination_visits_every_page_witness :
  exists w' success,
    while_true Sample.cfg Sample.book_api Sample.now_isoformat 3
      Sample.query 0 0 Sample.world_with_schema = (w', Ok (success, 3)) /\
    query_calls w' =
      [ (JDict Sample.query, Returned (JDict (nth 0 Sample.book [])));
        (JDict (Dict.set "start_cursor" (JStr "c1") Sample.query),
         Returned (JDict (nth 1 Sample.book [])));
        (JDict (Dict.set "start_cursor" (JStr "c2")
                  (Dict.set "start_cursor" (JStr "c1") Sample.query)),
         Returned (JDict (nth 2 Sample.book []))) ] /\
    length (query_calls w') = 3%nat /\
    length (update_calls w') = 3%nat.
Proof.
  apply (pagination_visits_every_page Sample.cfg Sample.book_api
           Sample.now_isoformat Sample.book 3 Sample.query
           Sample.world_with_schema Sample.schema).
  - reflexivity.
  - simpl. repeat split. exists (JStr "c1"). repeat split.
    exists (JStr "c2"). repeat split.
  - exact (sample_pages_prepared Sample.book_api ["a"; "b"; "c"]).
  - now apply sample_answers.
  - simpl. lia.
Defined.

Lemma missing_cursor_raises_after_the_page_witness :
  exists w1,
    while_true Sample.cfg Sample.cursorless_api Sample.now_isoformat 3
      Sample.query 0 0 Sample.world_with_schema
    = (w1, Raise (KeyError (JStr "next_cursor"))) /\
    length (update_calls w1) = 1%nat.
Proof.
  apply (missing_cursor_raises_after_the_page Sample.cfg
           Sample.cursorless_api Sample.now_isoformat 2 Sample.query
           Sample.cursorless_page Sample.schema 0 0
           Sample.world_with_schema);
    try reflexivity.
  - exact (sample_pages_prepared Sample.cursorless_api ["a"]).
  - now apply sample_answers.
Defined.

Lemma response_without_results_ends_the_loop_witness :
  while_true Sample.cfg Sample.blank_api Sample.now_isoformat 1
    Sample.query 0 0 Sample.world_with_schema
  = (queried (JDict Sample.query) (Returned (JDict []))
       Sample.world_with_schema,
     Ok (0, 0)).
Proof.
  apply (response_without_results_ends_the_loop Sample.cfg Sample.blank_api
           Sample.now_isoformat 0 Sample.query [] 0 0
           Sample.world_with_schema);
    reflexivity.
Defined.

(* ------------------------------------------------------------------ *)
(** ** The queries of a run *)

Section Queries.

Variable cfg : config.
Variable api : notion_api.
Variable now_isoformat : nat -> string.

Notation loop := (while_true cfg api now_isoformat).

Lemma same_queries_for_page_in (pages : list json) (success : Z) :
  preserves same_queries (for_page_in cfg api now_isoformat pages success).
Proof.
  apply (preserves_for_page_in same_queries);
    try (intros; reflexivity).
  - intros w1 w2 w3 H12 H23. unfold same_queries in *. congruence.
  - intros column w w' r H.
    now destruct (keeps_get_status_id _ _ _ _ _ _ H).
Qed.

(** The queries a loop adds are the query it was given, with
    [start_cursor] rewritten at most. *)
Lemma while_true_queries (fuel : nat) :
  forall (query : dict) (success total : Z) (w w' : world)
         (r : result (Z * Z)),
    loop fuel query success total w = (w', r) ->
    exists new,
      query_calls w' = (query_calls w ++ new)%list /\
      hd_error (map fst new)
      = match fuel with O => None | S _ => Some (JDict query) end /\
      forall q, In q (map fst new) ->
        exists d, q = JDict d /\
          forall k, k <> "start_cursor" ->
                    Dict.lookup k d = Dict.lookup k query.
Proof.
  induction fuel as [|fuel IH]; intros query success total w w' r H.
  { inversion H; subst. exists []. rewrite app_nil_r.
    repeat split. intros q []. }
  rewrite while_true_S in H. unfold bind at 1 in H.
  rewrite notion_databases_query_step in H. cbv zeta in H.
  set (answered := databases_query api (length (query_calls w))
                     (JDict query)) in H.
  set (w0 := queried (JDict query) answered w) in H.
  assert (Hone :
    forall w1, query_calls w1 = query_calls w0 ->
    exists new,
      query_calls w1 = (query_calls w ++ new)%list /\
      hd_error (map fst new) = Some (JDict query) /\
      forall q, In q (map fst new) ->
        exists d, q = JDict d /\
          forall k, k <> "start_cursor" ->
                    Dict.lookup k d = Dict.lookup k query).
  { intros w1 Hq. exists [(JDict query, answered)]. repeat split.
    - exact Hq.
    - intros q [<- | []]. exists query. split; [reflexivity | auto]. }
  destruct answered as [response | body | what]; simpl in H;
    try (inversion H; subst; now apply Hone).
  unfold ret at 1 in H. unfold bind at 1, lift at 1 in H.
  destruct (Py.get response "results" (JList [])) as [pages | e |];
    try (inversion H; subst; now apply Hone).
  unfold bind at 1, lift at 1 in H.
  destruct (Py.len pages) as [n | e |];
    try (inversion H; subst; now apply Hone).
  unfold bind at 1, lift at 1 in H.
  destruct (Py.iter pages) as [items | e |];
    try (inversion H; subst; now apply Hone).
  unfold bind at 1 in H.
  destruct (for_page_in cfg api now_isoformat items success w0)
    as [w1 res] eqn:Hdrain.
  pose proof (same_queries_for_page_in _ _ _ _ _ Hdrain) as Hq1.
  destruct res as [s1 | e |]; try (inversion H; subst; now apply Hone).
  unfold bind at 1, lift at 1 in H.
  destruct (Py.get response "has_more" JNone) as [flag | e |];
    try (inversion H; subst; now apply Hone).
  destruct (negb (Py.truthy flag));
    [inversion H; subst; now apply Hone|].
  unfold bind at 1, lift at 1 in H.
  destruct (Py.getitem response (JStr "next_cursor")) as [cursor | e |];
    try (inversion H; subst; now apply Hone).
  destruct (IH _ _ _ _ _ _ H) as (new & Hnew & _ & Hall).
  exists ((JDict query, Returned response) :: new). repeat split.
  - rewrite Hnew, Hq1. unfold w0, queried, with_query_calls.
    cbn [query_calls]. rewrite <- app_assoc. reflexivity.
  - intros q [<- | Hin]; [exists query; split; [reflexivity | auto]|].
    destruct (Hall q Hin) as (d & -> & Hd). exists d. split; [reflexivity|].
    intros k Hk. rewrite (Hd k Hk). now apply lookup_set_other.
Qed.

(** X21: every query of a run carries the configured database id,
    the filter that [_build_frequency_filter] returned and the page
    size 100, and nothing else but, possibly, [start_cursor]; the
    first query is these three entries alone: from one page to the
    next only [start_cursor] changes.  A run whose filter cannot be
    built makes no query. *)
Theorem queries_keep_database_and_page_size :
  forall (fuel : nat) (w : world),
    let w' := fst (batch_process_tasks cfg api now_isoformat fuel w) in
    exists new,
      query_calls w' = (query_calls w ++ new)%list /\
      (forall q, In q (map fst new) ->
         exists d filter w0,
           q = JDict d /\
           _build_frequency_filter cfg api w = (w0, Ok filter) /\
           Dict.lookup "database_id" d
           = Some (of_opt (NOTION_DATABASE_ID cfg)) /\
           Dict.lookup "filter" d = Some filter /\
           Dict.lookup "page_size" d = Some (JInt 100) /\
           (forall k, k <> "database_id" -> k <> "filter" ->
                      k <> "page_size" -> k <> "start_cursor" ->
                      Dict.lookup k d = None)) /\
      (forall q, hd_error (map fst new) = Some q ->
         exists filter w0,
           _build_frequency_filter cfg api w = (w0, Ok filter) /\
           q = JDict [ ("database_id", of_opt (NOTION_DATABASE_ID cfg));
                       ("filter", filter);
                       ("page_size", JInt 100) ]).
Proof.
  intros fuel w. cbv zeta.
  unfold batch_process_tasks, try_except_Exception, bind at 1.
  destruct (_build_frequency_filter cfg api w) as [w0 [filter | e |]]
    eqn:Hfilter;
    destruct (keeps_build_frequency_filter _ _ _ _ _ Hfilter) as (Hq0 & _).
  2,3: exists []; simpl; rewrite app_nil_r; repeat split;
       [assumption | intros q [] | discriminate].
  unfold bind at 1.
  match goal with
  | |- context [loop fuel ?q 0 0 w0] =>
      destruct (loop fuel q 0 0 w0) as [w1 res] eqn:Hloop;
      destruct (while_true_queries _ _ _ _ _ _ _ Hloop)
        as (new & Hnew & Hhead & Hall)
  end.
  exists new. split; [|split].
  - destruct res as [[success total] | e |];
      unfold logger_info, logger_error_exn, bind, modify, raise; simpl;
      now rewrite Hnew, Hq0.
  - intros q Hin. destruct (Hall q Hin) as (d & -> & Hd).
    exists d, filter, w0. split; [reflexivity|]. split; [reflexivity|].
    rewrite !Hd by discriminate.
    split; [reflexivity|]. split; [reflexivity|]. split; [reflexivity|].
    intros k Hk1 Hk2 Hk3 Hk4. rewrite (Hd k Hk4). simpl.
    apply String.eqb_neq in Hk1, Hk2, Hk3.
    rewrite String.eqb_sym in Hk1, Hk2, Hk3.
    rewrite ?Hk1, ?Hk2, ?Hk3.
    rewrite String.eqb_sym in Hk1, Hk2, Hk3.
    rewrite ?Hk1, ?Hk2, ?Hk3. reflexivity.
  - intros q Hq. rewrite Hq in Hhead. destruct fuel; [discriminate|].
    inversion Hhead; subst. exists filter, w0. split; reflexivity.
Qed.

End Queries.

(* ------------------------------------------------------------------ *)
(** ** The builder on a loaded configuration *)

Lemma getitem_name_no_index_error (c : json) (name : option string) :
  Py.getitem c (of_opt name) <> Raise IndexError.
Proof.
  destruct c, name; simpl; try discriminate;
    destruct (Dict.lookup _ _); discriminate.
Qed.

Lemma getitem_key_no_index_error (c : json) (k : string) :
  Py.getitem c (JStr k) <> Raise IndexError.
Proof. exact (getitem_name_no_index_error c (Some k)). Qed.

Lemma map_result_length {A B} (f : A -> result B) (l : list A)
  (bs : list B) :
  map_result f l = Ok bs -> length bs = length l.
Proof.
  revert bs. induction l as [|a l IH]; intros bs; simpl.
  - intros H. inversion H. reflexivity.
  - unfold rbind. destruct (f a); try discriminate.
    destruct (map_result f l); try discriminate.
    intros H. inversion H. simpl. now rewrite (IH _ eq_refl).
Qed.

Lemma map_result_raises {A B} (f : A -> result B) (l : list A) (e : exn) :
  map_result f l = Raise e -> exists a, In a l /\ f a = Raise e.
Proof.
  induction l as [|a l IH]; simpl; [discriminate|].
  unfold rbind. destruct (f a) eqn:Ha.
  - destruct (map_result f l); try discriminate.
    intros H. inversion H; subst.
    destruct (IH eq_refl) as (a' & Hin & Hf). eauto.
  - intros H. inversion H; subst. eauto.
  - discriminate.
Qed.

Lemma filter_condition_no_index_error (cfg : config) (prop_type : json)
  (config : filter_config) (status : string) :
  filter_condition cfg prop_type config status <> Raise IndexError.
Proof.
  unfold filter_condition.
  destruct (Py.eq_opt_str prop_type (Some "multi_select")); [|discriminate].
  unfold setitem2, rbind.
  pose proof (getitem_key_no_index_error
                (JDict (generic_condition cfg config status))
                "multi_select") as Hno.
  destruct (Py.getitem (JDict (generic_condition cfg config status))
              (JStr "multi_select")) as [inner | e |];
    [destruct inner; discriminate | congruence | discriminate].
Qed.

Lemma build_frequency_filter_run (cfg : config) (api : notion_api)
  (w : world) :
  _build_frequency_filter cfg api w =
    match _get_db_schema cfg api w with
    | (w', Ok schema) => (w', filter_for cfg schema)
    | (w', Raise e) => (w', Raise e)
    | (w', OutOfFuel) => (w', OutOfFuel)
    end.
Proof.
  unfold _build_frequency_filter, bind at 1.
  destruct (_get_db_schema cfg api w) as [w' [schema | e |]];
    try reflexivity.
  unfold filter_for, bind, lift, ret, rbind.
  repeat match goal with
         | |- context [match ?x with Ok _ => _ | Raise _ => _
                                | OutOfFuel => _ end] =>
             destruct x; try reflexivity
         end.
  destruct (1 <? _); reflexivity.
Qed.

Lemma filter_for_no_index_error (cfg : config) (schema : json) :
  FREQUENCY_STATUS cfg <> [] -> filter_for cfg schema <> Raise IndexError.
Proof.
  intros Hvalues. unfold filter_for, rbind.
  pose proof (getitem_key_no_index_error schema "properties").
  destruct (Py.getitem schema (JStr "properties")) as [props | e |];
    [|congruence | discriminate].
  pose proof (getitem_name_no_index_error props (FREQUENCY_NAME cfg)).
  destruct (Py.getitem props (of_opt (FREQUENCY_NAME cfg))) as [info | e |];
    [|congruence | discriminate].
  pose proof (getitem_key_no_index_error info "type").
  destruct (Py.getitem info (JStr "type")) as [prop_type | e |];
    [|congruence | discriminate].
  destruct (filter_config_of prop_type) as [config | e |] eqn:Hconfig.
  - destruct (map_result (filter_condition cfg prop_type config)
                (FREQUENCY_STATUS cfg)) as [filters | e |] eqn:Hmap.
    + apply map_result_length in Hmap.
      destruct filters as [|f filters].
      * destruct (FREQUENCY_STATUS cfg); [congruence | discriminate].
      * destruct (1 <? _); [discriminate | simpl; discriminate].
    + intros E. inversion E; subst.
      destruct (map_result_raises _ _ _ Hmap) as (a & _ & Ha).
      now apply filter_condition_no_index_error in Ha.
    + discriminate.
  - intros E. inversion E; subst.
    destruct prop_type; unfold filter_config_of, unsupported_type in Hconfig;
      try discriminate.
    destruct (Dict.lookup s filter_type_map); discriminate.
  - discriminate.
Qed.

(** X20: with a loaded configuration the builder never raises
    [IndexError]: the list of conditions it indexes has one condition
    per frequency value, and a loaded configuration has at least one
    value. *)
Theorem loaded_config_never_indexes_an_empty_filter :
  forall (getenv : environ) (cfg : config) (api : notion_api) (w : world),
    _load_config getenv = Ok cfg ->
    snd (_build_frequency_filter cfg api w) <> Raise IndexError.
Proof.
  intros getenv cfg api w Hload.
  assert (Hvalues : FREQUENCY_STATUS cfg <> []).
  { revert Hload. unfold _load_config. cbv zeta.
    match goal with |- context [missing_fields ?l] => set (loaded := l) end.
    pose proof (proj1 (missing_fields_none loaded)) as Hnone.
    destruct (missing_fields loaded); [|discriminate].
    intros H. inversion H; subst. now apply Hnone. }
  rewrite build_frequency_filter_run, get_db_schema_run.
  destruct (schema_cache w) as [schema|].
  - simpl. now apply filter_for_no_index_error.
  - cbv zeta. destruct (snd (retrieve_call cfg api w)) as [schema | |];
      simpl; try discriminate.
    now apply filter_for_no_index_error.
Qed.

Lemma loaded_config_never_indexes_an_empty_filter_witness :
  snd (_build_frequency_filter Sample.cfg Sample.api initial_world)
  <> Raise IndexError.
Proof.
  apply (loaded_config_never_indexes_an_empty_filter Sample.getenv
           Sample.cfg Sample.api initial_world).
  reflexivity.
Defined.
